(** * Neutra workout screen: session engine, persistence writer, personal
    records and rest timer

    Shallow embedding of [WorkoutScreen] (app/(tabs)/index.tsx), of the
    [RestTimer] component and of the schema created by the database
    provider, with the properties of the workout-session specification
    stated and settled against them. *)

From Stdlib Require Import ZArith List String Ascii Bool Lia QArith.
From Stdlib Require Import DecimalString DecimalPos DecimalZ.
Import ListNotations.
Open Scope string_scope.
Open Scope list_scope.
Open Scope Z_scope.

Set Implicit Arguments.

(* ================================================================== *)
(** * JavaScript numbers *)

(** Weights, reps and the values derived from them are JavaScript
    [number]s.  Their arithmetic is kept uninterpreted: the development
    only relies on the operators the screen uses ([+], [*], [/], [<],
    [===], [Math.max]) and never on an algebraic law of [+], [*] or [/],
    so rounding is not an issue. *)
Class JsNumber : Type := {
  num : Type;
  of_Z : Z -> num;                 (* integer literal *)
  nadd : num -> num -> num;        (* a + b *)
  nmul : num -> num -> num;        (* a * b *)
  ndiv : num -> num -> num;        (* a / b *)
  nlt : num -> num -> bool;        (* a < b *)
  neq : num -> num -> bool;        (* a === b *)
  nmax : num -> num -> num;        (* Math.max(a, b) *)
}.

(** [a > b] is [b < a]. *)
Definition ngt {J : JsNumber} (a b : num) : bool := nlt b a.

(** The comparison laws of numbers other than NaN (the inputs of the
    screen go through [parseFloat(text) || 0], which maps NaN to 0). *)
Class JsOrder (J : JsNumber) : Prop := {
  nlt_irrefl : forall a, nlt a a = false;
  nlt_trans : forall a b c, nlt a b = true -> nlt b c = true -> nlt a c = true;
  nlt_cotrans : forall a b c, nlt a c = true -> nlt a b = true \/ nlt b c = true;
  neq_spec : forall a b, neq a b = negb (nlt a b) && negb (nlt b a);
  nmax_cases : forall a b, nmax a b = a \/ nmax a b = b;
  nmax_ge_l : forall a b, nlt (nmax a b) a = false;
  nmax_ge_r : forall a b, nlt (nmax a b) b = false;
}.

(** Exact rationals are one such number system; the examples run on it. *)
Definition Qlt_bool (a b : Q) : bool := negb (Qle_bool b a).

#[export] Instance QNumber : JsNumber := {|
  num := Q;
  of_Z := inject_Z;
  nadd := Qplus;
  nmul := Qmult;
  ndiv := Qdiv;
  nlt := Qlt_bool;
  neq := Qeq_bool;
  nmax := fun a b => if Qlt_bool a b then b else a;
|}.

(* ================================================================== *)
(** * Helpers for JavaScript arrays *)

(** [xs[i]] for an integer index: [undefined] (here [None]) outside
    [0 .. length-1], in particular at [-1]. *)
Definition js_index {A} (xs : list A) (i : Z) : option A :=
  if i <? 0 then None else nth_error xs (Z.to_nat i).

(** [xs.filter((x, index) => p x index)], indices counted from [k]. *)
Fixpoint filteri_from {A} (p : A -> nat -> bool) (k : nat) (xs : list A) : list A :=
  match xs with
  | [] => []
  | x :: xs' =>
      if p x k then x :: filteri_from p (S k) xs' else filteri_from p (S k) xs'
  end.

Definition filteri {A} (p : A -> nat -> bool) (xs : list A) : list A :=
  filteri_from p 0 xs.

(** [xs.forEach((x, index) => ...)] that rewrites each element in place,
    indices counted from [k]. *)
Fixpoint mapi_from {A B} (f : A -> nat -> B) (k : nat) (xs : list A) : list B :=
  match xs with
  | [] => []
  | x :: xs' => f x k :: mapi_from f (S k) xs'
  end.

Definition mapi {A B} (f : A -> nat -> B) (xs : list A) : list B :=
  mapi_from f 0 xs.

(** [xs[i] = v] for an index that is in range. *)
Fixpoint set_nth {A} (i : nat) (v : A) (xs : list A) : list A :=
  match xs, i with
  | [], _ => []
  | _ :: xs', O => v :: xs'
  | x :: xs', S i' => x :: set_nth i' v xs'
  end.

(** [v || d] on an optional string: [undefined] and [''] are falsy. *)
Definition or_empty (v : option string) : string :=
  match v with
  | Some s => s
  | None => ""
  end.

(** [v || null] on an optional integer: [undefined] and [0] are falsy. *)
Definition truthy_Z (v : option Z) : option Z :=
  match v with
  | Some 0 => None
  | Some n => Some n
  | None => None
  end.

(* ================================================================== *)
(** * Data model of the workout screen *)

Section Model.
Context {J : JsNumber}.

Record Exercise : Type := {
  ex_id : Z;
  ex_name : string;
  category : string;
  primary_muscle : string;
  equipment : string;
  difficulty_level : Z;
  instructions : string;
}.

Record WorkoutSet : Type := {
  set_number : Z;
  reps : num;
  weight : num;
  completed : bool;
  is_warmup : bool;
  rest_time_seconds : option Z;
  rpe : option Z;
  set_notes : option string;
}.

Record ActiveExercise : Type := {
  exercise : Exercise;
  sets : list WorkoutSet;
  notes : option string;
}.

Record User : Type := {
  user_id : Z;
  preferred_weight_unit : string;
}.

(** The React state of [WorkoutScreen] that the session engine reads and
    writes.  [workoutStartTime] is a [Date] in milliseconds. *)
Record State : Type := {
  isWorkoutActive : bool;
  workoutStartTime : option Z;
  activeExercises : list ActiveExercise;
  showExerciseModal : bool;
  timer : Z;
  showRestTimer : bool;
  currentRestTime : Z;
  workoutNotes : string;
}.

Definition initialState : State := {|
  isWorkoutActive := false;
  workoutStartTime := None;
  activeExercises := [];
  showExerciseModal := false;
  timer := 0;
  showRestTimer := false;
  currentRestTime := 60;
  workoutNotes := "";
|}.

Definition setActiveExercises (exs : list ActiveExercise) (s : State) : State :=
  {| isWorkoutActive := isWorkoutActive s;
     workoutStartTime := workoutStartTime s;
     activeExercises := exs;
     showExerciseModal := showExerciseModal s;
     timer := timer s;
     showRestTimer := showRestTimer s;
     currentRestTime := currentRestTime s;
     workoutNotes := workoutNotes s |}.

Definition with_sets (ex : ActiveExercise) (ss : list WorkoutSet) : ActiveExercise :=
  {| exercise := exercise ex; sets := ss; notes := notes ex |}.

Definition with_set_number (st : WorkoutSet) (n : Z) : WorkoutSet :=
  {| set_number := n;
     reps := reps st;
     weight := weight st;
     completed := completed st;
     is_warmup := is_warmup st;
     rest_time_seconds := rest_time_seconds st;
     rpe := rpe st;
     set_notes := set_notes st |}.

(* ================================================================== *)
(** * Session state machine *)

(** [startWorkout]: [new Date()] is the argument [now]. *)
Definition startWorkout (now : Z) (s : State) : State :=
  {| isWorkoutActive := true;
     workoutStartTime := Some now;
     activeExercises := activeExercises s;
     showExerciseModal := showExerciseModal s;
     timer := 0;
     showRestTimer := showRestTimer s;
     currentRestTime := currentRestTime s;
     workoutNotes := workoutNotes s |}.

Definition resetWorkout (s : State) : State :=
  {| isWorkoutActive := false;
     workoutStartTime := None;
     activeExercises := [];
     showExerciseModal := showExerciseModal s;
     timer := 0;
     showRestTimer := showRestTimer s;
     currentRestTime := currentRestTime s;
     workoutNotes := "" |}.

(** One row of [template_exercises] joined with [exercises], as
    [loadTemplate] reads it. *)
Record TemplateRow : Type := {
  te_exercise : Exercise;
  default_sets : nat;
  default_reps : num;
  default_weight : num;
  te_rest_time_seconds : option Z;
  te_notes : option string;
}.

Definition templateSets (te : TemplateRow) : list WorkoutSet :=
  map (fun i =>
         {| set_number := Z.of_nat i + 1;
            reps := default_reps te;
            weight := default_weight te;
            completed := false;
            is_warmup := Nat.eqb i 0;
            rest_time_seconds := te_rest_time_seconds te;
            rpe := None;
            set_notes := None |})
      (seq 0 (default_sets te)).

(** [loadTemplate] is asynchronous: it is called in one render and
    runs its last two statements once [db.getAllAsync] has resolved.
    [s] is the state at that later moment and [rows] what the query
    returned.  [isWorkoutActive] in [if (!isWorkoutActive)] is the
    constant of the render in which [loadTemplate] was called, so the
    flag tested is the one captured at the call, [activeAtCall], not
    the flag of [s]. *)
Definition loadTemplate (rows : list TemplateRow) (now : Z) (activeAtCall : bool)
    (s : State) : State :=
  let loadedExercises :=
    map (fun te => {| exercise := te_exercise te;
                      sets := templateSets te;
                      notes := te_notes te |}) rows in
  let s1 := setActiveExercises loadedExercises s in
  if negb activeAtCall then startWorkout now s1 else s1.

(** The "Start Empty Workout" button is rendered only while the workout
    is not active; pressing it calls [startWorkout]. *)
Definition startButtonRendered (s : State) : bool := negb (isWorkoutActive s).

Definition pressStart (now : Z) (s : State) : State :=
  if startButtonRendered s then startWorkout now s else s.

Definition addExercise (e : Exercise) (s : State) : State :=
  let newActiveExercise :=
    {| exercise := e;
       sets := [ {| set_number := 1;
                    reps := of_Z 0;
                    weight := of_Z 0;
                    completed := false;
                    is_warmup := true;
                    rest_time_seconds := None;
                    rpe := None;
                    set_notes := None |} ];
       notes := None |} in
  {| isWorkoutActive := isWorkoutActive s;
     workoutStartTime := workoutStartTime s;
     activeExercises := activeExercises s ++ [newActiveExercise];
     showExerciseModal := false;
     timer := timer s;
     showRestTimer := showRestTimer s;
     currentRestTime := currentRestTime s;
     workoutNotes := workoutNotes s |}.

(** [addSet].  [None] is the [TypeError] raised when
    [updatedExercises[exerciseIndex]] or [lastSet] is [undefined]. *)
Definition addSet (exerciseIndex : nat) (s : State) : option State :=
  let updatedExercises := activeExercises s in
  match nth_error updatedExercises exerciseIndex with
  | None => None
  | Some ex =>
      match js_index (sets ex) (Z.of_nat (List.length (sets ex)) - 1) with
      | None => None
      | Some lastSet =>
          let newSet :=
            {| set_number := set_number lastSet + 1;
               reps := reps lastSet;
               weight := weight lastSet;
               completed := false;
               is_warmup := false;
               rest_time_seconds := rest_time_seconds lastSet;
               rpe := None;
               set_notes := None |} in
          Some (setActiveExercises
                  (set_nth exerciseIndex (with_sets ex (sets ex ++ [newSet]))
                           updatedExercises) s)
      end
  end.

(** [removeExercise]. *)
Definition removeExercise (exerciseIndex : nat) (s : State) : State :=
  setActiveExercises
    (filteri (fun _ index => negb (Nat.eqb index exerciseIndex)) (activeExercises s)) s.

(** [removeSet]: filter out the index, then renumber what is left.
    [None] is the [TypeError] of an [exerciseIndex] out of range. *)
Definition removeSet (exerciseIndex setIndex : nat) (s : State) : option State :=
  let updatedExercises := activeExercises s in
  match nth_error updatedExercises exerciseIndex with
  | None => None
  | Some ex =>
      let kept := filteri (fun _ index => negb (Nat.eqb index setIndex)) (sets ex) in
      let renumbered := mapi (fun st index => with_set_number st (Z.of_nat index + 1)) kept in
      Some (setActiveExercises
              (set_nth exerciseIndex (with_sets ex renumbered) updatedExercises) s)
  end.

(** The add/remove-set operations on one exercise, and a run of them;
    the run stops with [None] at the first operation that throws. *)
Inductive SetOp : Type :=
| OpAddSet
| OpRemoveSet (setIndex : nat).

Definition applySetOp (exerciseIndex : nat) (op : SetOp) (s : State) : option State :=
  match op with
  | OpAddSet => addSet exerciseIndex s
  | OpRemoveSet setIndex => removeSet exerciseIndex setIndex s
  end.

Fixpoint runSetOps (exerciseIndex : nat) (ops : list SetOp) (s : State) : option State :=
  match ops with
  | [] => Some s
  | op :: ops' =>
      match applySetOp exerciseIndex op s with
      | None => None
      | Some s' => runSetOps exerciseIndex ops' s'
      end
  end.

(** Set numbers equal the 1-based position. *)
Definition dense (ss : list WorkoutSet) : Prop :=
  forall i st, nth_error ss i = Some st -> set_number st = Z.of_nat i + 1.

End Model.

(* ================================================================== *)
(** * The relational store *)

Section Store.
Context {J : JsNumber}.

(** A value bound to a [?] or stored in a cell.  [VDate ms] stands for
    the ISO string of the date [ms]. *)
Inductive Value : Type :=
| VNull
| VInt (z : Z)
| VNum (x : num)
| VText (s : string)
| VBool (b : bool)
| VDate (ms : Z).

Inductive TableName : Type :=
| workouts
| workout_exercises
| workout_sets
| personal_records.

Record Column : Type := {
  col_name : string;
  not_null : bool;
  has_default : bool;
}.

Definition col (n : string) : Column :=
  {| col_name := n; not_null := false; has_default := false |}.
Definition col_not_null (n : string) : Column :=
  {| col_name := n; not_null := true; has_default := false |}.
Definition col_default (n : string) : Column :=
  {| col_name := n; not_null := false; has_default := true |}.

(** The columns the database provider creates ([CREATE TABLE IF NOT
    EXISTS ...] of its [initDatabase]). *)
Definition schema (t : TableName) : list Column :=
  match t with
  | workouts =>
      [ col "id"; col_not_null "user_id"; col "template_id"; col "name";
        col_not_null "start_time"; col "end_time"; col "duration_seconds";
        col_default "total_volume"; col "notes"; col_default "created_at" ]
  | workout_exercises =>
      [ col "id"; col_not_null "workout_id"; col_not_null "exercise_id";
        col_not_null "order_index"; col "notes" ]
  | workout_sets =>
      [ col "id"; col_not_null "workout_id"; col_not_null "exercise_id";
        col_not_null "set_number"; col_default "reps"; col_default "weight";
        col_default "weight_unit"; col_default "completed";
        col_default "is_warmup"; col "rest_time_seconds"; col "rpe";
        col "notes"; col_default "created_at" ]
  | personal_records =>
      [ col "id"; col_not_null "user_id"; col_not_null "exercise_id";
        col_not_null "record_type"; col_not_null "value"; col "reps";
        col "weight"; col "weight_unit"; col "workout_id";
        col_default "achieved_at" ]
  end.

(** [INSERT INTO into (columns) VALUES (?, ...)] with its bound values;
    [or_replace] for [INSERT OR REPLACE]. *)
Record Insert : Type := {
  or_replace : bool;
  into : TableName;
  columns : list string;
  values : list Value;
}.

Record Row : Type := {
  rowid : Z;
  cells : list (string * Value);
}.

Record Table : Type := {
  rows : list Row;
  last_rowid : Z;
}.

Record Db : Type := {
  t_workouts : Table;
  t_workout_exercises : Table;
  t_workout_sets : Table;
  t_personal_records : Table;
}.

Definition emptyTable : Table := {| rows := []; last_rowid := 0 |}.

Definition emptyDb : Db := {|
  t_workouts := emptyTable;
  t_workout_exercises := emptyTable;
  t_workout_sets := emptyTable;
  t_personal_records := emptyTable;
|}.

Definition table (t : TableName) (d : Db) : Table :=
  match t with
  | workouts => t_workouts d
  | workout_exercises => t_workout_exercises d
  | workout_sets => t_workout_sets d
  | personal_records => t_personal_records d
  end.

Definition set_table (t : TableName) (tb : Table) (d : Db) : Db :=
  match t with
  | workouts =>
      {| t_workouts := tb; t_workout_exercises := t_workout_exercises d;
         t_workout_sets := t_workout_sets d; t_personal_records := t_personal_records d |}
  | workout_exercises =>
      {| t_workouts := t_workouts d; t_workout_exercises := tb;
         t_workout_sets := t_workout_sets d; t_personal_records := t_personal_records d |}
  | workout_sets =>
      {| t_workouts := t_workouts d; t_workout_exercises := t_workout_exercises d;
         t_workout_sets := tb; t_personal_records := t_personal_records d |}
  | personal_records =>
      {| t_workouts := t_workouts d; t_workout_exercises := t_workout_exercises d;
         t_workout_sets := t_workout_sets d; t_personal_records := tb |}
  end.

Fixpoint assoc {A} (k : string) (kvs : list (string * A)) : option A :=
  match kvs with
  | [] => None
  | (k', v) :: kvs' => if String.eqb k k' then Some v else assoc k kvs'
  end.

Definition cell (r : Row) (c : string) : Value :=
  match assoc c (cells r) with
  | Some v => v
  | None => VNull
  end.

Definition is_null (v : Value) : bool :=
  match v with
  | VNull => true
  | _ => false
  end.

Definition declares (t : TableName) (c : string) : bool :=
  existsb (fun k => String.eqb c (col_name k)) (schema t).

(** A [NOT NULL] column must be bound to a non-null value, or be left
    out when it has a default. *)
Definition not_null_ok (bound : list (string * Value)) (k : Column) : bool :=
  if not_null k then
    match assoc (col_name k) bound with
    | Some v => negb (is_null v)
    | None => has_default k
    end
  else true.

(** What the schema alone decides about an insert: the statement binds
    one value per column, names only columns the table has, and
    satisfies every [NOT NULL]. *)
Definition schema_accepts (i : Insert) : bool :=
  Nat.eqb (List.length (columns i)) (List.length (values i))
  && forallb (declares (into i)) (columns i)
  && forallb (not_null_ok (combine (columns i) (values i))) (schema (into i)).

(** Every other reason for the engine to reject an insert (foreign keys,
    [CHECK], storage faults) is left to an arbitrary oracle. *)
Variable engine_ok : Insert -> Db -> bool.

(** Popups requested through [usePopup]. *)
Inductive Popup : Type :=
| ShowConfirmation (title message : string) (onConfirm : State -> State)
| ShowError (title message : string)
| ShowSuccess (title message : string)
| ShowNewRecord (exerciseName : string) (estimated1RM : num) (unit : string).

(** What the handlers act on besides the React state: the store and the
    popups requested so far, oldest first. *)
Record World : Type := {
  db : Db;
  popups : list Popup;
}.

Definition showPopup (p : Popup) (w : World) : World :=
  {| db := db w; popups := popups w ++ [p] |}.

Definition set_db (d : Db) (w : World) : World :=
  {| db := d; popups := popups w |}.

(** An [async] body: it transforms the world and either returns a value
    or throws ([None]).  What was done before the throw stays done. *)
Definition Async (A : Type) : Type := World -> World * option A.

Definition ret {A} (a : A) : Async A := fun w => (w, Some a).

Definition bind {A B} (m : Async A) (k : A -> Async B) : Async B :=
  fun w =>
    match m w with
    | (w1, Some a) => k a w1
    | (w1, None) => (w1, None)
    end.

(** [try { m } catch (error) { }]. *)
Definition try_catch (m : Async unit) : World -> World :=
  fun w => fst (m w).

(** [db.runAsync] of an insert.  Each statement commits on its own; the
    result is [lastInsertRowId].  The only uniqueness constraint of the
    four tables is the [id] key, which the engine assigns (none of the
    screen's statements binds it), so [OR REPLACE] never finds a row to
    replace and the row is appended. *)
Definition runAsync (i : Insert) : Async Z :=
  fun w =>
    if schema_accepts i && engine_ok i (db w) then
      let tb := table (into i) (db w) in
      let id := last_rowid tb + 1 in
      let row := {| rowid := id; cells := combine (columns i) (values i) |} in
      (set_db (set_table (into i) {| rows := rows tb ++ [row]; last_rowid := id |} (db w)) w,
       Some id)
    else (w, None).

Definition show (p : Popup) : Async unit :=
  fun w => (showPopup p w, Some tt).

End Store.

Declare Scope async_scope.
Delimit Scope async_scope with async.
Notation "x <- m ;; k" := (bind m (fun x => k))
  (at level 61, m at next level, right associativity) : async_scope.
Notation "m ;;; k" := (bind m (fun _ => k))
  (at level 61, right associativity) : async_scope.

Local Open Scope async_scope.

(* ================================================================== *)
(** * Persistence writer and personal-record evaluator *)

Section Writer.
Context {J : JsNumber}.
Variable engine_ok : Insert -> Db -> bool.

Local Abbreviation run := (runAsync engine_ok).

(** The [totalVolume] loop of [endWorkout]. *)
Definition totalVolume (exs : list ActiveExercise) : num :=
  fold_left
    (fun tv ex =>
       fold_left
         (fun tv st =>
            if completed st then nadd tv (nmul (weight st) (reps st)) else tv)
         (sets ex) tv)
    exs (of_Z 0).

Definition opt_int (v : option Z) : Value :=
  match v with
  | Some z => VInt z
  | None => VNull
  end.

Definition insertWorkout (u : User) (startTime endTime : Z)
    (exs : list ActiveExercise) (workoutNotes : string) : Insert :=
  {| or_replace := false;
     into := workouts;
     columns := ["user_id"; "start_time"; "end_time"; "duration_seconds";
                 "total_volume"; "notes"];
     values := [VInt (user_id u); VDate startTime; VDate endTime;
                VInt ((endTime - startTime) / 1000);
                VNum (totalVolume exs); VText workoutNotes] |}.

Definition insertWorkoutExercise (workoutId : Z) (i : nat) (ex : ActiveExercise) : Insert :=
  {| or_replace := false;
     into := workout_exercises;
     columns := ["workout_id"; "exercise_id"; "order_index"; "notes"];
     values := [VInt workoutId; VInt (ex_id (exercise ex)); VInt (Z.of_nat i);
                VText (or_empty (notes ex))] |}.

Definition insertWorkoutSet (u : User) (workoutExerciseId : Z) (st : WorkoutSet) : Insert :=
  {| or_replace := false;
     into := workout_sets;
     columns := ["workout_exercise_id"; "set_number"; "reps"; "weight";
                 "weight_unit"; "completed"; "is_warmup"; "rest_time_seconds";
                 "rpe"; "notes"];
     values := [VInt workoutExerciseId; VInt (set_number st); VNum (reps st);
                VNum (weight st); VText (preferred_weight_unit u);
                VBool (completed st); VBool (is_warmup st);
                opt_int (truthy_Z (rest_time_seconds st));
                opt_int (truthy_Z (rpe st));
                VText (or_empty (set_notes st))] |}.

(** [for (const set of activeExercise.sets) await db.runAsync(...)]. *)
Fixpoint saveSets (u : User) (workoutExerciseId : Z) (ss : list WorkoutSet) : Async unit :=
  match ss with
  | [] => ret tt
  | st :: ss' =>
      _ <- run (insertWorkoutSet u workoutExerciseId st) ;;
      saveSets u workoutExerciseId ss'
  end.

(** [for (let i = 0; i < activeExercises.length; i++)], from index [i]. *)
Fixpoint saveExercises (u : User) (workoutId : Z) (i : nat)
    (exs : list ActiveExercise) : Async unit :=
  match exs with
  | [] => ret tt
  | activeExercise :: exs' =>
      workoutExerciseId <- run (insertWorkoutExercise workoutId i activeExercise) ;;
      saveSets u workoutExerciseId (sets activeExercise) ;;;
      saveExercises u workoutId (S i) exs'
  end.

(** The writes of [endWorkout]: header row, then per exercise its row
    and its set rows.  Returns [workoutId]. *)
Definition saveWorkout (u : User) (startTime endTime : Z) (s : State) : Async Z :=
  workoutId <- run (insertWorkout u startTime endTime (activeExercises s) (workoutNotes s)) ;;
  saveExercises u workoutId 0 (activeExercises s) ;;;
  ret workoutId.

(** [Math.max(x, ...xs)]. *)
Definition math_max (x : num) (xs : list num) : num := fold_left nmax xs x.

(** [Number(v)] for what a [value] cell holds. *)
Definition as_num (v : Value) : num :=
  match v with
  | VNum x => x
  | VInt z => of_Z z
  | VBool true => of_Z 1
  | _ => of_Z 0
  end.

Definition int_cell_is (r : Row) (c : string) (z : Z) : bool :=
  match cell r c with
  | VInt z' => Z.eqb z' z
  | _ => false
  end.

Definition text_cell_is (r : Row) (c : string) (t : string) : bool :=
  match cell r c with
  | VText t' => String.eqb t' t
  | _ => false
  end.

(** [db.getFirstAsync('SELECT value FROM personal_records WHERE user_id
    = ? AND exercise_id = ? AND record_type = ...')], as [.value] of the
    first matching row in row order. *)
Definition selectRecord (userId exerciseId : Z) (recordType : string) (d : Db) : option num :=
  option_map (fun r => as_num (cell r "value"))
    (find (fun r => int_cell_is r "user_id" userId
                    && int_cell_is r "exercise_id" exerciseId
                    && text_cell_is r "record_type" recordType)
          (rows (t_personal_records d))).

Definition getFirstAsync (userId exerciseId : Z) (recordType : string) : Async (option num) :=
  fun w => (w, Some (selectRecord userId exerciseId recordType (db w))).

(** [!existing || candidate > existing.value]. *)
Definition beats (candidate : num) (existing : option num) : bool :=
  match existing with
  | None => true
  | Some v => ngt candidate v
  end.

Definition completedSets (ex : ActiveExercise) : list WorkoutSet :=
  filter (fun st => completed st && negb (is_warmup st)) (sets ex).

(** The set the 1RM estimate is taken from. *)
Definition maxWeightOf (cs : list WorkoutSet) : option num :=
  match cs with
  | [] => None
  | st :: cs' => Some (math_max (weight st) (map weight cs'))
  end.

Definition maxWeightSetOf (cs : list WorkoutSet) : option WorkoutSet :=
  match maxWeightOf cs with
  | None => None
  | Some maxWeight => find (fun st => neq (weight st) maxWeight) cs
  end.

(** Epley formula, as written: [maxWeight * (1 + reps / 30)]. *)
Definition estimated1RM (maxWeight setReps : num) : num :=
  nmul maxWeight (nadd (of_Z 1) (ndiv setReps (of_Z 30))).

Definition insertRecord1RM (u : User) (ex : ActiveExercise) (estimated maxWeight : num)
    (maxWeightSet : WorkoutSet) (workoutId : Z) : Insert :=
  {| or_replace := true;
     into := personal_records;
     columns := ["user_id"; "exercise_id"; "record_type"; "value"; "reps";
                 "weight"; "weight_unit"; "workout_id"];
     values := [VInt (user_id u); VInt (ex_id (exercise ex)); VText "1RM";
                VNum estimated; VNum (reps maxWeightSet); VNum maxWeight;
                VText (preferred_weight_unit u); VInt workoutId] |}.

(** The volume-PR candidate: [completedSets.reduce(...)]. *)
Definition volumeCandidate (cs : list WorkoutSet) : num :=
  fold_left (fun sum st => nadd sum (nmul (weight st) (reps st))) cs (of_Z 0).

Definition insertRecordVolume (u : User) (ex : ActiveExercise) (total : num)
    (workoutId : Z) : Insert :=
  {| or_replace := true;
     into := personal_records;
     columns := ["user_id"; "exercise_id"; "record_type"; "value"; "workout_id"];
     values := [VInt (user_id u); VInt (ex_id (exercise ex)); VText "volume";
                VNum total; VInt workoutId] |}.

(** The 1RM step of one exercise whose filtered sets are [cs]. *)
Definition check1RM (u : User) (workoutId : Z) (ex : ActiveExercise)
    (cs : list WorkoutSet) : Async unit :=
  match maxWeightOf cs, maxWeightSetOf cs with
  | Some maxWeight, Some maxWeightSet =>
      let estimated := estimated1RM maxWeight (reps maxWeightSet) in
      existingPR <- getFirstAsync (user_id u) (ex_id (exercise ex)) "1RM" ;;
      if beats estimated existingPR then
        _ <- run (insertRecord1RM u ex estimated maxWeight maxWeightSet workoutId) ;;
        show (ShowNewRecord (ex_name (exercise ex)) estimated (preferred_weight_unit u))
      else ret tt
  | _, _ => ret tt
  end.

(** The volume step of one exercise. *)
Definition checkVolume (u : User) (workoutId : Z) (ex : ActiveExercise)
    (cs : list WorkoutSet) : Async unit :=
  let total := volumeCandidate cs in
  existingVolumePR <- getFirstAsync (user_id u) (ex_id (exercise ex)) "volume" ;;
  if beats total existingVolumePR then
    _ <- run (insertRecordVolume u ex total workoutId) ;; ret tt
  else ret tt.

(** One iteration of the loop of [checkPersonalRecords]. *)
Definition checkExercise (u : User) (workoutId : Z) (ex : ActiveExercise) : Async unit :=
  let cs := completedSets ex in
  if Nat.eqb (List.length cs) 0 then ret tt
  else
    check1RM u workoutId ex cs ;;;
    checkVolume u workoutId ex cs.

Fixpoint checkExercises (u : User) (workoutId : Z) (exs : list ActiveExercise) : Async unit :=
  match exs with
  | [] => ret tt
  | ex :: exs' => checkExercise u workoutId ex ;;; checkExercises u workoutId exs'
  end.

(** [checkPersonalRecords]: the loop inside its own [try]/[catch]. *)
Definition checkPersonalRecords (u : User) (workoutId : Z)
    (exs : list ActiveExercise) : World -> World :=
  try_catch (checkExercises u workoutId exs).

(** [endWorkout].  [dbHandle] tells whether [db] is non-null, [endTime]
    is [new Date()], [completionMessage] the random motivational text. *)
Definition endWorkout (user : option User) (dbHandle : bool) (endTime : Z)
    (completionMessage : string) (s : State) (w : World) : State * World :=
  match user, dbHandle, workoutStartTime s with
  | Some u, true, Some startTime =>
      if Nat.eqb (List.length (activeExercises s)) 0 then
        (s, showPopup
              (ShowConfirmation "End Empty Workout?"
                 "You haven't added any exercises. Are you sure you want to end this workout?"
                 resetWorkout) w)
      else
        match saveWorkout u startTime endTime s w with
        | (w1, Some workoutId) =>
            let w2 := checkPersonalRecords u workoutId (activeExercises s) w1 in
            (resetWorkout s,
             showPopup (ShowSuccess "Workout Complete! 💪" completionMessage) w2)
        | (w1, None) =>
            (s, showPopup
                  (ShowError "Save Error" "Failed to save workout. Please try again.") w1)
        end
  | _, _, _ => (s, w)
  end.



(** The store only grew: every table of [d'] starts with the rows of [d]. *)
Definition extends (d d' : Db) : Prop :=
  forall t, exists added, rows (table t d') = rows (table t d) ++ added.

(** Rows of the session whose header got [workoutId]. *)
Definition headerRows (workoutId : Z) (d : Db) : list Row :=
  filter (fun r => Z.eqb (rowid r) workoutId) (rows (t_workouts d)).

Definition exerciseRows (workoutId : Z) (d : Db) : list Row :=
  filter (fun r => int_cell_is r "workout_id" workoutId) (rows (t_workout_exercises d)).

End Writer.

(* ================================================================== *)
(** * Rest timer *)

Module RestTimer.

(** The state of the [RestTimer] component, with the number of times
    [onComplete] has been called. *)
Record Timer : Type := {
  timeRemaining : Z;
  isRunning : bool;
  selectedTime : Z;
  completions : nat;
}.

(** First render with the prop [initialTime]. *)
Definition mount (initialTime : Z) : Timer :=
  {| timeRemaining := initialTime;
     isRunning := false;
     selectedTime := initialTime;
     completions := 0 |}.

(** The effect on [visible] becoming true. *)
Definition onVisible (t : Timer) : Timer :=
  {| timeRemaining := selectedTime t;
     isRunning := false;
     selectedTime := selectedTime t;
     completions := completions t |}.

Definition handleStart (t : Timer) : Timer :=
  {| timeRemaining := if timeRemaining t =? 0 then selectedTime t else timeRemaining t;
     isRunning := negb (isRunning t);
     selectedTime := selectedTime t;
     completions := completions t |}.

Definition handleReset (t : Timer) : Timer :=
  {| timeRemaining := selectedTime t;
     isRunning := false;
     selectedTime := selectedTime t;
     completions := completions t |}.

Definition adjustTime (delta : Z) (t : Timer) : Timer :=
  if negb (isRunning t) then
    let newTime := Z.max 10 (selectedTime t + delta) in
    {| timeRemaining := newTime;
       isRunning := isRunning t;
       selectedTime := newTime;
       completions := completions t |}
  else t.

Definition selectPresetTime (time : Z) (t : Timer) : Timer :=
  if negb (isRunning t) then
    {| timeRemaining := time;
       isRunning := isRunning t;
       selectedTime := time;
       completions := completions t |}
  else t.

(** The interval exists exactly while [isRunning && timeRemaining > 0];
    otherwise the effect has cleared it. *)
Definition intervalActive (t : Timer) : bool :=
  isRunning t && (0 <? timeRemaining t).

(** One firing of the interval callback, a no-op when there is no
    interval. *)
Definition tick (t : Timer) : Timer :=
  if intervalActive t then
    if timeRemaining t <=? 1 then
      {| timeRemaining := 0;
         isRunning := false;
         selectedTime := selectedTime t;
         completions := S (completions t) |}
    else
      {| timeRemaining := timeRemaining t - 1;
         isRunning := isRunning t;
         selectedTime := selectedTime t;
         completions := completions t |}
  else t.

Fixpoint ticks (n : nat) (t : Timer) : Timer :=
  match n with
  | O => t
  | S n' => ticks n' (tick t)
  end.

(** A run: the timer is shown with the caller's duration and started. *)
Definition startRun (duration : Z) : Timer :=
  handleStart (onVisible (mount duration)).

End RestTimer.

(* ================================================================== *)
(** * Fixtures for the examples, on exact rationals *)

Module Fixtures.

Definition benchPress : Exercise := {|
  ex_id := 7;
  ex_name := "Bench Press";
  category := "Chest";
  primary_muscle := "Chest";
  equipment := "Barbell";
  difficulty_level := 3;
  instructions := "";
|}.

Definition lifter : User := {| user_id := 1; preferred_weight_unit := "kg" |}.

Definition mkSet (n : Z) (r w : Q) (done warm : bool) : WorkoutSet := {|
  set_number := n;
  reps := r;
  weight := w;
  completed := done;
  is_warmup := warm;
  rest_time_seconds := Some 90;
  rpe := None;
  set_notes := None;
|}.

Definition mkExercise (ss : list WorkoutSet) : ActiveExercise :=
  {| exercise := benchPress; sets := ss; notes := None |}.

(** A session that has been active since [t = 100000] ms. *)
Definition activeWith (exs : list ActiveExercise) : State := {|
  isWorkoutActive := true;
  workoutStartTime := Some 100000;
  activeExercises := exs;
  showExerciseModal := false;
  timer := 42;
  showRestTimer := false;
  currentRestTime := 60;
  workoutNotes := "push day";
|}.

Definition emptyWorld : World := {| db := emptyDb; popups := [] |}.

(** An engine with no objection of its own. *)
Definition permissive : Insert -> Db -> bool := fun _ _ => true.

(** An engine that rejects every insert into [workout_exercises], as a
    foreign-key violation on [exercise_id] would. *)
Definition rejectsExerciseRows : Insert -> Db -> bool :=
  fun i _ =>
    match into i with
    | workout_exercises => false
    | _ => true
    end.

(** One completed warm-up set of 50 x 10 and one completed working set
    of 100 x 5. *)
Definition warmupAndWork : ActiveExercise :=
  mkExercise [ mkSet 1 10 50 true true; mkSet 2 5 100 true false ].

(** Three working sets, two of them at the top weight. *)
Definition twoTopSets : ActiveExercise :=
  mkExercise [ mkSet 1 8 80 true false; mkSet 2 5 100 true false;
               mkSet 3 3 100 true false ].

(** A store that already holds a 1RM record of [v] for the lifter on the
    bench press. *)
Definition storeWith1RM (v : Q) : Db :=
  set_table personal_records
    {| rows := [ {| rowid := 1;
                    cells := [ ("user_id", VInt 1); ("exercise_id", VInt 7);
                               ("record_type", VText "1RM"); ("value", VNum v) ] |} ];
       last_rowid := 1 |}
    emptyDb.

End Fixtures.

(* ================================================================== *)
(** * The other handlers of the workout screen *)

Section Handlers.
Context {J : JsNumber}.

(** [field] and [value] of [updateSet], for the fields of a set. *)
Inductive SetField : Type :=
| F_set_number (value : Z)
| F_reps (value : num)
| F_weight (value : num)
| F_completed (value : bool)
| F_is_warmup (value : bool)
| F_rest_time_seconds (value : option Z)
| F_rpe (value : option Z)
| F_notes (value : option string).

(** [{ ...set, [field]: value }]. *)
Definition assignField (st : WorkoutSet) (f : SetField) : WorkoutSet :=
  {| set_number := match f with F_set_number v => v | _ => set_number st end;
     reps := match f with F_reps v => v | _ => reps st end;
     weight := match f with F_weight v => v | _ => weight st end;
     completed := match f with F_completed v => v | _ => completed st end;
     is_warmup := match f with F_is_warmup v => v | _ => is_warmup st end;
     rest_time_seconds :=
       match f with F_rest_time_seconds v => v | _ => rest_time_seconds st end;
     rpe := match f with F_rpe v => v | _ => rpe st end;
     set_notes := match f with F_notes v => v | _ => set_notes st end |}.

(** [setCurrentRestTime(seconds); setShowRestTimer(true)]. *)
Definition openRestTimer (seconds : Z) (s : State) : State :=
  {| isWorkoutActive := isWorkoutActive s;
     workoutStartTime := workoutStartTime s;
     activeExercises := activeExercises s;
     showExerciseModal := showExerciseModal s;
     timer := timer s;
     showRestTimer := true;
     currentRestTime := seconds;
     workoutNotes := workoutNotes s |}.

(** What a handler call comes to: a new state, a [TypeError], or an
    array element that is no longer a set (the spread of [undefined]
    keeps only the assigned field). *)
Inductive Outcome : Type :=
| Done (s : State)
| Throws
| Untyped.

(** [updateSet]. *)
Definition updateSet (exerciseIndex setIndex : nat) (field : SetField) (s : State) : Outcome :=
  let updatedExercises := activeExercises s in
  match nth_error updatedExercises exerciseIndex with
  | None => Throws
  | Some ex =>
      match nth_error (sets ex) setIndex with
      | None => Untyped
      | Some old =>
          let set := assignField old field in
          let s1 :=
            setActiveExercises
              (set_nth exerciseIndex
                 (with_sets ex (set_nth setIndex set (sets ex))) updatedExercises) s in
          Done
            match field with
            | F_completed true =>
                match rest_time_seconds set with
                | Some seconds =>
                    if negb (seconds =? 0) && (0 <? seconds)
                    then openRestTimer seconds s1
                    else s1
                | None => s1
                end
            | _ => s1
            end
      end
  end.

(** The effect that keeps [timer] up to date: its interval exists while
    [isWorkoutActive && workoutStartTime], and each firing sets [timer]
    to [Math.floor((Date.now() - start) / 1000)]. *)
Definition elapsedTick (now : Z) (s : State) : State :=
  if isWorkoutActive s then
    match workoutStartTime s with
    | Some startTime =>
        {| isWorkoutActive := isWorkoutActive s;
           workoutStartTime := workoutStartTime s;
           activeExercises := activeExercises s;
           showExerciseModal := showExerciseModal s;
           timer := (now - startTime) / 1000;
           showRestTimer := showRestTimer s;
           currentRestTime := currentRestTime s;
           workoutNotes := workoutNotes s |}
    | None => s
    end
  else s.

(** What the user can do on the screen, with the handler each control
    is wired to.  The controls of a set exist only for a set that is
    rendered.  [PickTemplate] is the moment the rows of a picked
    template arrive; [activeAtCall] is the flag its closure captured,
    which any earlier render may have supplied. *)
Inductive Event : Type :=
| PressStart (now : Z)
| PickTemplate (rows : list TemplateRow) (now : Z) (activeAtCall : bool)
| PickExercise (e : Exercise)
| PressAddSet (exerciseIndex : nat)
| EditReps (exerciseIndex setIndex : nat) (value : num)
| EditWeight (exerciseIndex setIndex : nat) (value : num)
| ToggleCompleted (exerciseIndex setIndex : nat)
| ToggleWarmup (exerciseIndex setIndex : nat)
| DeleteSet (exerciseIndex setIndex : nat)
| PressRemoveExercise (exerciseIndex : nat)
| PressRestButton
| ElapsedTick (now : Z)
| WorkoutReset.

Definition renderedSet (exerciseIndex setIndex : nat) (s : State) : option WorkoutSet :=
  match nth_error (activeExercises s) exerciseIndex with
  | Some ex => nth_error (sets ex) setIndex
  | None => None
  end.

Definition done (o : Outcome) : option State :=
  match o with
  | Done s => Some s
  | _ => None
  end.

(** One event; [None] when the handler throws or the control is not on
    the screen. *)
Definition applyEvent (ev : Event) (s : State) : option State :=
  match ev with
  | PressStart now => Some (pressStart now s)
  | PickTemplate rows now activeAtCall => Some (loadTemplate rows now activeAtCall s)
  | PickExercise e => Some (addExercise e s)
  | PressAddSet i => addSet i s
  | EditReps i j v => done (updateSet i j (F_reps v) s)
  | EditWeight i j v => done (updateSet i j (F_weight v) s)
  | ToggleCompleted i j =>
      match renderedSet i j s with
      | Some st => done (updateSet i j (F_completed (negb (completed st))) s)
      | None => None
      end
  | ToggleWarmup i j =>
      match renderedSet i j s with
      | Some st => done (updateSet i j (F_is_warmup (negb (is_warmup st))) s)
      | None => None
      end
  | DeleteSet i j => removeSet i j s
  | PressRemoveExercise i => Some (removeExercise i s)
  | PressRestButton => Some (openRestTimer 60 s)
  | ElapsedTick now => Some (elapsedTick now s)
  | WorkoutReset => Some (resetWorkout s)
  end.

Fixpoint runEvents (evs : list Event) (s : State) : option State :=
  match evs with
  | [] => Some s
  | ev :: evs' =>
      match applyEvent ev s with
      | Some s' => runEvents evs' s'
      | None => None
      end
  end.

(** A set up to its number. *)
Definition sameButNumber (a b : WorkoutSet) : Prop :=
  reps a = reps b /\ weight a = weight b /\ completed a = completed b
  /\ is_warmup a = is_warmup b /\ rest_time_seconds a = rest_time_seconds b
  /\ rpe a = rpe b /\ set_notes a = set_notes b.

End Handlers.

(* ================================================================== *)
(** * Exercise search *)

Section Search.
Context {J : JsNumber}.

(** [String.prototype.toLowerCase]; [asciiLowerCase] below is what it
    does on ASCII strings. *)
Variable toLowerCase : string -> string.

(** [s.includes(sub)]. *)
Fixpoint includes (s sub : string) : bool :=
  String.prefix sub s
  || match s with
     | EmptyString => false
     | String _ s' => includes s' sub
     end.

Definition filteredExercises (exercises : list Exercise)
    (searchQuery selectedCategory : string) : list Exercise :=
  filter
    (fun e =>
       let matchesSearch := includes (toLowerCase (ex_name e)) (toLowerCase searchQuery) in
       let matchesCategory :=
         String.eqb selectedCategory "All" || String.eqb (category e) selectedCategory in
       matchesSearch && matchesCategory)
    exercises.

End Search.

(** [toLowerCase] on a string of ASCII characters: the letters A to Z
    become a to z and every other character stays.  On such strings
    this is what [String.prototype.toLowerCase] does. *)
Definition lowerChar (c : ascii) : ascii :=
  let n := nat_of_ascii c in
  if Nat.leb 65 n && Nat.leb n 90 then ascii_of_nat (n + 32) else c.

Fixpoint asciiLowerCase (s : string) : string :=
  match s with
  | EmptyString => EmptyString
  | String c s' => String (lowerChar c) (asciiLowerCase s')
  end.

(** [toUpperCase] on a string of ASCII characters, to write a query in
    capitals. *)
Definition upperChar (c : ascii) : ascii :=
  let n := nat_of_ascii c in
  if Nat.leb 97 n && Nat.leb n 122 then ascii_of_nat (n - 32) else c.

Fixpoint asciiUpperCase (s : string) : string :=
  match s with
  | EmptyString => EmptyString
  | String c s' => String (upperChar c) (asciiUpperCase s')
  end.

Fixpoint isAscii (s : string) : bool :=
  match s with
  | EmptyString => true
  | String c s' => Nat.ltb (nat_of_ascii c) 128 && isAscii s'
  end.

(* ================================================================== *)
(** * Time display *)

(** [n.toString()] of an integer. *)
Definition toString (n : Z) : string := NilZero.string_of_int (Z.to_int n).

Fixpoint repeatChar (c : ascii) (n : nat) : string :=
  match n with
  | O => EmptyString
  | S n' => String c (repeatChar c n')
  end.

(** [s.padStart(targetLength, c)] for a one-character pad string. *)
Definition padStart (targetLength : nat) (c : ascii) (s : string) : string :=
  String.append (repeatChar c (targetLength - String.length s)) s.

Definition pad2 (n : Z) : string := padStart 2 "0"%char (toString n).

(** The string has no [:] in it. *)
Fixpoint noColon (s : string) : bool :=
  match s with
  | EmptyString => true
  | String c s' => negb (Ascii.eqb c ":") && noColon s'
  end.

(** [formatTime] of the workout screen.  [%] is the remainder that takes
    the sign of the dividend. *)
Definition formatTime (seconds : Z) : string :=
  let hours := seconds / 3600 in
  let minutes := Z.rem seconds 3600 / 60 in
  let remainingSeconds := Z.rem seconds 60 in
  if 0 <? hours then
    String.append (toString hours)
      (String.append ":" (String.append (pad2 minutes)
         (String.append ":" (pad2 remainingSeconds))))
  else
    String.append (toString minutes) (String.append ":" (pad2 remainingSeconds)).

(** [formatTime] of the rest timer. *)
Definition formatRestTime (seconds : Z) : string :=
  let mins := seconds / 60 in
  let secs := Z.rem seconds 60 in
  String.append (pad2 mins) (String.append ":" (pad2 secs)).

(* ================================================================== *)
(** * The earlier workout screen *)

(** The earlier [WorkoutScreen] of the same file keys a set by its
    exercise and writes the sets directly under the workout. *)
Module Legacy.
Section Legacy.
Context {J : JsNumber}.
Variable engine_ok : Insert -> Db -> bool.

Record WorkoutSet : Type := {
  exercise_id : Z;
  set_number : Z;
  reps : num;
  weight : num;
  completed : bool;
}.

Record ActiveExercise : Type := {
  exercise : Exercise;
  sets : list WorkoutSet;
}.

Definition insertWorkout (u : User) (startTime endTime : Z) : Insert :=
  {| or_replace := false;
     into := workouts;
     columns := ["user_id"; "start_time"; "end_time"; "duration_seconds"];
     values := [VInt (user_id u); VDate startTime; VDate endTime;
                VInt ((endTime - startTime) / 1000)] |}.

Definition insertWorkoutSet (u : User) (workoutId : Z) (st : WorkoutSet) : Insert :=
  {| or_replace := false;
     into := workout_sets;
     columns := ["workout_id"; "exercise_id"; "set_number"; "reps"; "weight";
                 "completed"; "weight_unit"];
     values := [VInt workoutId; VInt (exercise_id st); VInt (set_number st);
                VNum (reps st); VNum (weight st); VBool (completed st);
                VText (preferred_weight_unit u)] |}.

Fixpoint saveSets (u : User) (workoutId : Z) (ss : list WorkoutSet) : Async unit :=
  match ss with
  | [] => ret tt
  | st :: ss' =>
      _ <- runAsync engine_ok (insertWorkoutSet u workoutId st) ;;
      saveSets u workoutId ss'
  end.

Fixpoint saveExercises (u : User) (workoutId : Z) (exs : list ActiveExercise) : Async unit :=
  match exs with
  | [] => ret tt
  | activeExercise :: exs' =>
      saveSets u workoutId (sets activeExercise) ;;;
      saveExercises u workoutId exs'
  end.

(** The writes of the earlier [endWorkout]. *)
Definition saveWorkout (u : User) (startTime endTime : Z)
    (exs : list ActiveExercise) : Async Z :=
  workoutId <- runAsync engine_ok (insertWorkout u startTime endTime) ;;
  saveExercises u workoutId exs ;;;
  ret workoutId.

(** The set rows a write adds, the first one getting the row id after
    [lastId]. *)
Fixpoint setRowsFrom (u : User) (workoutId lastId : Z) (ss : list WorkoutSet) : list Row :=
  match ss with
  | [] => []
  | st :: ss' =>
      {| rowid := lastId + 1;
         cells := combine (columns (insertWorkoutSet u workoutId st))
                          (values (insertWorkoutSet u workoutId st)) |}
      :: setRowsFrom u workoutId (lastId + 1) ss'
  end.

End Legacy.
End Legacy.

(* ================================================================== *)
(** * What a write leaves behind *)

Section Leftovers.
Context {J : JsNumber}.

(** The exercises whose row the write tries to insert when the engine
    has no objection: all of them up to and including the first one
    that has a set. *)
Fixpoint attempted (exs : list ActiveExercise) : list ActiveExercise :=
  match exs with
  | [] => []
  | ex :: exs' =>
      ex :: match sets ex with
            | [] => attempted exs'
            | _ :: _ => []
            end
  end.

(** The exercise rows of [exs], positions counted from [i], the first
    one getting the row id after [lastId]. *)
Fixpoint exerciseRowsFrom (workoutId : Z) (i : nat) (lastId : Z)
    (exs : list ActiveExercise) : list Row :=
  match exs with
  | [] => []
  | ex :: exs' =>
      {| rowid := lastId + 1;
         cells := combine (columns (insertWorkoutExercise workoutId i ex))
                          (values (insertWorkoutExercise workoutId i ex)) |}
      :: exerciseRowsFrom workoutId (S i) (lastId + 1) exs'
  end.

Definition hasNoSets (ex : ActiveExercise) : bool :=
  match sets ex with
  | [] => true
  | _ :: _ => false
  end.

(** [endWorkout] pressed again at each of [times], on the same handle. *)
Fixpoint endWorkoutAt (engine_ok : Insert -> Db -> bool) (user : option User)
    (times : list Z) (completionMessage : string) (s : State) (w : World) : State * World :=
  match times with
  | [] => (s, w)
  | endTime :: times' =>
      let (s', w') := endWorkout engine_ok user true endTime completionMessage s w in
      endWorkoutAt engine_ok user times' completionMessage s' w'
  end.

End Leftovers.

(* ================================================================== *)
(** * Rest timer controls *)

Module RestTimerControls.
Import RestTimer.

Definition presetTimes : list Z := [30; 60; 90; 120; 180].

(** The interval firing and the controls of the timer. *)
Inductive Event : Type :=
| Tick
| PressStart
| PressReset
| Adjust (delta : Z)
| SelectPreset (index : nat)
| BecomeVisible.

Definition applyEvent (ev : Event) (t : Timer) : Timer :=
  match ev with
  | Tick => tick t
  | PressStart => handleStart t
  | PressReset => handleReset t
  | Adjust delta => adjustTime delta t
  | SelectPreset index =>
      match nth_error presetTimes index with
      | Some time => selectPresetTime time t
      | None => t
      end
  | BecomeVisible => onVisible t
  end.

Definition runEvents (evs : list Event) (t : Timer) : Timer :=
  fold_left (fun t ev => applyEvent ev t) evs t.

Definition isPressStart (ev : Event) : bool :=
  match ev with
  | PressStart => true
  | _ => false
  end.

Definition starts (evs : list Event) : nat :=
  List.length (filter isPressStart evs).

(** 1 while the timer is running, 0 otherwise. *)
Definition running (t : Timer) : nat := if isRunning t then 1%nat else 0%nat.

(** The remaining time lies between 0 and the selected time. *)
Definition inRange (t : Timer) : Prop :=
  0 <= timeRemaining t <= selectedTime t.

End RestTimerControls.

(* ================================================================== *)
(** * Properties of sessions and of writes *)

Section Properties.
Context {J : JsNumber}.

(** Every exercise has its sets numbered by position. *)
Definition allDense (s : State) : Prop :=
  Forall (fun ex => dense (sets ex)) (activeExercises s).

(** The workout is active exactly when it has a start timestamp. *)
Definition startedIffActive (s : State) : Prop :=
  isWorkoutActive s = true <-> exists startTime, workoutStartTime s = Some startTime.

(** Everything of the session but the sets of exercise [i]. *)
Definition onlySetsOf (i : nat) (s s' : State) : Prop :=
  isWorkoutActive s' = isWorkoutActive s
  /\ workoutStartTime s' = workoutStartTime s
  /\ timer s' = timer s
  /\ workoutNotes s' = workoutNotes s
  /\ List.length (activeExercises s') = List.length (activeExercises s)
  /\ (forall k, k <> i -> nth_error (activeExercises s') k = nth_error (activeExercises s) k)
  /\ (forall ex, nth_error (activeExercises s) i = Some ex ->
        exists ex', nth_error (activeExercises s') i = Some ex'
                    /\ exercise ex' = exercise ex /\ notes ex' = notes ex).

(** The computation leaves table [t] as it is. *)
Definition keeps {A} (t : TableName) (m : Async A) : Prop :=
  forall w, table t (db (fst (m w))) = table t (db w).

(** The computation adds at most [n] record rows and removes none. *)
Definition addsRecords {A} (n : nat) (m : Async A) : Prop :=
  forall w, exists added,
    rows (t_personal_records (db (fst (m w))))
    = rows (t_personal_records (db w)) ++ added
    /\ (List.length added <= n)%nat.

End Properties.

(* ================================================================== *)
(** * More fixtures *)

Module MoreFixtures.
Import Fixtures.

Definition pushTemplate : TemplateRow := {|
  te_exercise := benchPress;
  default_sets := 3;
  default_reps := (8 : Q);
  default_weight := (60 : Q);
  te_rest_time_seconds := Some 90;
  te_notes := Some "slow negatives";
|}.

(** An active session with two exercises. *)
Definition twoExercises : State := activeWith [warmupAndWork; twoTopSets].

(** A short afternoon at the screen. *)
Definition afternoon : list Event :=
  [ PressStart 1000; PickExercise benchPress; EditReps 0 0 (8 : Q);
    EditWeight 0 0 (80 : Q); PressAddSet 0; ToggleCompleted 0 1; DeleteSet 0 0;
    PickTemplate [pushTemplate] 5000 true; ToggleWarmup 0 2; ElapsedTick 63500 ].

Definition legacySession : list Legacy.ActiveExercise :=
  [ {| Legacy.exercise := benchPress;
       Legacy.sets :=
         [ {| Legacy.exercise_id := 7; Legacy.set_number := 1;
              Legacy.reps := (5 : Q); Legacy.weight := (100 : Q);
              Legacy.completed := true |};
           {| Legacy.exercise_id := 7; Legacy.set_number := 2;
              Legacy.reps := (3 : Q); Legacy.weight := (110 : Q);
              Legacy.completed := false |} ] |} ].

Definition library : list Exercise :=
  [ benchPress;
    {| ex_id := 8; ex_name := "Back Squats"; category := "Legs";
       primary_muscle := "Quadriceps"; equipment := "Barbell";
       difficulty_level := 3; instructions := "" |};
    {| ex_id := 9; ex_name := "Leg Press"; category := "Legs";
       primary_muscle := "Quadriceps"; equipment := "Machine";
       difficulty_level := 2; instructions := "" |} ].


Definition timerEvents : list RestTimerControls.Event :=
  [ RestTimerControls.PressStart; RestTimerControls.Tick; RestTimerControls.Tick;
    RestTimerControls.PressStart; RestTimerControls.Adjust (-100);
    RestTimerControls.SelectPreset 0; RestTimerControls.PressStart;
    RestTimerControls.Tick ].

End MoreFixtures.

(* ================================================================== *)
(** * Exact rationals satisfy the comparison laws *)

Lemma Qlt_bool_iff (a b : Q) : Qlt_bool a b = true <-> (a < b)%Q.
Proof.
  unfold Qlt_bool. rewrite negb_true_iff.
  destruct (Qle_bool b a) eqn:E.
  - apply Qle_bool_iff in E. split; [discriminate|].
    intros H. exfalso. apply (Qlt_not_le _ _ H E).
  - split; [intros _|reflexivity].
    apply Qnot_le_lt. intros H. apply Qle_bool_iff in H. congruence.
Qed.

Lemma Qlt_bool_false_iff (a b : Q) : Qlt_bool a b = false <-> (b <= a)%Q.
Proof.
  unfold Qlt_bool. rewrite negb_false_iff. apply Qle_bool_iff.
Qed.

#[export] Instance QOrder : JsOrder QNumber.
Proof.
  constructor; cbn.
  - intros a. apply Qlt_bool_false_iff. apply Qle_refl.
  - intros a b c H1 H2. apply Qlt_bool_iff in H1, H2. apply Qlt_bool_iff.
    eapply Qlt_trans; eauto.
  - intros a b c H. apply Qlt_bool_iff in H.
    destruct (Qlt_bool a b) eqn:E; [now left|right].
    apply Qlt_bool_false_iff in E. apply Qlt_bool_iff.
    eapply Qle_lt_trans; eauto.
  - intros a b. destruct (Qeq_bool a b) eqn:E.
    + apply Qeq_bool_iff in E. symmetry. apply andb_true_iff.
      rewrite !negb_true_iff, !Qlt_bool_false_iff. rewrite E.
      split; apply Qle_refl.
    + symmetry. apply andb_false_iff. rewrite !negb_false_iff, !Qlt_bool_iff.
      destruct (Q_dec a b) as [[H|H]|H]; auto.
      apply Qeq_bool_iff in H. congruence.
  - intros a b. destruct (Qlt_bool a b); auto.
  - intros a b. destruct (Qlt_bool a b) eqn:E.
    + apply Qlt_bool_false_iff. apply Qlt_le_weak. now apply Qlt_bool_iff.
    + apply Qlt_bool_false_iff. apply Qle_refl.
  - intros a b. destruct (Qlt_bool a b) eqn:E.
    + apply Qlt_bool_false_iff. apply Qle_refl.
    + exact E.
Qed.

(* ================================================================== *)
(** * Array helpers *)

Section ArrayFacts.
Context {A B : Type}.

Lemma mapi_from_nth (f : A -> nat -> B) (xs : list A) :
  forall k i, nth_error (mapi_from f k xs) i
              = option_map (fun x => f x (k + i)%nat) (nth_error xs i).
Proof.
  induction xs as [|x xs IH]; intros k i.
  - destruct i; reflexivity.
  - destruct i as [|i]; cbn.
    + now rewrite Nat.add_0_r.
    + rewrite IH. now rewrite Nat.add_succ_r.
Qed.

Lemma set_nth_hit (v : A) (xs : list A) :
  forall i x, nth_error xs i = Some x -> nth_error (set_nth i v xs) i = Some v.
Proof.
  induction xs as [|y xs IH]; intros [|i] x H; cbn in *; try discriminate.
  - reflexivity.
  - eauto.
Qed.

Lemma nth_error_app_end (xs : list A) (x : A) :
  nth_error (xs ++ [x]) (List.length xs) = Some x.
Proof.
  induction xs as [|y xs IH]; cbn; auto.
Qed.

End ArrayFacts.

Lemma js_index_last {A} (xs : list A) :
  js_index xs (Z.of_nat (List.length xs) - 1) = None <-> xs = [].
Proof.
  unfold js_index. destruct xs as [|x xs]; cbn [List.length].
  - split; reflexivity.
  - replace (Z.of_nat (S (List.length xs)) - 1) with (Z.of_nat (List.length xs)) by lia.
    destruct (Z.ltb_spec (Z.of_nat (List.length xs)) 0) as [H|H]; [lia|].
    rewrite Nat2Z.id. split; [|discriminate].
    intros E. exfalso.
    apply nth_error_None in E. cbn in E. lia.
Qed.

(* ================================================================== *)
(** * Set numbering *)

Section Numbering.
Context {J : JsNumber}.

Lemma renumber_dense (kept : list WorkoutSet) :
  dense (mapi (fun st index => with_set_number st (Z.of_nat index + 1)) kept).
Proof.
  intros i st H. unfold mapi in H. rewrite mapi_from_nth in H.
  destruct (nth_error kept i) as [st0|]; cbn in H; [|discriminate].
  injection H as <-. reflexivity.
Qed.

Lemma removeSet_total (exerciseIndex setIndex : nat) (s : State) (ex : ActiveExercise) :
  nth_error (activeExercises s) exerciseIndex = Some ex ->
  exists s', removeSet exerciseIndex setIndex s = Some s'.
Proof.
  intros H. unfold removeSet. rewrite H. eauto.
Qed.

Lemma removeSet_dense (exerciseIndex setIndex : nat) (s s' : State) :
  removeSet exerciseIndex setIndex s = Some s' ->
  exists ex', nth_error (activeExercises s') exerciseIndex = Some ex'
              /\ dense (sets ex').
Proof.
  unfold removeSet. destruct (nth_error (activeExercises s) exerciseIndex) as [ex|] eqn:E;
    [|discriminate].
  intros H. injection H as <-. cbn.
  eexists. split.
  - eapply set_nth_hit; eauto.
  - cbn. apply renumber_dense.
Qed.

Lemma runSetOps_app (exerciseIndex : nat) (ops1 ops2 : list SetOp) :
  forall s, runSetOps exerciseIndex (ops1 ++ ops2) s
            = match runSetOps exerciseIndex ops1 s with
              | Some s1 => runSetOps exerciseIndex ops2 s1
              | None => None
              end.
Proof.
  induction ops1 as [|op ops1 IH]; intros s; cbn; [reflexivity|].
  destruct (applySetOp exerciseIndex op s); auto.
Qed.

(** C5.  In any run of addSet/removeSet operations on one exercise, the
    state right after each removeSet has that exercise's sets numbered by
    their 1-based position: for every prefix of the run that ends in a
    removeSet and does not throw, the sets are dense 1..N. *)
Theorem removeSet_renumbers_in_any_run
    (exerciseIndex : nat) (before : list SetOp) (setIndex : nat) (s s' : State) :
  runSetOps exerciseIndex (before ++ [OpRemoveSet setIndex]) s = Some s' ->
  exists ex', nth_error (activeExercises s') exerciseIndex = Some ex'
              /\ dense (sets ex')
              /\ map set_number (sets ex')
                 = map (fun i => Z.of_nat i + 1) (seq 0 (List.length (sets ex'))).
Proof.
  rewrite runSetOps_app.
  destruct (runSetOps exerciseIndex before s) as [s1|]; [|discriminate].
  cbn. destruct (removeSet exerciseIndex setIndex s1) as [s2|] eqn:E; [|discriminate].
  intros H. injection H as <-.
  destruct (removeSet_dense _ _ _ E) as (ex' & Hn & Hd).
  exists ex'. split; [exact Hn|]. split; [exact Hd|].
  apply nth_error_ext. intros i.
  rewrite !nth_error_map.
  destruct (nth_error (sets ex') i) as [st|] eqn:Ei; cbn.
  - rewrite (Hd _ _ Ei).
    assert (Hl : (i < List.length (sets ex'))%nat)
      by (apply nth_error_Some; congruence).
    rewrite nth_error_seq. 
    destruct (Nat.ltb_spec i (List.length (sets ex'))); [reflexivity|lia].
  - apply nth_error_None in Ei.
    rewrite nth_error_seq.
    destruct (Nat.ltb_spec i (List.length (sets ex'))); [lia|reflexivity].
Qed.

End Numbering.

Lemma removeSet_renumbers_in_any_run_witness :
  exists s',
    runSetOps 0 ([OpAddSet; OpAddSet] ++ [OpRemoveSet 0])
      (addExercise Fixtures.benchPress initialState) = Some s'
    /\ exists ex', nth_error (activeExercises s') 0 = Some ex'
                   /\ dense (sets ex')
                   /\ map set_number (sets ex')
                      = map (fun i => Z.of_nat i + 1) (seq 0 (List.length (sets ex'))).
Proof.
  eexists. split.
  - reflexivity.
  - apply (@removeSet_renumbers_in_any_run QNumber 0%nat [OpAddSet; OpAddSet] 0%nat
             (addExercise Fixtures.benchPress initialState)).
    reflexivity.
Defined.

(* ================================================================== *)
(** * addSet on an exercise without sets *)

Section AddSet.
Context {J : JsNumber}.

Lemma js_index_snoc {A} (init : list A) (x : A) :
  js_index (init ++ [x]) (Z.of_nat (List.length (init ++ [x])) - 1) = Some x.
Proof.
  unfold js_index. rewrite length_app. cbn [List.length].
  replace (Z.of_nat (List.length init + 1) - 1) with (Z.of_nat (List.length init)) by lia.
  destruct (Z.ltb_spec (Z.of_nat (List.length init)) 0) as [H|H]; [lia|].
  rewrite Nat2Z.id. apply nth_error_app_end.
Qed.

Lemma addSet_None_iff (exerciseIndex : nat) (s : State) :
  addSet exerciseIndex s = None <->
  (forall ex, nth_error (activeExercises s) exerciseIndex = Some ex -> sets ex = []).
Proof.
  unfold addSet.
  destruct (nth_error (activeExercises s) exerciseIndex) as [ex|] eqn:E.
  - destruct (js_index (sets ex) (Z.of_nat (List.length (sets ex)) - 1)) as [l|] eqn:L.
    + split; [discriminate|].
      intros H. specialize (H ex eq_refl).
      apply js_index_last in H. congruence.
    + split; [|reflexivity].
      intros _ ex' Hex. injection Hex as <-. now apply js_index_last.
  - split; [|reflexivity]. intros _ ex Hex. discriminate.
Qed.

(** C10.  addSet presupposes a last set.  It throws (here [None])
    exactly when the target exercise is missing or has no set; such an
    exercise is reachable, since removeSet on the single set that
    addExercise created leaves the set list empty, and addSet then
    throws instead of appending; on an exercise that still has a last
    set it appends a set copied from it. *)
Theorem addSet_requires_a_last_set :
  (forall exerciseIndex s,
      addSet exerciseIndex s = None <->
      (forall ex, nth_error (activeExercises s) exerciseIndex = Some ex -> sets ex = []))
  /\ (forall e s,
        let i := List.length (activeExercises s) in
        exists s' ex',
          removeSet i 0 (addExercise e s) = Some s'
          /\ nth_error (activeExercises s') i = Some ex'
          /\ sets ex' = []
          /\ addSet i s' = None)
  /\ (forall exerciseIndex s ex init lastSet,
        nth_error (activeExercises s) exerciseIndex = Some ex ->
        sets ex = init ++ [lastSet] ->
        exists s',
          addSet exerciseIndex s = Some s'
          /\ nth_error (activeExercises s') exerciseIndex
             = Some (with_sets ex
                       (sets ex ++
                        [ {| set_number := set_number lastSet + 1;
                             reps := reps lastSet;
                             weight := weight lastSet;
                             completed := false;
                             is_warmup := false;
                             rest_time_seconds := rest_time_seconds lastSet;
                             rpe := None;
                             set_notes := None |} ]))).
Proof.
  split; [exact addSet_None_iff|]. split.
  - intros e s i.
    assert (Hn : nth_error (activeExercises (addExercise e s)) i
                 = Some {| exercise := e;
                           sets := [ {| set_number := 1; reps := of_Z 0; weight := of_Z 0;
                                        completed := false; is_warmup := true;
                                        rest_time_seconds := None; rpe := None;
                                        set_notes := None |} ];
                           notes := None |})
      by (cbn; apply nth_error_app_end).
    unfold removeSet. rewrite Hn. cbn.
    eexists. eexists. split; [reflexivity|].
    assert (Hs : nth_error
                   (set_nth i {| exercise := e; sets := []; notes := None |}
                      (activeExercises s ++
                       [{| exercise := e;
                           sets := [ {| set_number := 1; reps := of_Z 0; weight := of_Z 0;
                                        completed := false; is_warmup := true;
                                        rest_time_seconds := None; rpe := None;
                                        set_notes := None |} ];
                           notes := None |}])) i
                 = Some {| exercise := e; sets := []; notes := None |})
      by (eapply set_nth_hit; apply nth_error_app_end).
    split; [exact Hs|]. split; [reflexivity|].
    apply addSet_None_iff. cbn. intros ex Hex.
    unfold with_sets in Hex. cbn in Hex. rewrite Hs in Hex. now injection Hex as <-.
  - intros exerciseIndex s ex init lastSet Hex Hsets.
    unfold addSet. rewrite Hex.
    assert (Hl : js_index (sets ex) (Z.of_nat (List.length (sets ex)) - 1) = Some lastSet)
      by (rewrite Hsets; apply js_index_snoc).
    rewrite Hl. eexists. split; [reflexivity|].
    cbn. eapply set_nth_hit; eauto.
Qed.

End AddSet.

Lemma addSet_requires_a_last_set_witness :
  nth_error (activeExercises (Fixtures.activeWith [Fixtures.warmupAndWork])) 0
  = Some Fixtures.warmupAndWork
  /\ exists s',
       addSet 0 (Fixtures.activeWith [Fixtures.warmupAndWork]) = Some s'
       /\ option_map (fun ex => map set_number (sets ex)) (nth_error (activeExercises s') 0)
          = Some [1; 2; 3].
Proof.
  split; [reflexivity|].
  destruct (proj2 (proj2 (@addSet_requires_a_last_set QNumber))
              0%nat (Fixtures.activeWith [Fixtures.warmupAndWork]) Fixtures.warmupAndWork
              [Fixtures.mkSet 1 10 50 true true] (Fixtures.mkSet 2 5 100 true false)
              eq_refl eq_refl) as (s' & Hadd & Hnth).
  exists s'. split; [exact Hadd|]. rewrite Hnth. reflexivity.
Defined.

(* ================================================================== *)
(** * Starting a workout *)

Section Start.
Context {J : JsNumber}.

(** C6.  startWorkout is reached from two places.  The start button
    is rendered only while the workout is not active, so pressing it
    leaves an Active session as it is.  loadTemplate guards its call
    with the isWorkoutActive of the render in which it was called, not
    with the flag of the session the fetched rows meet: when the flag
    captured was true, the session keeps its start timestamp and its
    timer; when it was false, startWorkout runs on the session although
    it is Active by now, and the start timestamp becomes the arrival
    time and the timer 0.  Such a session is reached by pressing start
    on the idle session while the rows are being fetched. *)
Theorem loadTemplate_restarts_a_started_session
    (rows : list TemplateRow) (now : Z) (s : State) :
  isWorkoutActive s = true ->
  pressStart now s = s
  /\ (isWorkoutActive (loadTemplate rows now true s) = true
      /\ workoutStartTime (loadTemplate rows now true s) = workoutStartTime s
      /\ timer (loadTemplate rows now true s) = timer s)
  /\ (isWorkoutActive (loadTemplate rows now false s) = true
      /\ workoutStartTime (loadTemplate rows now false s) = Some now
      /\ timer (loadTemplate rows now false s) = 0)
  /\ (forall idle pressed,
        isWorkoutActive idle = false ->
        s = pressStart pressed idle ->
        workoutStartTime s = Some pressed
        /\ workoutStartTime (loadTemplate rows now (isWorkoutActive idle) s) = Some now
        /\ (now <> pressed ->
            workoutStartTime (loadTemplate rows now (isWorkoutActive idle) s)
            <> workoutStartTime s)).
Proof.
  intros H. split.
  { unfold pressStart, startButtonRendered. now rewrite H. }
  split; [cbn; auto|]. split; [cbn; auto|].
  intros idle pressed Hidle ->. rewrite Hidle.
  unfold pressStart, startButtonRendered. rewrite Hidle. cbn.
  repeat split. intros Hne E. injection E as E. contradiction.
Qed.

End Start.

Lemma loadTemplate_restarts_a_started_session_witness :
  isWorkoutActive initialState = false
  /\ isWorkoutActive (pressStart 100000 initialState) = true
  /\ workoutStartTime (pressStart 100000 initialState) = Some 100000
  /\ workoutStartTime
       (loadTemplate [MoreFixtures.pushTemplate] 160500 (isWorkoutActive initialState)
          (pressStart 100000 initialState))
     = Some 160500
  /\ pressStart 160500 (pressStart 100000 initialState) = pressStart 100000 initialState.
Proof.
  split; [reflexivity|]. split; [reflexivity|].
  pose proof (@loadTemplate_restarts_a_started_session QNumber [MoreFixtures.pushTemplate]
                160500 (pressStart 100000 initialState) eq_refl)
    as (Hpress & _ & _ & Hrace).
  destruct (Hrace initialState 100000 eq_refl eq_refl) as (Hstart & Hafter & _).
  split; [exact Hstart|]. split; [exact Hafter|exact Hpress].
Defined.

(* ================================================================== *)
(** * Ending a workout *)

Section EndWorkout.
Context {J : JsNumber}.
Variable engine_ok : Insert -> Db -> bool.

(** C8.  On a session without exercises endWorkout writes nothing and
    leaves the session as it is; with a user, a database handle and a
    start timestamp (an Active session) it requests the "End Empty
    Workout?" confirmation, whose confirm action is resetWorkout, so
    the session is discarded only if the caller confirms. *)
Theorem endWorkout_empty_asks_confirmation
    (user : option User) (dbHandle : bool) (endTime : Z) (completionMessage : string)
    (s : State) (w : World) :
  activeExercises s = [] ->
  fst (endWorkout engine_ok user dbHandle endTime completionMessage s w) = s
  /\ db (snd (endWorkout engine_ok user dbHandle endTime completionMessage s w)) = db w
  /\ (forall u startTime,
        user = Some u -> dbHandle = true -> workoutStartTime s = Some startTime ->
        endWorkout engine_ok user dbHandle endTime completionMessage s w
        = (s, showPopup
                (ShowConfirmation "End Empty Workout?"
                   "You haven't added any exercises. Are you sure you want to end this workout?"
                   resetWorkout) w)).
Proof.
  intros He. unfold endWorkout. rewrite He. cbn.
  destruct user as [u|], dbHandle, (workoutStartTime s) as [t0|]; cbn;
    (split; [reflexivity|]; split; [reflexivity|]);
    intros u' t0' Hu Hd Ht; try discriminate; reflexivity.
Qed.

Lemma runAsync_requests_no_popup (i : Insert) (w : World) :
  popups (fst (runAsync engine_ok i w)) = popups w.
Proof. unfold runAsync. destruct (_ && _); reflexivity. Qed.

Lemma saveSets_requests_no_popup (u : User) (workoutExerciseId : Z) (ss : list WorkoutSet) :
  forall w, popups (fst (saveSets engine_ok u workoutExerciseId ss w)) = popups w.
Proof.
  induction ss as [|st ss IH]; intros w; [reflexivity|].
  cbn [saveSets]. unfold bind.
  pose proof (runAsync_requests_no_popup (insertWorkoutSet u workoutExerciseId st) w) as R.
  destruct (runAsync engine_ok (insertWorkoutSet u workoutExerciseId st) w) as [w1 [id|]];
    cbn in R; [|exact R].
  now rewrite IH.
Qed.

Lemma saveExercises_requests_no_popup (u : User) (workoutId : Z) (exs : list ActiveExercise) :
  forall i w, popups (fst (saveExercises engine_ok u workoutId i exs w)) = popups w.
Proof.
  induction exs as [|ex exs IH]; intros i w; [reflexivity|].
  cbn [saveExercises]. unfold bind.
  pose proof (runAsync_requests_no_popup (insertWorkoutExercise workoutId i ex) w) as R.
  destruct (runAsync engine_ok (insertWorkoutExercise workoutId i ex) w) as [w1 [weid|]];
    cbn in R; [|exact R].
  pose proof (saveSets_requests_no_popup u weid (sets ex) w1) as Hs.
  destruct (saveSets engine_ok u weid (sets ex) w1) as [w2 [[]|]]; cbn in Hs.
  - rewrite IH. congruence.
  - cbn. congruence.
Qed.

Lemma saveWorkout_requests_no_popup (u : User) (startTime endTime : Z) (s : State)
    (w : World) :
  popups (fst (saveWorkout engine_ok u startTime endTime s w)) = popups w.
Proof.
  unfold saveWorkout, bind.
  pose proof (runAsync_requests_no_popup
                (insertWorkout u startTime endTime (activeExercises s) (workoutNotes s)) w)
    as R.
  destruct (runAsync engine_ok _ w) as [w1 [workoutId|]]; cbn in R; [|exact R].
  pose proof (saveExercises_requests_no_popup u workoutId (activeExercises s) 0 w1) as E.
  destruct (saveExercises engine_ok u workoutId 0 (activeExercises s) w1) as [w2 [[]|]];
    cbn in *; congruence.
Qed.

(** C7.  For an Active session with at least one exercise: when the
    write throws, endWorkout returns the session unchanged (still
    Active, exercises, sets, start timestamp and notes as they were),
    keeps what the write had stored before it threw, and adds exactly
    one popup to those requested so far, the "Save Error" popup; the
    session is reset only when the write returned a workout id, and
    then the popup added last is the completion message, not an
    error. *)
Theorem endWorkout_failure_keeps_session
    (u : User) (endTime : Z) (completionMessage : string)
    (s : State) (w : World) (startTime : Z) :
  isWorkoutActive s = true ->
  workoutStartTime s = Some startTime ->
  activeExercises s <> [] ->
  (snd (saveWorkout engine_ok u startTime endTime s w) = None ->
     endWorkout engine_ok (Some u) true endTime completionMessage s w
     = (s, showPopup
             (ShowError "Save Error" "Failed to save workout. Please try again.")
             (fst (saveWorkout engine_ok u startTime endTime s w)))
     /\ fst (endWorkout engine_ok (Some u) true endTime completionMessage s w) = s
     /\ isWorkoutActive
          (fst (endWorkout engine_ok (Some u) true endTime completionMessage s w)) = true
     /\ popups (snd (endWorkout engine_ok (Some u) true endTime completionMessage s w))
        = popups w ++ [ShowError "Save Error" "Failed to save workout. Please try again."]
     /\ db (snd (endWorkout engine_ok (Some u) true endTime completionMessage s w))
        = db (fst (saveWorkout engine_ok u startTime endTime s w)))
  /\ (forall workoutId,
        snd (saveWorkout engine_ok u startTime endTime s w) = Some workoutId ->
        fst (endWorkout engine_ok (Some u) true endTime completionMessage s w)
        = resetWorkout s
        /\ popups (snd (endWorkout engine_ok (Some u) true endTime completionMessage s w))
           = popups (checkPersonalRecords engine_ok u workoutId (activeExercises s)
                       (fst (saveWorkout engine_ok u startTime endTime s w)))
             ++ [ShowSuccess "Workout Complete! 💪" completionMessage])
  /\ (fst (endWorkout engine_ok (Some u) true endTime completionMessage s w) <> s ->
      exists workoutId,
        snd (saveWorkout engine_ok u startTime endTime s w) = Some workoutId).
Proof.
  intros Ha Ht Hne. unfold endWorkout. rewrite Ht.
  destruct (activeExercises s) as [|ex exs] eqn:E; [congruence|]. cbn [List.length Nat.eqb].
  rewrite <- E.
  pose proof (saveWorkout_requests_no_popup u startTime endTime s w) as Hp.
  destruct (saveWorkout engine_ok u startTime endTime s w) as [w1 [workoutId|]];
    cbn [fst snd] in *.
  - split; [discriminate|]. split.
    + intros id Hid. injection Hid as <-. split; reflexivity.
    + eauto.
  - split.
    + intros _. split; [reflexivity|]. split; [reflexivity|]. split; [exact Ha|].
      split; [|reflexivity]. cbn [showPopup popups]. now rewrite Hp.
    + split; [discriminate|]. intros H. now elim H.
Qed.

End EndWorkout.

Lemma endWorkout_empty_asks_confirmation_witness :
  activeExercises (Fixtures.activeWith []) = []
  /\ fst (endWorkout Fixtures.permissive (Some Fixtures.lifter) true 160500 "Well done"
            (Fixtures.activeWith []) Fixtures.emptyWorld) = Fixtures.activeWith []
  /\ popups (snd (endWorkout Fixtures.permissive (Some Fixtures.lifter) true 160500 "Well done"
                    (Fixtures.activeWith []) Fixtures.emptyWorld))
     = [ ShowConfirmation "End Empty Workout?"
           "You haven't added any exercises. Are you sure you want to end this workout?"
           resetWorkout ].
Proof.
  split; [reflexivity|]. split.
  - apply (@endWorkout_empty_asks_confirmation QNumber Fixtures.permissive
             (Some Fixtures.lifter) true 160500 "Well done"
             (Fixtures.activeWith []) Fixtures.emptyWorld).
    reflexivity.
  - rewrite (proj2 (proj2 (@endWorkout_empty_asks_confirmation QNumber Fixtures.permissive
                             (Some Fixtures.lifter) true 160500 "Well done"
                             (Fixtures.activeWith []) Fixtures.emptyWorld eq_refl))
               Fixtures.lifter 100000 eq_refl eq_refl eq_refl).
    reflexivity.
Defined.

Lemma endWorkout_failure_keeps_session_witness :
  snd (saveWorkout Fixtures.permissive Fixtures.lifter 100000 160500
         (Fixtures.activeWith [Fixtures.warmupAndWork]) Fixtures.emptyWorld) = None
  /\ fst (endWorkout Fixtures.permissive (Some Fixtures.lifter) true 160500 "Well done"
            (Fixtures.activeWith [Fixtures.warmupAndWork]) Fixtures.emptyWorld)
     = Fixtures.activeWith [Fixtures.warmupAndWork]
  /\ popups (snd (endWorkout Fixtures.permissive (Some Fixtures.lifter) true 160500
                    "Well done" (Fixtures.activeWith [Fixtures.warmupAndWork])
                    Fixtures.emptyWorld))
     = [ShowError "Save Error" "Failed to save workout. Please try again."]
  /\ fst (endWorkout Fixtures.permissive (Some Fixtures.lifter) true 160500 "Well done"
            (Fixtures.activeWith [Fixtures.mkExercise []]) Fixtures.emptyWorld)
     = resetWorkout (Fixtures.activeWith [Fixtures.mkExercise []]).
Proof.
  split; [reflexivity|].
  destruct (proj1 (@endWorkout_failure_keeps_session QNumber Fixtures.permissive
                     Fixtures.lifter 160500 "Well done"
                     (Fixtures.activeWith [Fixtures.warmupAndWork])
                     Fixtures.emptyWorld 100000
                     eq_refl eq_refl ltac:(discriminate)) eq_refl)
    as (_ & Hs & _ & Hp & _).
  split; [exact Hs|]. split; [exact Hp|].
  apply (proj1 (proj2 (@endWorkout_failure_keeps_session QNumber Fixtures.permissive
                         Fixtures.lifter 160500 "Well done"
                         (Fixtures.activeWith [Fixtures.mkExercise []])
                         Fixtures.emptyWorld 100000
                         eq_refl eq_refl ltac:(discriminate))) 1).
  reflexivity.
Defined.

(* ================================================================== *)
(** * The write is a sequence of separate inserts *)

Section Commit.
Context {J : JsNumber}.
Variable engine_ok : Insert -> Db -> bool.

Lemma table_set_table_same (t : TableName) (tb : Table) (d : Db) :
  table t (set_table t tb d) = tb.
Proof. destruct t; reflexivity. Qed.

Lemma table_set_table_other (t t' : TableName) (tb : Table) (d : Db) :
  t <> t' -> table t' (set_table t tb d) = table t' d.
Proof. destruct t, t'; intros H; try reflexivity; congruence. Qed.

Lemma TableName_eq_dec (t t' : TableName) : {t = t'} + {t <> t'}.
Proof. decide equality. Qed.

Lemma extends_refl (d : Db) : extends d d.
Proof. intros t. exists []. now rewrite app_nil_r. Qed.

Lemma extends_trans (d1 d2 d3 : Db) : extends d1 d2 -> extends d2 d3 -> extends d1 d3.
Proof.
  intros H12 H23 t. destruct (H12 t) as [a Ha], (H23 t) as [b Hb].
  exists (a ++ b). now rewrite Hb, Ha, app_assoc.
Qed.

Lemma runAsync_extends (i : Insert) (w : World) :
  extends (db w) (db (fst (runAsync engine_ok i w))).
Proof.
  unfold runAsync. destruct (schema_accepts i && engine_ok i (db w)); cbn.
  - intros t. destruct (TableName_eq_dec (into i) t) as [<-|Hne].
    + rewrite table_set_table_same. cbn. eauto.
    + rewrite table_set_table_other by assumption. exists []. now rewrite app_nil_r.
  - apply extends_refl.
Qed.

(** Sequencing keeps what the first part wrote. *)
Lemma bind_extends {A B} (m : Async A) (k : A -> Async B) :
  (forall w, extends (db w) (db (fst (m w)))) ->
  (forall a w, extends (db w) (db (fst (k a w)))) ->
  forall w, extends (db w) (db (fst (bind m k w))).
Proof.
  intros Hm Hk w. unfold bind. specialize (Hm w).
  destruct (m w) as [w1 [a|]]; cbn in *.
  - eapply extends_trans; [exact Hm|apply Hk].
  - exact Hm.
Qed.

Lemma ret_extends {A} (a : A) (w : World) : extends (db w) (db (fst (ret a w))).
Proof. apply extends_refl. Qed.

Lemma saveSets_extends (u : User) (workoutExerciseId : Z) (ss : list WorkoutSet) :
  forall w, extends (db w) (db (fst (saveSets engine_ok u workoutExerciseId ss w))).
Proof.
  induction ss as [|st ss IH]; cbn [saveSets].
  - apply ret_extends.
  - apply bind_extends; [apply runAsync_extends|intros _; exact IH].
Qed.

Lemma saveExercises_extends (u : User) (workoutId : Z) (exs : list ActiveExercise) :
  forall i w, extends (db w) (db (fst (saveExercises engine_ok u workoutId i exs w))).
Proof.
  induction exs as [|ex exs IH]; intros i; cbn [saveExercises].
  - apply ret_extends.
  - apply bind_extends; [apply runAsync_extends|intros weid].
    apply bind_extends; [apply saveSets_extends|intros _; apply IH].
Qed.

Lemma saveWorkout_extends (u : User) (startTime endTime : Z) (s : State) (w : World) :
  extends (db w) (db (fst (saveWorkout engine_ok u startTime endTime s w))).
Proof.
  unfold saveWorkout.
  apply bind_extends; [apply runAsync_extends|intros workoutId].
  apply bind_extends; [apply saveExercises_extends|intros _ w'; apply ret_extends].
Qed.

Lemma runAsync_reject (i : Insert) (w : World) :
  schema_accepts i && engine_ok i (db w) = false ->
  runAsync engine_ok i w = (w, None).
Proof. intros H. unfold runAsync. now rewrite H. Qed.

Lemma runAsync_accept (i : Insert) (w : World) :
  schema_accepts i && engine_ok i (db w) = true ->
  runAsync engine_ok i w
  = (set_db (set_table (into i)
               {| rows := rows (table (into i) (db w))
                          ++ [ {| rowid := last_rowid (table (into i) (db w)) + 1;
                                  cells := combine (columns i) (values i) |} ];
                  last_rowid := last_rowid (table (into i) (db w)) + 1 |}
               (db w)) w,
     Some (last_rowid (table (into i) (db w)) + 1)).
Proof. intros H. unfold runAsync. now rewrite H. Qed.

Lemma bind_runAsync_reject {B} (i : Insert) (k : Z -> Async B) (w : World) :
  schema_accepts i && engine_ok i (db w) = false ->
  bind (runAsync engine_ok i) k w = (w, None).
Proof. intros H. unfold bind. now rewrite (runAsync_reject _ _ H). Qed.

Lemma bind_runAsync_accept {B} (i : Insert) (k : Z -> Async B) (w : World) :
  schema_accepts i && engine_ok i (db w) = true ->
  bind (runAsync engine_ok i) k w
  = k (last_rowid (table (into i) (db w)) + 1)
      (set_db (set_table (into i)
                 {| rows := rows (table (into i) (db w))
                            ++ [ {| rowid := last_rowid (table (into i) (db w)) + 1;
                                    cells := combine (columns i) (values i) |} ];
                    last_rowid := last_rowid (table (into i) (db w)) + 1 |}
                 (db w)) w).
Proof. intros H. unfold bind. now rewrite (runAsync_accept _ _ H). Qed.

(** C1, as the code has it.  The write is a sequence of inserts that
    each commit on their own, with no enclosing transaction.  Rows are
    only ever added; if the header insert is rejected nothing is
    written; if it is accepted, the header row carrying the new workout
    id is in the store afterwards whether or not a later insert throws,
    and a successful write returns that id. *)
Theorem saveWorkout_commits_row_by_row
    (u : User) (startTime endTime : Z) (s : State) (w : World) :
  let header := insertWorkout u startTime endTime (activeExercises s) (workoutNotes s) in
  let out := saveWorkout engine_ok u startTime endTime s w in
  let workoutId := last_rowid (t_workouts (db w)) + 1 in
  extends (db w) (db (fst out))
  /\ (schema_accepts header && engine_ok header (db w) = false -> out = (w, None))
  /\ (schema_accepts header && engine_ok header (db w) = true ->
      In {| rowid := workoutId; cells := combine (columns header) (values header) |}
         (rows (t_workouts (db (fst out))))
      /\ headerRows workoutId (db (fst out)) <> []
      /\ forall id, snd out = Some id -> id = workoutId).
Proof.
  intros header out workoutId.
  split; [apply saveWorkout_extends|].
  subst out. unfold saveWorkout. fold header.
  split.
  - intros H. now rewrite (bind_runAsync_reject _ _ _ H).
  - intros H. rewrite !(bind_runAsync_accept _ _ _ H).
    change (table (into header) (db w)) with (t_workouts (db w)). fold workoutId.
    set (w1 := set_db _ w).
    set (rest := bind (saveExercises engine_ok u workoutId 0 (activeExercises s))
                      (fun _ => ret workoutId)).
    set (row := {| rowid := workoutId;
                   cells := combine (columns header) (values header) |}).
    assert (Hin : In row (rows (t_workouts (db (fst (rest w1)))))).
    { assert (He : extends (db w1) (db (fst (rest w1)))).
      { apply bind_extends; [apply saveExercises_extends|intros _ w'; apply ret_extends]. }
      destruct (He workouts) as [added Hadd]. cbn [table] in Hadd. rewrite Hadd.
      apply in_or_app. left. subst w1. cbn. apply in_or_app. right. left. reflexivity. }
    split; [exact Hin|]. split.
    + unfold headerRows. intros Hnil.
      assert (Hf : In row (filter (fun r => rowid r =? workoutId)
                             (rows (t_workouts (db (fst (rest w1))))))).
      { apply filter_In. split; [exact Hin|]. cbn. apply Z.eqb_refl. }
      rewrite Hnil in Hf. exact Hf.
    + intros id. subst rest. unfold bind.
      destruct (saveExercises engine_ok u workoutId 0 (activeExercises s) w1)
        as [w2 [[]|]]; cbn.
      * intros E. injection E as <-. reflexivity.
      * discriminate.
Qed.

End Commit.

Lemma saveWorkout_commits_row_by_row_witness :
  schema_accepts (insertWorkout Fixtures.lifter 100000 160500
                    [Fixtures.warmupAndWork] "push day")
  && Fixtures.permissive (insertWorkout Fixtures.lifter 100000 160500
                            [Fixtures.warmupAndWork] "push day") emptyDb = true
  /\ headerRows 1 (db (fst (saveWorkout Fixtures.permissive Fixtures.lifter 100000 160500
                              (Fixtures.activeWith [Fixtures.warmupAndWork])
                              Fixtures.emptyWorld))) <> [].
Proof.
  split; [reflexivity|].
  apply (proj2 (proj2 (@saveWorkout_commits_row_by_row QNumber Fixtures.permissive
                         Fixtures.lifter 100000 160500
                         (Fixtures.activeWith [Fixtures.warmupAndWork])
                         Fixtures.emptyWorld))).
  reflexivity.
Defined.

(** C1, counterexample.  A session of one exercise with two sets.
    With an engine that accepts the header and rejects the first
    exercise row, the write throws, endWorkout requests "Save Error",
    and the header row with workout id 1 is in the store.  With an
    engine that has no objection of its own, the write throws at the
    first set insert, and both the header row and the exercise row of
    workout 1 are in the store. *)
Lemma partial_write_is_observable :
  (snd (saveWorkout Fixtures.rejectsExerciseRows Fixtures.lifter 100000 160500
          (Fixtures.activeWith [Fixtures.warmupAndWork]) Fixtures.emptyWorld) = None
   /\ headerRows 1
        (db (fst (saveWorkout Fixtures.rejectsExerciseRows Fixtures.lifter 100000 160500
                    (Fixtures.activeWith [Fixtures.warmupAndWork]) Fixtures.emptyWorld)))
      = [ {| rowid := 1;
             cells := [ ("user_id", VInt 1); ("start_time", VDate 100000);
                        ("end_time", VDate 160500); ("duration_seconds", VInt 60);
                        ("total_volume", VNum (1000 : Q)); ("notes", VText "push day") ] |} ]
   /\ popups (snd (endWorkout Fixtures.rejectsExerciseRows (Some Fixtures.lifter) true 160500
                     "Well done" (Fixtures.activeWith [Fixtures.warmupAndWork])
                     Fixtures.emptyWorld))
      = [ ShowError "Save Error" "Failed to save workout. Please try again." ]
   /\ headerRows 1
        (db (snd (endWorkout Fixtures.rejectsExerciseRows (Some Fixtures.lifter) true 160500
                    "Well done" (Fixtures.activeWith [Fixtures.warmupAndWork])
                    Fixtures.emptyWorld))) <> [])
  /\ (snd (saveWorkout Fixtures.permissive Fixtures.lifter 100000 160500
             (Fixtures.activeWith [Fixtures.warmupAndWork]) Fixtures.emptyWorld) = None
      /\ headerRows 1
           (db (fst (saveWorkout Fixtures.permissive Fixtures.lifter 100000 160500
                       (Fixtures.activeWith [Fixtures.warmupAndWork]) Fixtures.emptyWorld)))
         = [ {| rowid := 1;
                cells := [ ("user_id", VInt 1); ("start_time", VDate 100000);
                           ("end_time", VDate 160500); ("duration_seconds", VInt 60);
                           ("total_volume", VNum (1000 : Q)); ("notes", VText "push day") ] |} ]
      /\ exerciseRows 1
           (db (fst (saveWorkout Fixtures.permissive Fixtures.lifter 100000 160500
                       (Fixtures.activeWith [Fixtures.warmupAndWork]) Fixtures.emptyWorld)))
         = [ {| rowid := 1;
                cells := [ ("workout_id", VInt 1); ("exercise_id", VInt 7);
                           ("order_index", VInt 0); ("notes", VText "") ] |} ]).
Proof.
  repeat split. discriminate.
Qed.

(* ================================================================== *)
(** * The set rows against the created schema *)

Section SetRows.
Context {J : JsNumber}.
Variable engine_ok : Insert -> Db -> bool.

Lemma insertWorkoutSet_not_accepted (u : User) (workoutExerciseId : Z) (st : WorkoutSet) :
  schema_accepts (insertWorkoutSet u workoutExerciseId st) = false.
Proof. reflexivity. Qed.

Lemma runAsync_set_throws (u : User) (workoutExerciseId : Z) (st : WorkoutSet) (w : World) :
  runAsync engine_ok (insertWorkoutSet u workoutExerciseId st) w = (w, None).
Proof.
  apply runAsync_reject. now rewrite insertWorkoutSet_not_accepted.
Qed.

Lemma saveSets_throws (u : User) (workoutExerciseId : Z) (ss : list WorkoutSet) (w : World) :
  ss <> [] -> saveSets engine_ok u workoutExerciseId ss w = (w, None).
Proof.
  destruct ss as [|st ss]; [congruence|]. intros _. cbn [saveSets].
  unfold bind. now rewrite runAsync_set_throws.
Qed.

Lemma saveExercises_throws (u : User) (workoutId : Z) (exs : list ActiveExercise) :
  (exists ex, In ex exs /\ sets ex <> []) ->
  forall i w, snd (saveExercises engine_ok u workoutId i exs w) = None.
Proof.
  induction exs as [|ex exs IH]; intros (ex0 & Hin & Hne) i w.
  - destruct Hin.
  - cbn [saveExercises]. unfold bind.
    destruct (runAsync engine_ok (insertWorkoutExercise workoutId i ex) w)
      as [w1 [weid|]]; [|reflexivity].
    destruct (sets ex) as [|st ss] eqn:Es.
    + cbn. apply IH. destruct Hin as [<-|Hin]; [congruence|eauto].
    + rewrite saveSets_throws by discriminate. reflexivity.
Qed.

Lemma saveSets_world (u : User) (workoutExerciseId : Z) (ss : list WorkoutSet) (w : World) :
  fst (saveSets engine_ok u workoutExerciseId ss w) = w.
Proof.
  destruct ss as [|st ss]; [reflexivity|].
  now rewrite saveSets_throws by discriminate.
Qed.

Lemma runAsync_keeps_set_rows (i : Insert) (w : World) :
  into i <> workout_sets ->
  t_workout_sets (db (fst (runAsync engine_ok i w))) = t_workout_sets (db w).
Proof.
  intros Hne. unfold runAsync.
  destruct (schema_accepts i && engine_ok i (db w)); [|reflexivity].
  cbn. destruct (into i); try reflexivity. congruence.
Qed.

Lemma saveExercises_keeps_set_rows (u : User) (workoutId : Z) (exs : list ActiveExercise) :
  forall i w,
    t_workout_sets (db (fst (saveExercises engine_ok u workoutId i exs w)))
    = t_workout_sets (db w).
Proof.
  induction exs as [|ex exs IH]; intros i w; [reflexivity|].
  cbn [saveExercises]. unfold bind.
  pose proof (runAsync_keeps_set_rows (insertWorkoutExercise workoutId i ex) w) as Hr.
  destruct (runAsync engine_ok (insertWorkoutExercise workoutId i ex) w) as [w1 [weid|]];
    cbn in Hr.
  - pose proof (saveSets_world u weid (sets ex) w1) as Hs.
    destruct (saveSets engine_ok u weid (sets ex) w1) as [w2 [[]|]]; cbn in Hs; subst w2.
    + rewrite IH. apply Hr. discriminate.
    + cbn. apply Hr. discriminate.
  - cbn. apply Hr. discriminate.
Qed.

(** C2, what the code does.  The created workout_sets table has no
    column workout_exercise_id (it keys sets by workout_id and
    exercise_id, both NOT NULL), so the set insert of endWorkout is
    rejected whatever it binds: no set row is ever written, and the
    write of any session that has a set throws. *)
Theorem set_insert_names_a_missing_column
    (u : User) (startTime endTime : Z) (s : State) (w : World) :
  (exists ex, In ex (activeExercises s) /\ sets ex <> []) ->
  declares workout_sets "workout_exercise_id" = false
  /\ (forall workoutExerciseId st w',
        runAsync engine_ok (insertWorkoutSet u workoutExerciseId st) w' = (w', None))
  /\ snd (saveWorkout engine_ok u startTime endTime s w) = None
  /\ t_workout_sets (db (fst (saveWorkout engine_ok u startTime endTime s w)))
     = t_workout_sets (db w).
Proof.
  intros Hex. split; [reflexivity|]. split; [intros; apply runAsync_set_throws|].
  unfold saveWorkout.
  set (header := insertWorkout u startTime endTime (activeExercises s) (workoutNotes s)).
  destruct (schema_accepts header && engine_ok header (db w)) eqn:H.
  - rewrite !(bind_runAsync_accept _ _ _ _ H).
    set (w1 := set_db _ w). set (workoutId := last_rowid _ + 1).
    assert (Hw1 : t_workout_sets (db w1) = t_workout_sets (db w)) by reflexivity.
    rewrite <- Hw1. clearbody w1. clear Hw1.
    unfold bind.
    pose proof (@saveExercises_throws u workoutId (activeExercises s) Hex 0%nat w1) as Hs.
    pose proof (saveExercises_keeps_set_rows u workoutId (activeExercises s) 0 w1) as Hk.
    destruct (saveExercises engine_ok u workoutId 0 (activeExercises s) w1) as [w2 [[]|]];
      cbn in Hs, Hk; [discriminate|].
    split; [reflexivity|exact Hk].
  - rewrite !(bind_runAsync_reject _ _ _ _ H). split; reflexivity.
Qed.

End SetRows.

Lemma set_insert_names_a_missing_column_witness :
  (exists ex, In ex (activeExercises (Fixtures.activeWith [Fixtures.warmupAndWork]))
              /\ sets ex <> [])
  /\ snd (saveWorkout Fixtures.permissive Fixtures.lifter 100000 160500
            (Fixtures.activeWith [Fixtures.warmupAndWork]) Fixtures.emptyWorld) = None.
Proof.
  assert (H : exists ex, In ex (activeExercises (Fixtures.activeWith [Fixtures.warmupAndWork]))
                         /\ sets ex <> []).
  { exists Fixtures.warmupAndWork. split; [left; reflexivity|discriminate]. }
  split; [exact H|].
  apply (@set_insert_names_a_missing_column QNumber Fixtures.permissive Fixtures.lifter
           100000 160500 (Fixtures.activeWith [Fixtures.warmupAndWork])
           Fixtures.emptyWorld H).
Defined.

(** endWorkout on a session of one exercise with two sets, with an
    engine that has no objection of its own: the header row and the
    exercise row are written, the first set insert throws, "Save
    Error" is requested and the session stays as it was. *)
Example endWorkout_with_sets_never_saves :
  endWorkout Fixtures.permissive (Some Fixtures.lifter) true 160500 "Well done"
    (Fixtures.activeWith [Fixtures.warmupAndWork]) Fixtures.emptyWorld
  = (Fixtures.activeWith [Fixtures.warmupAndWork],
     {| db := {| t_workouts :=
                   {| rows := [ {| rowid := 1;
                                   cells := [ ("user_id", VInt 1);
                                              ("start_time", VDate 100000);
                                              ("end_time", VDate 160500);
                                              ("duration_seconds", VInt 60);
                                              ("total_volume", VNum (1000 : Q));
                                              ("notes", VText "push day") ] |} ];
                      last_rowid := 1 |};
                 t_workout_exercises :=
                   {| rows := [ {| rowid := 1;
                                   cells := [ ("workout_id", VInt 1);
                                              ("exercise_id", VInt 7);
                                              ("order_index", VInt 0);
                                              ("notes", VText "") ] |} ];
                      last_rowid := 1 |};
                 t_workout_sets := emptyTable;
                 t_personal_records := emptyTable |};
        popups := [ ShowError "Save Error" "Failed to save workout. Please try again." ] |}).
Proof. reflexivity. Qed.

(* ================================================================== *)
(** * Personal records *)

Section Records.
Context {J : JsNumber} {O : JsOrder J}.
Variable engine_ok : Insert -> Db -> bool.

Lemma neq_refl (a : num) : neq a a = true.
Proof. rewrite neq_spec, nlt_irrefl. reflexivity. Qed.

(** [>=] is transitive. *)
Lemma nlt_false_trans (a b c : num) :
  nlt a b = false -> nlt b c = false -> nlt a c = false.
Proof.
  intros Hab Hbc. destruct (nlt a c) eqn:E; [|reflexivity].
  destruct (nlt_cotrans a b c E) as [H|H]; congruence.
Qed.

Lemma math_max_ge_seed (xs : list num) :
  forall x, nlt (math_max x xs) x = false.
Proof.
  unfold math_max. induction xs as [|a xs IH]; intros x; cbn.
  - apply nlt_irrefl.
  - eapply nlt_false_trans; [apply IH|apply nmax_ge_l].
Qed.

Lemma math_max_ge (xs : list num) :
  forall x y, In y (x :: xs) -> nlt (math_max x xs) y = false.
Proof.
  induction xs as [|a xs IH]; intros x y Hin.
  - destruct Hin as [<-|[]]. apply nlt_irrefl.
  - destruct Hin as [<-|[<-|Hin]].
    + apply math_max_ge_seed.
    + change (math_max x (a :: xs)) with (math_max (nmax x a) xs).
      eapply nlt_false_trans; [apply math_max_ge_seed|apply nmax_ge_r].
    + change (math_max x (a :: xs)) with (math_max (nmax x a) xs).
      apply IH. right. exact Hin.
Qed.

Lemma math_max_in (xs : list num) :
  forall x, In (math_max x xs) (x :: xs).
Proof.
  induction xs as [|a xs IH]; intros x.
  - left. reflexivity.
  - change (math_max x (a :: xs)) with (math_max (nmax x a) xs).
    destruct (IH (nmax x a)) as [H|H].
    + rewrite <- H. destruct (nmax_cases x a) as [E|E]; rewrite E; cbn; auto.
    + right. right. exact H.
Qed.

Lemma find_first {A} (p : A -> bool) (xs : list A) (m : A) :
  find p xs = Some m ->
  exists before after,
    xs = before ++ m :: after /\ p m = true /\ forall x, In x before -> p x = false.
Proof.
  induction xs as [|x xs IH]; cbn; [discriminate|].
  destruct (p x) eqn:E.
  - intros H. injection H as <-. exists [], xs. repeat split; auto. intros ? [].
  - intros H. destruct (IH H) as (b & a & -> & Hp & Hb).
    exists (x :: b), a. repeat split; auto.
    intros y [<-|Hy]; auto.
Qed.

Lemma find_some_if {A} (p : A -> bool) (xs : list A) (x : A) :
  In x xs -> p x = true -> exists m, find p xs = Some m.
Proof.
  induction xs as [|y xs IH]; intros Hin Hp; [destruct Hin|].
  cbn. destruct (p y) eqn:E; [eauto|].
  destruct Hin as [<-|Hin]; [congruence|auto].
Qed.

Lemma maxWeightSet_exists (cs : list WorkoutSet) :
  cs <> [] ->
  exists maxWeight m,
    maxWeightOf cs = Some maxWeight /\ maxWeightSetOf cs = Some m.
Proof.
  destruct cs as [|st cs]; [congruence|]. intros _.
  unfold maxWeightSetOf. cbn [maxWeightOf].
  set (maxWeight := math_max (weight st) (map weight cs)).
  assert (Hin : In maxWeight (map weight (st :: cs))) by apply math_max_in.
  apply in_map_iff in Hin. destruct Hin as (st' & Hw & Hin).
  destruct (@find_some_if _ (fun st0 => neq (weight st0) maxWeight) (st :: cs) st' Hin)
    as [m Hm].
  - rewrite Hw. apply neq_refl.
  - exists maxWeight, m. split; [reflexivity|exact Hm].
Qed.

Lemma beats_iff (candidate : num) (existing : option num) :
  beats candidate existing = true <->
  existing = None \/ exists v, existing = Some v /\ nlt v candidate = true.
Proof.
  unfold beats, ngt. destruct existing as [v|].
  - split.
    + intros H. right. eauto.
    + intros [H|(v' & H & Hlt)]; [discriminate|]. now injection H as ->.
  - split; auto.
Qed.

Lemma beats_equal (candidate v : num) :
  neq candidate v = true -> beats candidate (Some v) = false.
Proof.
  intros H. rewrite neq_spec in H. apply andb_true_iff in H. destruct H as [_ H].
  cbn. unfold ngt. now apply negb_true_iff in H.
Qed.

Lemma maxWeightOf_is_max (cs : list WorkoutSet) (maxWeight : num) :
  maxWeightOf cs = Some maxWeight ->
  forall st, In st cs -> nlt maxWeight (weight st) = false.
Proof.
  destruct cs as [|st0 cs]; cbn [maxWeightOf]; [discriminate|].
  intros H st Hin. injection H as <-.
  apply math_max_ge. change (weight st0 :: map weight cs) with (map weight (st0 :: cs)).
  now apply in_map.
Qed.

(** The 1RM step of an exercise with at least one completed non-warm-up
    set takes the maximum weight of those sets, picks the
    first of them (in set order) whose weight equals it, computes
    maxWeight * (1 + reps / 30), and runs the INSERT OR REPLACE of the
    '1RM' record (value, reps, weight, unit, workout id) exactly when
    the record query returns nothing or a value strictly below the
    estimate; when the estimate equals the value the query returned
    nothing is written. *)
Theorem one_rep_max_record (u : User) (workoutId : Z) (ex : ActiveExercise) :
  completedSets ex <> [] ->
  exists maxWeight m before after,
    completedSets ex = before ++ m :: after
    /\ (In m (sets ex) /\ completed m = true /\ is_warmup m = false)
    /\ (forall st, In st (completedSets ex) -> nlt maxWeight (weight st) = false)
    /\ neq (weight m) maxWeight = true
    /\ (forall st, In st before -> neq (weight st) maxWeight = false)
    /\ forall w,
         let estimated := nmul maxWeight (nadd (of_Z 1) (ndiv (reps m) (of_Z 30))) in
         let existing := selectRecord (user_id u) (ex_id (exercise ex)) "1RM" (db w) in
         let upsert :=
           {| or_replace := true;
              into := personal_records;
              columns := ["user_id"; "exercise_id"; "record_type"; "value"; "reps";
                          "weight"; "weight_unit"; "workout_id"];
              values := [VInt (user_id u); VInt (ex_id (exercise ex)); VText "1RM";
                         VNum estimated; VNum (reps m); VNum maxWeight;
                         VText (preferred_weight_unit u); VInt workoutId] |} in
         (beats estimated existing = true <->
            existing = None \/ exists v, existing = Some v /\ ngt estimated v = true)
         /\ (beats estimated existing = true ->
             check1RM engine_ok u workoutId ex (completedSets ex) w
             = bind (runAsync engine_ok upsert)
                    (fun _ => show (ShowNewRecord (ex_name (exercise ex)) estimated
                                      (preferred_weight_unit u))) w)
         /\ (beats estimated existing = false ->
             check1RM engine_ok u workoutId ex (completedSets ex) w = (w, Some tt))
         /\ (forall v, existing = Some v -> neq estimated v = true ->
             check1RM engine_ok u workoutId ex (completedSets ex) w = (w, Some tt))
         /\ checkExercise engine_ok u workoutId ex w
            = bind (check1RM engine_ok u workoutId ex (completedSets ex))
                   (fun _ => checkVolume engine_ok u workoutId ex (completedSets ex)) w.
Proof.
  intros Hne.
  destruct (maxWeightSet_exists Hne) as (maxWeight & m & Hmax & Hset).
  assert (Hfind : find (fun st => neq (weight st) maxWeight) (completedSets ex) = Some m).
  { unfold maxWeightSetOf in Hset. now rewrite Hmax in Hset. }
  destruct (find_first _ _ Hfind) as (before & after & Hsplit & Hm & Hbefore).
  exists maxWeight, m, before, after.
  split; [exact Hsplit|]. split.
  { assert (Hin : In m (completedSets ex))
      by (rewrite Hsplit; apply in_or_app; right; left; reflexivity).
    unfold completedSets in Hin. apply filter_In in Hin. destruct Hin as [Hin Hc].
    apply andb_true_iff in Hc. destruct Hc as [Hc Hw].
    apply negb_true_iff in Hw. auto. }
  split; [exact (maxWeightOf_is_max _ Hmax)|].
  split; [exact Hm|]. split; [exact Hbefore|].
  intros w estimated existing upsert.
  assert (Hcheck : check1RM engine_ok u workoutId ex (completedSets ex) w
                   = if beats estimated existing
                     then bind (runAsync engine_ok upsert)
                            (fun _ => show (ShowNewRecord (ex_name (exercise ex)) estimated
                                              (preferred_weight_unit u))) w
                     else (w, Some tt)).
  { unfold check1RM. rewrite Hmax, Hset. unfold bind at 1, getFirstAsync.
    fold existing. fold (estimated1RM maxWeight (reps m)).
    change (estimated1RM maxWeight (reps m)) with estimated.
    destruct (beats estimated existing); reflexivity. }
  split; [apply beats_iff|].
  split; [intros Hb; now rewrite Hcheck, Hb|].
  split; [intros Hb; now rewrite Hcheck, Hb|].
  split.
  - intros v Hv Heq. rewrite Hcheck, Hv, (beats_equal _ _ Heq). reflexivity.
  - unfold checkExercise.
    destruct (completedSets ex) as [|c cs]; [congruence|reflexivity].
Qed.

End Records.

Lemma one_rep_max_record_witness :
  completedSets Fixtures.twoTopSets <> []
  /\ exists maxWeight m,
       In m (sets Fixtures.twoTopSets)
       /\ neq (weight m) maxWeight = true
       /\ forall st, In st (completedSets Fixtures.twoTopSets) ->
                     nlt maxWeight (weight st) = false.
Proof.
  assert (H : completedSets Fixtures.twoTopSets <> []) by discriminate.
  split; [exact H|].
  destruct (@one_rep_max_record QNumber QOrder Fixtures.permissive Fixtures.lifter 1
              Fixtures.twoTopSets H)
    as (maxWeight & m & before & after & _ & (Hin & _ & _) & Hmax & Hm & _).
  exists maxWeight, m. split; [exact Hin|]. split; [exact Hm|exact Hmax].
Defined.

(** Sets of 80 x 8, 100 x 5 and 100 x 3: the second set is picked and
    the estimate is 100 * (1 + 5/30).  Against an empty store the 1RM
    record is written; against a stored value equal to the estimate
    (350/3) only the volume record is written. *)
Example one_rep_max_on_two_top_sets :
  maxWeightOf (completedSets Fixtures.twoTopSets) = Some (100 : Q)
  /\ option_map set_number (maxWeightSetOf (completedSets Fixtures.twoTopSets)) = Some 2
  /\ Qeq_bool (estimated1RM (100 : Q) (5 : Q)) (350 # 3) = true
  /\ map (fun r => (cell r "record_type", cell r "value", cell r "reps", cell r "weight"))
       (rows (t_personal_records
                (db (checkPersonalRecords Fixtures.permissive Fixtures.lifter 1
                       [Fixtures.twoTopSets] Fixtures.emptyWorld))))
     = [ (VText "1RM", VNum (estimated1RM (100 : Q) (5 : Q)), VNum (5 : Q), VNum (100 : Q));
         (VText "volume", VNum (1440 : Q), VNull, VNull) ]
  /\ map (fun r => (cell r "record_type", cell r "value"))
       (rows (t_personal_records
                (db (checkPersonalRecords Fixtures.permissive Fixtures.lifter 1
                       [Fixtures.twoTopSets]
                       {| db := Fixtures.storeWith1RM (350 # 3); popups := [] |}))))
     = [ (VText "1RM", VNum (350 # 3)); (VText "volume", VNum (1440 : Q)) ].
Proof. repeat split. Qed.

(* ================================================================== *)
(** * Volumes *)

Section Volumes.
Context {J : JsNumber}.






End Volumes.


(* ================================================================== *)
(** * Rest timer countdown *)

Module RestTimerFacts.
Import RestTimer.

Lemma ticks_add (a b : nat) : forall t, ticks (a + b) t = ticks b (ticks a t).
Proof.
  induction a as [|a IH]; intros t; cbn; [reflexivity|apply IH].
Qed.

Lemma tick_stopped (t : Timer) : isRunning t = false -> tick t = t.
Proof.
  intros H. unfold tick, intervalActive. now rewrite H.
Qed.

Lemma ticks_stopped (k : nat) : forall t, isRunning t = false -> ticks k t = t.
Proof.
  induction k as [|k IH]; intros t H; cbn; [reflexivity|].
  rewrite (tick_stopped _ H). now apply IH.
Qed.

Lemma tick_counting (t : Timer) :
  isRunning t = true -> 1 < timeRemaining t ->
  tick t = {| timeRemaining := timeRemaining t - 1;
              isRunning := true;
              selectedTime := selectedTime t;
              completions := completions t |}.
Proof.
  intros Hr Ht. unfold tick, intervalActive. rewrite Hr. cbn.
  destruct (Z.ltb_spec 0 (timeRemaining t)); [|lia].
  destruct (Z.leb_spec (timeRemaining t) 1); [lia|reflexivity].
Qed.

Lemma tick_last (t : Timer) :
  isRunning t = true -> timeRemaining t = 1 ->
  tick t = {| timeRemaining := 0;
              isRunning := false;
              selectedTime := selectedTime t;
              completions := S (completions t) |}.
Proof.
  intros Hr Ht. unfold tick, intervalActive. rewrite Hr, Ht. reflexivity.
Qed.

Lemma ticks_counting (k : nat) :
  forall t,
    isRunning t = true -> Z.of_nat k < timeRemaining t ->
    ticks k t = {| timeRemaining := timeRemaining t - Z.of_nat k;
                   isRunning := true;
                   selectedTime := selectedTime t;
                   completions := completions t |}.
Proof.
  induction k as [|k IH]; intros t Hr Hk.
  - cbn. rewrite Z.sub_0_r. destruct t; cbn in *. now subst.
  - cbn [ticks]. rewrite (tick_counting _ Hr) by lia.
    rewrite IH; cbn; [|reflexivity|lia].
    f_equal. lia.
Qed.

Lemma ticks_completed (k : nat) (t : Timer) :
  isRunning t = true -> 0 < timeRemaining t -> timeRemaining t <= Z.of_nat k ->
  ticks k t = {| timeRemaining := 0;
                 isRunning := false;
                 selectedTime := selectedTime t;
                 completions := S (completions t) |}.
Proof.
  intros Hr Hpos Hk.
  set (n := Z.to_nat (timeRemaining t - 1)).
  replace k with (n + (1 + (k - n - 1)))%nat by lia.
  rewrite ticks_add, ticks_add.
  rewrite (ticks_counting n t Hr) by lia.
  cbn [ticks]. rewrite tick_last; cbn; [|reflexivity|lia].
  now rewrite ticks_stopped.
Qed.

(** C9.  A run started at a positive whole-second duration (first
    render with that initialTime, shown, then started) is running with
    that time remaining; from any running timer with d > 0 seconds
    remaining, k < d ticks leave d - k seconds, the timer still
    running and onComplete not called; from the d-th tick on the timer
    is stopped at 0 with onComplete called exactly once more, however
    many further ticks are delivered; so a run started at duration d
    shows d - k after k < d ticks and has completed exactly once after
    any k >= d ticks. *)
Theorem countdown_completes_once :
  (forall duration,
      0 < duration ->
      startRun duration = {| timeRemaining := duration;
                             isRunning := true;
                             selectedTime := duration;
                             completions := 0 |})
  /\ (forall (t : Timer) (k : nat),
        isRunning t = true -> 0 < timeRemaining t ->
        (Z.of_nat k < timeRemaining t ->
         ticks k t = {| timeRemaining := timeRemaining t - Z.of_nat k;
                        isRunning := true;
                        selectedTime := selectedTime t;
                        completions := completions t |})
        /\ (timeRemaining t <= Z.of_nat k ->
            ticks k t = {| timeRemaining := 0;
                           isRunning := false;
                           selectedTime := selectedTime t;
                           completions := S (completions t) |}))
  /\ (forall duration (k : nat),
        0 < duration ->
        (Z.of_nat k < duration ->
         timeRemaining (ticks k (startRun duration)) = duration - Z.of_nat k
         /\ isRunning (ticks k (startRun duration)) = true
         /\ completions (ticks k (startRun duration)) = 0%nat)
        /\ (duration <= Z.of_nat k ->
            timeRemaining (ticks k (startRun duration)) = 0
            /\ isRunning (ticks k (startRun duration)) = false
            /\ completions (ticks k (startRun duration)) = 1%nat)).
Proof.
  assert (Hstart : forall duration,
             0 < duration ->
             startRun duration = {| timeRemaining := duration;
                                    isRunning := true;
                                    selectedTime := duration;
                                    completions := 0 |}).
  { intros duration H. unfold startRun, handleStart, onVisible, mount. cbn.
    destruct (Z.eqb_spec duration 0); [lia|reflexivity]. }
  split; [exact Hstart|]. split.
  - intros t k Hr Hpos. split.
    + now apply ticks_counting.
    + now apply ticks_completed.
  - intros duration k Hd. rewrite (Hstart _ Hd). split; intros Hk.
    + rewrite ticks_counting by (cbn; auto). cbn. auto.
    + rewrite ticks_completed by (cbn; auto; lia). cbn. auto.
Qed.

Lemma countdown_completes_once_witness :
  0 < 3
  /\ ticks 2 (startRun 3) = {| timeRemaining := 1; isRunning := true;
                               selectedTime := 3; completions := 0 |}
  /\ ticks 7 (startRun 3) = {| timeRemaining := 0; isRunning := false;
                               selectedTime := 3; completions := 1 |}.
Proof.
  split; [lia|]. split.
  - apply (proj1 (proj1 (proj2 countdown_completes_once) (startRun 3) 2%nat
                     eq_refl eq_refl)).
    reflexivity.
  - apply (proj2 (proj1 (proj2 countdown_completes_once) (startRun 3) 7%nat
                     eq_refl eq_refl)).
    cbn. lia.
Defined.

End RestTimerFacts.

(* ================================================================== *)
(** * More on arrays *)

Section MoreArrayFacts.
Context {A : Type}.

Lemma nth_error_set_nth_other (v : A) (xs : list A) :
  forall i k, k <> i -> nth_error (set_nth i v xs) k = nth_error xs k.
Proof.
  induction xs as [|x xs IH]; intros [|i] [|k] H; cbn; try reflexivity.
  - congruence.
  - apply IH. congruence.
Qed.

Lemma set_nth_preserves_length (v : A) (xs : list A) :
  forall i, List.length (set_nth i v xs) = List.length xs.
Proof.
  induction xs as [|x xs IH]; intros [|i]; cbn; auto.
Qed.

Lemma set_nth_same (xs : list A) :
  forall i x, nth_error xs i = Some x -> set_nth i x xs = xs.
Proof.
  induction xs as [|y xs IH]; intros [|i] x H; cbn in *; try discriminate.
  - now injection H as ->.
  - f_equal. eauto.
Qed.

Lemma set_nth_twice (v v' : A) (xs : list A) :
  forall i, set_nth i v (set_nth i v' xs) = set_nth i v xs.
Proof.
  induction xs as [|y xs IH]; intros [|i]; cbn; try reflexivity.
  f_equal. apply IH.
Qed.

Lemma Forall_set_nth (P : A -> Prop) (v : A) (xs : list A) :
  P v -> Forall P xs -> forall i, Forall P (set_nth i v xs).
Proof.
  intros Hv H. induction H as [|x xs Hx Hxs IH]; intros [|i]; cbn; auto.
Qed.

Lemma filteri_from_past (xs : list A) :
  forall m n, (n < m)%nat ->
    filteri_from (fun _ index => negb (Nat.eqb index n)) m xs = xs.
Proof.
  induction xs as [|y ys IH]; intros m n H; cbn; [reflexivity|].
  destruct (Nat.eqb_spec m n); [lia|]. cbn. f_equal. apply IH. lia.
Qed.

Lemma filteri_from_drop (xs : list A) :
  forall k j,
    filteri_from (fun _ index => negb (Nat.eqb index (k + j))) k xs
    = firstn j xs ++ skipn (S j) xs.
Proof.
  induction xs as [|x xs IH]; intros k j; cbn.
  - now destruct j.
  - destruct j as [|j].
    + rewrite Nat.add_0_r, Nat.eqb_refl. cbn. apply filteri_from_past. lia.
    + destruct (Nat.eqb_spec k (k + S j)); [lia|]. cbn. f_equal.
      replace (k + S j)%nat with (S k + j)%nat by lia. apply IH.
Qed.

Lemma filteri_drop (xs : list A) (j : nat) :
  filteri (fun _ index => negb (Nat.eqb index j)) xs = firstn j xs ++ skipn (S j) xs.
Proof. apply (filteri_from_drop xs 0 j). Qed.

Lemma drop_out_of_range (xs : list A) (j : nat) :
  (List.length xs <= j)%nat -> firstn j xs ++ skipn (S j) xs = xs.
Proof.
  intros H. rewrite firstn_all2 by lia. rewrite skipn_all2 by lia. apply app_nil_r.
Qed.

Lemma drop_in_range_length (xs : list A) (j : nat) :
  (j < List.length xs)%nat ->
  S (List.length (firstn j xs ++ skipn (S j) xs)) = List.length xs.
Proof.
  intros H. rewrite length_app, length_firstn, length_skipn. lia.
Qed.

End MoreArrayFacts.

Lemma mapi_from_length_eq {A B} (f : A -> nat -> B) (xs : list A) :
  forall k, List.length (mapi_from f k xs) = List.length xs.
Proof.
  induction xs as [|x xs IH]; intros k; cbn; [reflexivity|now rewrite IH].
Qed.

Lemma mapi_from_Forall2 {A B} (R : B -> A -> Prop) (f : A -> nat -> B) (xs : list A) :
  (forall x i, R (f x i) x) -> forall k, Forall2 R (mapi_from f k xs) xs.
Proof.
  intros H. induction xs as [|x xs IH]; intros k; cbn; constructor; auto.
Qed.

(* ================================================================== *)
(** * Loading a template *)

Section Template.
Context {J : JsNumber}.

Lemma templateSets_nth (te : TemplateRow) (i : nat) (st : WorkoutSet) :
  nth_error (templateSets te) i = Some st ->
  (i < default_sets te)%nat
  /\ st = {| set_number := Z.of_nat i + 1;
             reps := default_reps te;
             weight := default_weight te;
             completed := false;
             is_warmup := Nat.eqb i 0;
             rest_time_seconds := te_rest_time_seconds te;
             rpe := None;
             set_notes := None |}.
Proof.
  unfold templateSets. rewrite nth_error_map, nth_error_seq.
  destruct (Nat.ltb_spec i (default_sets te)); cbn; [|discriminate].
  intros H0. injection H0 as <-. split; [assumption|reflexivity].
Qed.

Lemma templateSets_dense (te : TemplateRow) : dense (templateSets te).
Proof.
  intros i st H. apply templateSets_nth in H. destruct H as [_ ->]. reflexivity.
Qed.

(** X1.  loadTemplate puts one exercise per template row into the
    session, in row order and in place of whatever exercises it held;
    each gets as many sets as the row's default_sets, numbered 1..n,
    none completed, with the row's reps, weight and rest time, and
    only the first one is a warm-up.  This holds whichever active flag
    the call captured. *)
Theorem loadTemplate_installs_the_template (rows : list TemplateRow) (now : Z)
    (activeAtCall : bool) (s : State) :
  List.length (activeExercises (loadTemplate rows now activeAtCall s)) = List.length rows
  /\ forall i te,
       nth_error rows i = Some te ->
       exists ex,
         nth_error (activeExercises (loadTemplate rows now activeAtCall s)) i = Some ex
         /\ exercise ex = te_exercise te
         /\ notes ex = te_notes te
         /\ List.length (sets ex) = default_sets te
         /\ dense (sets ex)
         /\ forall j st,
              nth_error (sets ex) j = Some st ->
              is_warmup st = Nat.eqb j 0
              /\ completed st = false
              /\ reps st = default_reps te
              /\ weight st = default_weight te
              /\ rest_time_seconds st = te_rest_time_seconds te.
Proof.
  assert (E : activeExercises (loadTemplate rows now activeAtCall s)
              = map (fun te => {| exercise := te_exercise te;
                                  sets := templateSets te;
                                  notes := te_notes te |}) rows).
  { unfold loadTemplate. destruct (negb activeAtCall); reflexivity. }
  rewrite E. split; [apply length_map|].
  intros i te Hi. eexists. split.
  - rewrite nth_error_map, Hi. reflexivity.
  - cbn. repeat split.
    + unfold templateSets. now rewrite length_map, length_seq.
    + apply templateSets_dense.
    + apply templateSets_nth in H. destruct H as [_ ->]. reflexivity.
    + apply templateSets_nth in H. destruct H as [_ ->]. reflexivity.
    + apply templateSets_nth in H. destruct H as [_ ->]. reflexivity.
    + apply templateSets_nth in H. destruct H as [_ ->]. reflexivity.
    + apply templateSets_nth in H. destruct H as [_ ->]. reflexivity.
Qed.

End Template.

(* ================================================================== *)
(** * Invariants of the session under the screen's controls *)

Section Invariants.
Context {J : JsNumber}.

Lemma js_index_last_nth {A} (xs : list A) (x : A) :
  js_index xs (Z.of_nat (List.length xs) - 1) = Some x ->
  exists n, List.length xs = S n /\ nth_error xs n = Some x.
Proof.
  unfold js_index. destruct xs as [|y ys]; cbn [List.length].
  - cbn. discriminate.
  - replace (Z.of_nat (S (List.length ys)) - 1) with (Z.of_nat (List.length ys)) by lia.
    destruct (Z.ltb_spec (Z.of_nat (List.length ys)) 0); [lia|].
    rewrite Nat2Z.id. eauto.
Qed.

Lemma dense_snoc (ss : list WorkoutSet) (lastSet newSet : WorkoutSet) :
  dense ss ->
  js_index ss (Z.of_nat (List.length ss) - 1) = Some lastSet ->
  set_number newSet = set_number lastSet + 1 ->
  dense (ss ++ [newSet]).
Proof.
  intros Hd Hl Hn i st Hi.
  destruct (js_index_last_nth _ Hl) as (n & Hlen & Hnth).
  destruct (Nat.lt_ge_cases i (List.length ss)) as [Hlt|Hge].
  - rewrite nth_error_app1 in Hi by assumption. now apply Hd.
  - rewrite nth_error_app2 in Hi by assumption.
    destruct (i - List.length ss)%nat as [|m] eqn:E; cbn in Hi.
    + injection Hi as <-. rewrite Hn, (Hd _ _ Hnth). lia.
    + destruct m; discriminate.
Qed.

Lemma dense_set_nth (ss : list WorkoutSet) (j : nat) (old new : WorkoutSet) :
  nth_error ss j = Some old ->
  set_number new = set_number old ->
  dense ss -> dense (set_nth j new ss).
Proof.
  intros Hj Hn Hd i st Hi.
  destruct (Nat.eq_dec i j) as [->|Hne].
  - rewrite (set_nth_hit _ _ _ Hj) in Hi. injection Hi as <-.
    rewrite Hn. now apply Hd.
  - rewrite nth_error_set_nth_other in Hi by assumption. now apply Hd.
Qed.

Lemma Forall_filteri_from {A} (P : A -> Prop) (p : A -> nat -> bool) (xs : list A) :
  Forall P xs -> forall k, Forall P (filteri_from p k xs).
Proof.
  intros H. induction H as [|x xs Hx Hxs IH]; intros k; cbn; [constructor|].
  destruct (p x k); auto.
Qed.

Lemma allDense_exercise (s : State) (i : nat) (ex : ActiveExercise) :
  allDense s -> nth_error (activeExercises s) i = Some ex -> dense (sets ex).
Proof.
  intros H Hi. unfold allDense in H. rewrite Forall_forall in H.
  apply H. eapply nth_error_In; eauto.
Qed.

Lemma addSet_allDense (i : nat) (s s' : State) :
  addSet i s = Some s' -> allDense s -> allDense s'.
Proof.
  unfold addSet. destruct (nth_error (activeExercises s) i) as [ex|] eqn:Ei; [|discriminate].
  destruct (js_index (sets ex) (Z.of_nat (List.length (sets ex)) - 1)) as [l|] eqn:El;
    [|discriminate].
  intros H Hd. injection H as <-. unfold allDense. cbn.
  apply Forall_set_nth; [|exact Hd]. cbn.
  eapply dense_snoc; eauto. eapply allDense_exercise; eauto.
Qed.

Lemma removeSet_allDense (i j : nat) (s s' : State) :
  removeSet i j s = Some s' -> allDense s -> allDense s'.
Proof.
  unfold removeSet. destruct (nth_error (activeExercises s) i) as [ex|]; [|discriminate].
  intros H Hd. injection H as <-. unfold allDense. cbn.
  apply Forall_set_nth; [|exact Hd]. cbn. apply renumber_dense.
Qed.

Lemma openRestTimer_exercises (n : Z) (s : State) :
  activeExercises (openRestTimer n s) = activeExercises s.
Proof. reflexivity. Qed.

Lemma updateSet_exercises (i j : nat) (f : SetField) (s s' : State) :
  updateSet i j f s = Done s' ->
  exists ex old,
    nth_error (activeExercises s) i = Some ex
    /\ nth_error (sets ex) j = Some old
    /\ activeExercises s'
       = set_nth i (with_sets ex (set_nth j (assignField old f) (sets ex)))
           (activeExercises s).
Proof.
  unfold updateSet.
  destruct (nth_error (activeExercises s) i) as [ex|] eqn:Ei; [|discriminate].
  destruct (nth_error (sets ex) j) as [old|] eqn:Ej; [|discriminate].
  intros H. injection H as <-. exists ex, old. split; [reflexivity|]. split; [exact Ej|].
  destruct f as [| | |[]| | | |]; try reflexivity.
  cbn. destruct (rest_time_seconds old) as [n|]; [|reflexivity].
  destruct (negb (n =? 0) && (0 <? n)); reflexivity.
Qed.

Lemma updateSet_allDense (i j : nat) (f : SetField) (s s' : State) :
  (forall v, f <> F_set_number v) ->
  updateSet i j f s = Done s' -> allDense s -> allDense s'.
Proof.
  intros Hf H Hd. destruct (updateSet_exercises _ _ _ _ H) as (ex & old & Hi & Hj & E).
  unfold allDense. rewrite E. apply Forall_set_nth; [|exact Hd]. cbn.
  eapply dense_set_nth; eauto.
  - destruct f; try reflexivity. now elim (Hf value).
  - eapply allDense_exercise; eauto.
Qed.

Lemma loadTemplate_allDense (rows : list TemplateRow) (now : Z) (activeAtCall : bool)
    (s : State) :
  allDense (loadTemplate rows now activeAtCall s).
Proof.
  unfold allDense.
  replace (activeExercises (loadTemplate rows now activeAtCall s))
    with (map (fun te => {| exercise := te_exercise te;
                            sets := templateSets te;
                            notes := te_notes te |}) rows)
    by (unfold loadTemplate; destruct (negb activeAtCall); reflexivity).
  apply Forall_map. apply Forall_forall. intros te _. cbn. apply templateSets_dense.
Qed.

Lemma applyEvent_allDense (ev : Event) (s s' : State) :
  applyEvent ev s = Some s' -> allDense s -> allDense s'.
Proof.
  destruct ev; cbn [applyEvent]; intros H Hd.
  - injection H as <-. unfold pressStart. destruct (startButtonRendered s); assumption.
  - injection H as <-. apply loadTemplate_allDense.
  - injection H as <-. unfold allDense. cbn. apply Forall_app. split; [exact Hd|].
    constructor; [|constructor]. cbn. intros [|[|i]] st Hi; cbn in Hi; try discriminate.
    now injection Hi as <-.
  - eapply addSet_allDense; eauto.
  - destruct (updateSet exerciseIndex setIndex (F_reps value) s) eqn:E; try discriminate.
    injection H as <-. eapply updateSet_allDense; eauto. discriminate.
  - destruct (updateSet exerciseIndex setIndex (F_weight value) s) eqn:E; try discriminate.
    injection H as <-. eapply updateSet_allDense; eauto. discriminate.
  - destruct (renderedSet exerciseIndex setIndex s) as [st|]; [|discriminate].
    destruct (updateSet exerciseIndex setIndex (F_completed (negb (completed st))) s) eqn:E;
      try discriminate.
    injection H as <-. eapply updateSet_allDense; eauto. discriminate.
  - destruct (renderedSet exerciseIndex setIndex s) as [st|]; [|discriminate].
    destruct (updateSet exerciseIndex setIndex (F_is_warmup (negb (is_warmup st))) s) eqn:E;
      try discriminate.
    injection H as <-. eapply updateSet_allDense; eauto. discriminate.
  - eapply removeSet_allDense; eauto.
  - injection H as <-. unfold allDense, removeExercise. cbn.
    apply Forall_filteri_from. exact Hd.
  - injection H as <-. exact Hd.
  - injection H as <-. unfold allDense, elapsedTick.
    destruct (isWorkoutActive s), (workoutStartTime s); exact Hd.
  - injection H as <-. constructor.
Qed.

(** X2.  Whatever the user does on the screen (start, pick a template
    or an exercise, add, edit, complete, flag or delete a set, remove
    an exercise, open the rest timer, let the clock tick, reset), the
    sets of every exercise stay numbered 1..N by position, provided
    they were so before; in particular in every session reached from
    the initial state. *)
Theorem set_numbers_stay_dense (evs : list Event) :
  forall s s',
    allDense s -> runEvents evs s = Some s' ->
    allDense s'
    /\ forall i ex j st,
         nth_error (activeExercises s') i = Some ex ->
         nth_error (sets ex) j = Some st ->
         set_number st = Z.of_nat j + 1.
Proof.
  induction evs as [|ev evs IH]; intros s s' Hd H; cbn in H.
  - injection H as <-. split; [exact Hd|].
    intros i ex j st Hi Hj. exact (allDense_exercise _ Hd Hi _ Hj).
  - destruct (applyEvent ev s) as [s1|] eqn:E; [|discriminate].
    eapply IH; [|exact H]. eapply applyEvent_allDense; eauto.
Qed.

Lemma applyEvent_startedIffActive (ev : Event) (s s' : State) :
  applyEvent ev s = Some s' -> startedIffActive s -> startedIffActive s'.
Proof.
  assert (Hstart : forall now s0, startedIffActive (startWorkout now s0)).
  { intros now s0. unfold startedIffActive. cbn. split; eauto. }
  assert (Hsame : forall s0 : State,
             isWorkoutActive s0 = isWorkoutActive s ->
             workoutStartTime s0 = workoutStartTime s ->
             startedIffActive s -> startedIffActive s0).
  { intros s0 E1 E2. unfold startedIffActive. now rewrite E1, E2. }
  destruct ev; cbn [applyEvent]; intros H Hinv.
  - injection H as <-. unfold pressStart. destruct (startButtonRendered s); auto.
  - injection H as <-. unfold loadTemplate.
    destruct (negb activeAtCall); [apply Hstart|]. now apply Hsame.
  - injection H as <-. now apply Hsame.
  - unfold addSet in H.
    destruct (nth_error (activeExercises s) exerciseIndex) as [ex|]; [|discriminate].
    destruct (js_index _ _); [|discriminate]. injection H as <-. now apply Hsame.
  - destruct (updateSet exerciseIndex setIndex (F_reps value) s) eqn:E; try discriminate.
    injection H as <-. unfold updateSet in E.
    destruct (nth_error (activeExercises s) exerciseIndex) as [ex|]; [|discriminate].
    destruct (nth_error (sets ex) setIndex); [|discriminate].
    injection E as <-. now apply Hsame.
  - destruct (updateSet exerciseIndex setIndex (F_weight value) s) eqn:E; try discriminate.
    injection H as <-. unfold updateSet in E.
    destruct (nth_error (activeExercises s) exerciseIndex) as [ex|]; [|discriminate].
    destruct (nth_error (sets ex) setIndex); [|discriminate].
    injection E as <-. now apply Hsame.
  - destruct (renderedSet exerciseIndex setIndex s) as [st|]; [|discriminate].
    destruct (updateSet exerciseIndex setIndex (F_completed (negb (completed st))) s) eqn:E;
      try discriminate.
    injection H as <-. unfold updateSet in E.
    destruct (nth_error (activeExercises s) exerciseIndex) as [ex|]; [|discriminate].
    destruct (nth_error (sets ex) setIndex) as [old|]; [|discriminate].
    injection E as <-. apply Hsame; [| |exact Hinv].
    + destruct (negb (completed st)); [|reflexivity]. cbn.
      destruct (rest_time_seconds old) as [n|]; [|reflexivity].
      destruct (negb (n =? 0) && (0 <? n)); reflexivity.
    + destruct (negb (completed st)); [|reflexivity]. cbn.
      destruct (rest_time_seconds old) as [n|]; [|reflexivity].
      destruct (negb (n =? 0) && (0 <? n)); reflexivity.
  - destruct (renderedSet exerciseIndex setIndex s) as [st|]; [|discriminate].
    destruct (updateSet exerciseIndex setIndex (F_is_warmup (negb (is_warmup st))) s) eqn:E;
      try discriminate.
    injection H as <-. unfold updateSet in E.
    destruct (nth_error (activeExercises s) exerciseIndex) as [ex|]; [|discriminate].
    destruct (nth_error (sets ex) setIndex); [|discriminate].
    injection E as <-. now apply Hsame.
  - unfold removeSet in H.
    destruct (nth_error (activeExercises s) exerciseIndex) as [ex|]; [|discriminate].
    injection H as <-. now apply Hsame.
  - injection H as <-. now apply Hsame.
  - injection H as <-. now apply Hsame.
  - injection H as <-.
    assert (E1 : isWorkoutActive (elapsedTick now s) = isWorkoutActive s)
      by (unfold elapsedTick;
          destruct (isWorkoutActive s) eqn:Ea, (workoutStartTime s) eqn:Et;
          cbn; congruence).
    assert (E2 : workoutStartTime (elapsedTick now s) = workoutStartTime s)
      by (unfold elapsedTick;
          destruct (isWorkoutActive s) eqn:Ea, (workoutStartTime s) eqn:Et;
          cbn; congruence).
    now apply Hsame.
  - injection H as <-. unfold startedIffActive. cbn. split; [discriminate|].
    intros [t Ht]. discriminate.
Qed.

(** X3.  In every session reached from the initial state through the
    screen's controls, the workout is active exactly when it has a
    start timestamp: an active session can always be ended, and an
    idle one never shows a running clock. *)
Theorem active_iff_start_time (evs : list Event) (s' : State) :
  runEvents evs initialState = Some s' ->
  (isWorkoutActive s' = true <-> exists startTime, workoutStartTime s' = Some startTime)
  /\ (isWorkoutActive s' = false -> forall now, elapsedTick now s' = s').
Proof.
  assert (G : forall evs0 s0 s1,
             startedIffActive s0 -> runEvents evs0 s0 = Some s1 -> startedIffActive s1).
  { induction evs0 as [|ev evs0 IH]; intros s0 s1 Hinv H; cbn in H.
    - now injection H as <-.
    - destruct (applyEvent ev s0) as [s2|] eqn:E; [|discriminate].
      eapply IH; [|exact H]. eapply applyEvent_startedIffActive; eauto. }
  intros H. split.
  - apply (G evs initialState s'); [|exact H].
    unfold startedIffActive. cbn. split; [discriminate|]. intros [t Ht]. discriminate.
  - intros Hi now. unfold elapsedTick. now rewrite Hi.
Qed.

End Invariants.

(* ================================================================== *)
(** * What the set handlers change and what they leave alone *)

Section Frames.
Context {J : JsNumber}.

Lemma set_nth_onlySetsOf (i : nat) (s : State) (ex : ActiveExercise) (ss : list WorkoutSet) :
  nth_error (activeExercises s) i = Some ex ->
  onlySetsOf i s
    (setActiveExercises (set_nth i (with_sets ex ss) (activeExercises s)) s).
Proof.
  intros Hi. unfold onlySetsOf. cbn.
  repeat split; try reflexivity.
  - apply set_nth_preserves_length.
  - intros k Hk. now apply nth_error_set_nth_other.
  - intros ex0 H0. rewrite Hi in H0. injection H0 as <-.
    eexists. split; [eapply set_nth_hit; eauto|]. split; reflexivity.
Qed.

(** X4.  addSet, removeSet and updateSet on exercise i touch nothing
    but the sets of that exercise: the other exercises, the exercise's
    own identity and notes, the number of exercises, the start
    timestamp, the timer, the notes and the active flag are all left as
    they were. *)
Theorem set_handlers_touch_one_exercise (i : nat) (s s' : State) :
  (addSet i s = Some s'
   \/ (exists j, removeSet i j s = Some s')
   \/ (exists j f, updateSet i j f s = Done s')) ->
  onlySetsOf i s s'.
Proof.
  intros [H|[[j H]|(j & f & H)]].
  - unfold addSet in H.
    destruct (nth_error (activeExercises s) i) as [ex|] eqn:Ei; [|discriminate].
    destruct (js_index _ _); [|discriminate]. injection H as <-.
    now apply set_nth_onlySetsOf.
  - unfold removeSet in H.
    destruct (nth_error (activeExercises s) i) as [ex|] eqn:Ei; [|discriminate].
    injection H as <-. now apply set_nth_onlySetsOf.
  - unfold updateSet in H.
    destruct (nth_error (activeExercises s) i) as [ex|] eqn:Ei; [|discriminate].
    destruct (nth_error (sets ex) j) as [old|]; [|discriminate].
    injection H as <-.
    pose proof (set_nth_onlySetsOf i s (set_nth j (assignField old f) (sets ex)) Ei) as G.
    destruct f as [| | |[]| | | |]; try exact G.
    cbn. destruct (rest_time_seconds old) as [n|]; [|exact G].
    destruct (negb (n =? 0) && (0 <? n)); exact G.
Qed.

Lemma renumber_sameButNumber (kept : list WorkoutSet) :
  Forall2 sameButNumber
    (mapi (fun st index => with_set_number st (Z.of_nat index + 1)) kept) kept.
Proof.
  apply mapi_from_Forall2. intros st idx. unfold sameButNumber. cbn. repeat split.
Qed.

(** X5.  removeSet on an existing exercise keeps every set but the one
    at setIndex, in their order and with reps, weight, flags, rest
    time, effort and notes untouched; a setIndex past the end removes
    nothing.  Only the numbers are rewritten. *)
Theorem removeSet_keeps_the_other_sets (i j : nat) (s : State) (ex : ActiveExercise) :
  nth_error (activeExercises s) i = Some ex ->
  exists s' ex',
    removeSet i j s = Some s'
    /\ nth_error (activeExercises s') i = Some ex'
    /\ Forall2 sameButNumber (sets ex') (firstn j (sets ex) ++ skipn (S j) (sets ex))
    /\ ((j < List.length (sets ex))%nat ->
        S (List.length (sets ex')) = List.length (sets ex))
    /\ ((List.length (sets ex) <= j)%nat ->
        Forall2 sameButNumber (sets ex') (sets ex)).
Proof.
  intros Hi. unfold removeSet. rewrite Hi.
  eexists. eexists. split; [reflexivity|]. cbn.
  split; [eapply set_nth_hit; eauto|]. cbn.
  rewrite filteri_drop.
  split; [apply renumber_sameButNumber|]. split.
  - intros Hj. unfold mapi. rewrite mapi_from_length_eq. now apply drop_in_range_length.
  - intros Hj. rewrite (@drop_out_of_range _ (sets ex) j Hj). apply renumber_sameButNumber.
Qed.

End Frames.

(* ================================================================== *)
(** * Adding a set and taking it back, removing an exercise *)

Section Undo.
Context {J : JsNumber}.

Lemma with_set_number_same (st : WorkoutSet) : with_set_number st (set_number st) = st.
Proof. now destruct st. Qed.

Lemma with_sets_same (ex : ActiveExercise) : with_sets ex (sets ex) = ex.
Proof. now destruct ex. Qed.

Lemma setActiveExercises_same (s : State) : setActiveExercises (activeExercises s) s = s.
Proof. now destruct s. Qed.

Lemma renumber_dense_id (ss : list WorkoutSet) :
  dense ss -> mapi (fun st index => with_set_number st (Z.of_nat index + 1)) ss = ss.
Proof.
  intros Hd. apply nth_error_ext. intros i. unfold mapi. rewrite mapi_from_nth.
  destruct (nth_error ss i) as [st|] eqn:E; cbn; [|reflexivity].
  rewrite <- (Hd _ _ E). now rewrite with_set_number_same.
Qed.

(** X6.  On an exercise whose sets are numbered 1..N, adding a set and
    then deleting the set just added gives back exactly the session
    that was there before. *)
Theorem addSet_then_delete_restores (i : nat) (s s1 : State) (ex : ActiveExercise) :
  nth_error (activeExercises s) i = Some ex ->
  dense (sets ex) ->
  addSet i s = Some s1 ->
  removeSet i (List.length (sets ex)) s1 = Some s.
Proof.
  intros Hi Hd Ha. unfold addSet in Ha. rewrite Hi in Ha.
  destruct (js_index (sets ex) (Z.of_nat (List.length (sets ex)) - 1)) as [l|];
    [|discriminate].
  injection Ha as <-. unfold removeSet.
  cbn [activeExercises setActiveExercises].
  rewrite (set_nth_hit _ _ _ Hi). cbn [sets with_sets].
  rewrite filteri_drop.
  rewrite firstn_app, Nat.sub_diag, firstn_all. cbn [firstn]. rewrite app_nil_r.
  rewrite skipn_all2 by (rewrite length_app; cbn; lia). rewrite app_nil_r.
  rewrite (renumber_dense_id Hd).
  rewrite set_nth_twice. unfold with_sets at 1. cbn.
  change {| exercise := exercise ex; sets := sets ex; notes := notes ex |}
    with (with_sets ex (sets ex)).
  rewrite with_sets_same, (set_nth_same _ _ Hi).
  f_equal. now destruct s.
Qed.

(** X7.  removeExercise takes out exactly the exercise at the given
    position: the ones before it stay where they are, the ones after
    it move up by one with all their sets, and nothing else of the
    session changes; a position past the end changes nothing. *)
Theorem removeExercise_drops_one (i : nat) (s : State) :
  activeExercises (removeExercise i s)
  = firstn i (activeExercises s) ++ skipn (S i) (activeExercises s)
  /\ (forall k, (k < i)%nat ->
        nth_error (activeExercises (removeExercise i s)) k
        = nth_error (activeExercises s) k)
  /\ (forall k, (i <= k)%nat ->
        nth_error (activeExercises (removeExercise i s)) k
        = nth_error (activeExercises s) (S k))
  /\ ((List.length (activeExercises s) <= i)%nat -> removeExercise i s = s)
  /\ isWorkoutActive (removeExercise i s) = isWorkoutActive s
  /\ workoutStartTime (removeExercise i s) = workoutStartTime s
  /\ workoutNotes (removeExercise i s) = workoutNotes s.
Proof.
  assert (E : activeExercises (removeExercise i s)
              = firstn i (activeExercises s) ++ skipn (S i) (activeExercises s))
    by (unfold removeExercise; cbn; apply filteri_drop).
  split; [exact E|]. rewrite E. split; [|split; [|split; [|repeat split]]].
  - intros k Hk. rewrite nth_error_app, length_firstn, nth_error_firstn.
    destruct (Nat.ltb_spec k (Nat.min i (List.length (activeExercises s)))).
    + destruct (Nat.ltb_spec k i); [reflexivity|lia].
    + rewrite nth_error_skipn.
      assert (Hl : (List.length (activeExercises s) <= k)%nat) by lia.
      apply nth_error_None in Hl. rewrite Hl. apply nth_error_None. lia.
  - intros k Hk. rewrite nth_error_app, length_firstn.
    destruct (Nat.ltb_spec k (Nat.min i (List.length (activeExercises s)))).
    + lia.
    + rewrite nth_error_skipn.
      destruct (Nat.le_gt_cases i (List.length (activeExercises s))).
      * f_equal. lia.
      * transitivity (@None ActiveExercise); [|symmetry]; apply nth_error_None; lia.
  - intros Hl. unfold removeExercise. rewrite filteri_drop.
    rewrite (@drop_out_of_range _ (activeExercises s) i Hl).
    apply setActiveExercises_same.
Qed.

(** X8.  updateSet throws on a missing exercise and, on a missing set,
    leaves an element that is not a set; on an existing set it
    replaces the one field and leaves the other sets of the exercise
    alone.  Marking a set completed whose rest time is positive opens
    the rest timer with that many seconds; no other update touches the
    rest timer. *)
Theorem updateSet_effect (i j : nat) (f : SetField) (s : State) :
  (nth_error (activeExercises s) i = None -> updateSet i j f s = Throws)
  /\ (forall ex, nth_error (activeExercises s) i = Some ex ->
                 nth_error (sets ex) j = None -> updateSet i j f s = Untyped)
  /\ (forall old,
        renderedSet i j s = Some old ->
        exists s',
          updateSet i j f s = Done s'
          /\ renderedSet i j s' = Some (assignField old f)
          /\ (forall k, k <> j -> renderedSet i k s' = renderedSet i k s)
          /\ (forall seconds,
                f = F_completed true -> rest_time_seconds old = Some seconds ->
                0 < seconds ->
                showRestTimer s' = true /\ currentRestTime s' = seconds)
          /\ (f <> F_completed true
              \/ rest_time_seconds old = None
              \/ (exists seconds, rest_time_seconds old = Some seconds /\ seconds <= 0) ->
              showRestTimer s' = showRestTimer s
              /\ currentRestTime s' = currentRestTime s)).
Proof.
  split; [|split].
  - intros Hi. unfold updateSet. now rewrite Hi.
  - intros ex Hi Hj. unfold updateSet. now rewrite Hi, Hj.
  - intros old Hr. unfold renderedSet in Hr.
    destruct (nth_error (activeExercises s) i) as [ex|] eqn:Hi; [|discriminate].
    assert (Hrs : forall s1 k,
               activeExercises s1
               = set_nth i (with_sets ex (set_nth j (assignField old f) (sets ex)))
                   (activeExercises s) ->
               renderedSet i k s1
               = nth_error (set_nth j (assignField old f) (sets ex)) k).
    { intros s1 k E. unfold renderedSet. rewrite E, (set_nth_hit _ _ _ Hi). reflexivity. }
    unfold updateSet. rewrite Hi, Hr.
    set (s1 := setActiveExercises _ s).
    assert (E1 : activeExercises s1
                 = set_nth i (with_sets ex (set_nth j (assignField old f) (sets ex)))
                     (activeExercises s)) by reflexivity.
    eexists. split; [reflexivity|].
    assert (Hex : forall n, activeExercises (openRestTimer n s1) = activeExercises s1)
      by reflexivity.
    split; [|split; [|split]].
    + rewrite (Hrs _ j).
      * eapply set_nth_hit; eauto.
      * destruct f as [| | |[]| | | |]; try exact E1.
        cbn. destruct (rest_time_seconds old) as [n|]; [|exact E1].
        destruct (negb (n =? 0) && (0 <? n)); exact E1.
    + intros k Hk. rewrite (Hrs _ k).
      * rewrite nth_error_set_nth_other by assumption.
        unfold renderedSet. now rewrite Hi.
      * destruct f as [| | |[]| | | |]; try exact E1.
        cbn. destruct (rest_time_seconds old) as [n|]; [|exact E1].
        destruct (negb (n =? 0) && (0 <? n)); exact E1.
    + intros seconds -> Hrest Hpos. cbn. rewrite Hrest.
      destruct (Z.eqb_spec seconds 0); [lia|].
      destruct (Z.ltb_spec 0 seconds); [|lia]. cbn. auto.
    + intros [Hf|[Hn|(seconds & Hrest & Hle)]].
      * destruct f as [| | |[]| | | |]; try (split; reflexivity). congruence.
      * destruct f as [| | |[]| | | |]; try (split; reflexivity).
        cbn. rewrite Hn. split; reflexivity.
      * destruct f as [| | |[]| | | |]; try (split; reflexivity).
        cbn. rewrite Hrest.
        destruct (Z.ltb_spec 0 seconds); [lia|]. rewrite andb_false_r. split; reflexivity.
Qed.

(** X9.  The elapsed time is recomputed from the start timestamp at
    every tick, never counted up: after startWorkout, whatever ticks
    came or were missed before, the timer after a tick at time [last]
    is the whole number of seconds since the start, and ticking
    changes nothing else. *)
Theorem elapsed_time_is_recomputed (startTime : Z) (earlier : list Z) (last : Z) (s : State) :
  timer (fold_left (fun st now => elapsedTick now st) (earlier ++ [last])
           (startWorkout startTime s))
  = (last - startTime) / 1000
  /\ fold_left (fun st now => elapsedTick now st) (earlier ++ [last])
       (startWorkout startTime s)
     = elapsedTick last (startWorkout startTime s)
  /\ activeExercises
       (fold_left (fun st now => elapsedTick now st) (earlier ++ [last])
          (startWorkout startTime s))
     = activeExercises s
  /\ (startTime <= last ->
      0 <= (last - startTime) / 1000
      /\ 1000 * ((last - startTime) / 1000) <= last - startTime
         < 1000 * ((last - startTime) / 1000) + 1000).
Proof.
  assert (G : forall ticks s0,
             isWorkoutActive s0 = true -> workoutStartTime s0 = Some startTime ->
             fold_left (fun st now => elapsedTick now st) (ticks ++ [last]) s0
             = elapsedTick last s0).
  { induction ticks as [|t ticks IH]; intros s0 Ha Ht; cbn; [reflexivity|].
    rewrite IH.
    - unfold elapsedTick. rewrite Ha, Ht. cbn. reflexivity.
    - unfold elapsedTick. now rewrite Ha, Ht.
    - unfold elapsedTick. now rewrite Ha, Ht. }
  rewrite (G earlier (startWorkout startTime s) eq_refl eq_refl).
  split; [reflexivity|]. split; [reflexivity|]. split; [reflexivity|].
  intros Hle. split.
  - apply Z.div_pos; lia.
  - pose proof (Z.mul_div_le (last - startTime) 1000 ltac:(lia)).
    pose proof (Z.mul_succ_div_gt (last - startTime) 1000 ltac:(lia)). lia.
Qed.

End Undo.

(* ================================================================== *)
(** * Which tables a write touches *)

Section TableFrames.
Context {J : JsNumber}.
Variable engine_ok : Insert -> Db -> bool.

Lemma ret_keeps {A} (t : TableName) (a : A) : keeps t (ret a).
Proof. intros w. reflexivity. Qed.

Lemma bind_keeps {A B} (t : TableName) (m : Async A) (k : A -> Async B) :
  keeps t m -> (forall a, keeps t (k a)) -> keeps t (bind m k).
Proof.
  intros Hm Hk w. unfold bind. specialize (Hm w).
  destruct (m w) as [w1 [a|]]; cbn in *.
  - now rewrite Hk.
  - exact Hm.
Qed.

Lemma runAsync_keeps (t : TableName) (i : Insert) :
  into i <> t -> keeps t (runAsync engine_ok i).
Proof.
  intros Hne w. unfold runAsync.
  destruct (schema_accepts i && engine_ok i (db w)); [|reflexivity].
  cbn. now apply table_set_table_other.
Qed.

Lemma getFirstAsync_keeps (t : TableName) (userId exerciseId : Z) (recordType : string) :
  keeps t (getFirstAsync userId exerciseId recordType).
Proof. intros w. reflexivity. Qed.

Lemma show_keeps (t : TableName) (p : Popup) : keeps t (show p).
Proof. intros w. reflexivity. Qed.

Lemma saveSets_keeps (t : TableName) (u : User) (workoutExerciseId : Z)
    (ss : list WorkoutSet) :
  keeps t (saveSets engine_ok u workoutExerciseId ss).
Proof.
  intros w. now rewrite saveSets_world.
Qed.

Lemma saveExercises_keeps (t : TableName) (u : User) (workoutId : Z)
    (exs : list ActiveExercise) :
  t <> workout_exercises ->
  forall i, keeps t (saveExercises engine_ok u workoutId i exs).
Proof.
  intros Ht. induction exs as [|ex exs IH]; intros i; cbn [saveExercises].
  - apply ret_keeps.
  - apply bind_keeps; [apply runAsync_keeps; cbn; congruence|intros weid].
    apply bind_keeps; [apply saveSets_keeps|intros _; apply IH].
Qed.

Lemma saveWorkout_keeps (t : TableName) (u : User) (startTime endTime : Z) (s : State) :
  t <> workouts -> t <> workout_exercises ->
  keeps t (saveWorkout engine_ok u startTime endTime s).
Proof.
  intros H1 H2. unfold saveWorkout.
  apply bind_keeps; [apply runAsync_keeps; cbn; congruence|intros workoutId].
  apply bind_keeps; [now apply saveExercises_keeps|intros _; apply ret_keeps].
Qed.

Lemma check1RM_keeps (t : TableName) (u : User) (workoutId : Z) (ex : ActiveExercise)
    (cs : list WorkoutSet) :
  t <> personal_records -> keeps t (check1RM engine_ok u workoutId ex cs).
Proof.
  intros Ht. unfold check1RM.
  destruct (maxWeightOf cs) as [maxWeight|]; [|apply ret_keeps].
  destruct (maxWeightSetOf cs) as [m|]; [|apply ret_keeps].
  apply bind_keeps; [apply getFirstAsync_keeps|intros existing].
  destruct (beats _ existing); [|apply ret_keeps].
  apply bind_keeps; [apply runAsync_keeps; cbn; congruence|intros _; apply show_keeps].
Qed.

Lemma checkVolume_keeps (t : TableName) (u : User) (workoutId : Z) (ex : ActiveExercise)
    (cs : list WorkoutSet) :
  t <> personal_records -> keeps t (checkVolume engine_ok u workoutId ex cs).
Proof.
  intros Ht. unfold checkVolume.
  apply bind_keeps; [apply getFirstAsync_keeps|intros existing].
  destruct (beats _ existing); [|apply ret_keeps].
  apply bind_keeps; [apply runAsync_keeps; cbn; congruence|intros _; apply ret_keeps].
Qed.

Lemma checkExercises_keeps (t : TableName) (u : User) (workoutId : Z)
    (exs : list ActiveExercise) :
  t <> personal_records -> keeps t (checkExercises engine_ok u workoutId exs).
Proof.
  intros Ht. induction exs as [|ex exs IH]; cbn [checkExercises]; [apply ret_keeps|].
  apply bind_keeps; [|intros _; exact IH].
  unfold checkExercise. destruct (Nat.eqb _ 0); [apply ret_keeps|].
  apply bind_keeps; [now apply check1RM_keeps|intros _; now apply checkVolume_keeps].
Qed.

Lemma ret_addsRecords {A} (a : A) : addsRecords 0 (ret a).
Proof. intros w. exists []. cbn. rewrite app_nil_r. split; [reflexivity|lia]. Qed.

Lemma addsRecords_weaken {A} (n n' : nat) (m : Async A) :
  (n <= n')%nat -> addsRecords n m -> addsRecords n' m.
Proof.
  intros Hle H w. destruct (H w) as (added & E & Hl). exists added. split; [exact E|lia].
Qed.

Lemma bind_addsRecords {A B} (n1 n2 : nat) (m : Async A) (k : A -> Async B) :
  addsRecords n1 m -> (forall a, addsRecords n2 (k a)) -> addsRecords (n1 + n2) (bind m k).
Proof.
  intros Hm Hk w. unfold bind. destruct (Hm w) as (a1 & E1 & L1).
  destruct (m w) as [w1 [a|]]; cbn in *.
  - destruct (Hk a w1) as (a2 & E2 & L2). exists (a1 ++ a2).
    rewrite E2, E1, app_assoc, length_app. split; [reflexivity|lia].
  - exists a1. split; [exact E1|lia].
Qed.

Lemma runAsync_addsRecords (i : Insert) : addsRecords 1 (runAsync engine_ok i).
Proof.
  intros w. unfold runAsync.
  destruct (schema_accepts i && engine_ok i (db w)); cbn.
  - destruct (into i); cbn; try (exists []; rewrite app_nil_r; cbn; split; [reflexivity|lia]).
    eexists. split; [reflexivity|]. cbn. lia.
  - exists []. rewrite app_nil_r. cbn. split; [reflexivity|lia].
Qed.

Lemma same_db_addsRecords {A} (m : Async A) :
  (forall w, db (fst (m w)) = db w) -> addsRecords 0 m.
Proof.
  intros H w0. exists []. rewrite H, app_nil_r. split; [reflexivity|cbn; lia].
Qed.

Lemma check1RM_addsRecords (u : User) (workoutId : Z) (ex : ActiveExercise)
    (cs : list WorkoutSet) :
  addsRecords 1 (check1RM engine_ok u workoutId ex cs).
Proof.
  unfold check1RM.
  destruct (maxWeightOf cs) as [maxWeight|];
    [|eapply addsRecords_weaken; [|apply ret_addsRecords]; lia].
  destruct (maxWeightSetOf cs) as [m|];
    [|eapply addsRecords_weaken; [|apply ret_addsRecords]; lia].
  apply (@bind_addsRecords _ _ 0 1).
  - apply same_db_addsRecords. reflexivity.
  - intros existing. destruct (beats _ existing).
    + apply (@bind_addsRecords _ _ 1 0); [apply runAsync_addsRecords|].
      intros _. apply same_db_addsRecords. reflexivity.
    + eapply addsRecords_weaken; [|apply ret_addsRecords]. lia.
Qed.

Lemma checkVolume_addsRecords (u : User) (workoutId : Z) (ex : ActiveExercise)
    (cs : list WorkoutSet) :
  addsRecords 1 (checkVolume engine_ok u workoutId ex cs).
Proof.
  unfold checkVolume. apply (@bind_addsRecords _ _ 0 1).
  - apply same_db_addsRecords. reflexivity.
  - intros existing. destruct (beats _ existing).
    + apply (@bind_addsRecords _ _ 1 0);
        [apply runAsync_addsRecords|intros _; apply ret_addsRecords].
    + eapply addsRecords_weaken; [|apply ret_addsRecords]. lia.
Qed.

Lemma checkExercise_addsRecords (u : User) (workoutId : Z) (ex : ActiveExercise) :
  addsRecords 2 (checkExercise engine_ok u workoutId ex).
Proof.
  unfold checkExercise. destruct (Nat.eqb _ 0).
  - eapply addsRecords_weaken; [|apply ret_addsRecords]. lia.
  - apply (@bind_addsRecords _ _ 1 1);
      [apply check1RM_addsRecords|intros _; apply checkVolume_addsRecords].
Qed.

Lemma checkExercises_addsRecords (u : User) (workoutId : Z) (exs : list ActiveExercise) :
  addsRecords (2 * List.length exs) (checkExercises engine_ok u workoutId exs).
Proof.
  induction exs as [|ex exs IH]; cbn [checkExercises].
  - apply ret_addsRecords.
  - replace (2 * List.length (ex :: exs))%nat with (2 + 2 * List.length exs)%nat
      by (cbn [List.length]; lia).
    apply (@bind_addsRecords _ _ 2 (2 * List.length exs));
      [apply checkExercise_addsRecords|intros _; exact IH].
Qed.

(** X10.  checkPersonalRecords only ever adds rows to personal_records,
    at most two per exercise: it removes or changes no record row and
    leaves the workouts, workout_exercises and workout_sets tables
    exactly as the write left them, also when one of its inserts
    throws. *)
Theorem checkPersonalRecords_only_adds_records
    (u : User) (workoutId : Z) (exs : list ActiveExercise) (w : World) :
  t_workouts (db (checkPersonalRecords engine_ok u workoutId exs w)) = t_workouts (db w)
  /\ t_workout_exercises (db (checkPersonalRecords engine_ok u workoutId exs w))
     = t_workout_exercises (db w)
  /\ t_workout_sets (db (checkPersonalRecords engine_ok u workoutId exs w))
     = t_workout_sets (db w)
  /\ exists added,
       rows (t_personal_records (db (checkPersonalRecords engine_ok u workoutId exs w)))
       = rows (t_personal_records (db w)) ++ added
       /\ (List.length added <= 2 * List.length exs)%nat.
Proof.
  unfold checkPersonalRecords, try_catch.
  split; [|split; [|split]].
  - apply (checkExercises_keeps (t := workouts)). discriminate.
  - apply (checkExercises_keeps (t := workout_exercises)). discriminate.
  - apply (checkExercises_keeps (t := workout_sets)). discriminate.
  - apply checkExercises_addsRecords.
Qed.

End TableFrames.

(* ================================================================== *)
(** * Records and the end of a workout *)

Section RecordsAtEnd.
Context {J : JsNumber}.
Variable engine_ok : Insert -> Db -> bool.

Lemma hasNoSets_split (exs : list ActiveExercise) :
  forallb hasNoSets exs = true
  \/ exists ex, In ex exs /\ sets ex <> [].
Proof.
  induction exs as [|ex exs IH]; cbn; [now left|].
  unfold hasNoSets at 1. destruct (sets ex) as [|st ss] eqn:E; cbn.
  - destruct IH as [H|(ex' & Hin & Hne)]; [now left|right; eauto].
  - right. exists ex. split; [now left|]. rewrite E. discriminate.
Qed.

Lemma checkExercises_without_sets (u : User) (workoutId : Z) (exs : list ActiveExercise)
    (w : World) :
  forallb hasNoSets exs = true ->
  checkExercises engine_ok u workoutId exs w = (w, Some tt).
Proof.
  induction exs as [|ex exs IH]; cbn; [reflexivity|].
  intros H. apply andb_true_iff in H. destruct H as [Hex Hexs].
  unfold bind, checkExercise, completedSets. unfold hasNoSets in Hex.
  destruct (sets ex); [|discriminate]. cbn. now apply IH.
Qed.

Lemma saveWorkout_throws_with_sets (u : User) (startTime endTime : Z) (s : State)
    (w : World) :
  (exists ex, In ex (activeExercises s) /\ sets ex <> []) ->
  snd (saveWorkout engine_ok u startTime endTime s w) = None.
Proof.
  intros Hex. unfold saveWorkout, bind.
  destruct (runAsync engine_ok _ w) as [w1 [workoutId|]]; [|reflexivity].
  pose proof (@saveExercises_throws _ engine_ok u workoutId (activeExercises s) Hex
                0%nat w1) as Hs.
  destruct (saveExercises engine_ok u workoutId 0 (activeExercises s) w1) as [w2 [[]|]];
    cbn in *; [discriminate|reflexivity].
Qed.

(** X11.  However endWorkout ends (nothing to do, confirmation asked,
    write failed, workout saved) it leaves the personal_records table
    as it found it: a write that goes through only happens for a
    session without any set, for which there is nothing to evaluate,
    and a session with a set never gets as far as the evaluation. *)
Theorem endWorkout_never_writes_a_record
    (user : option User) (dbHandle : bool) (endTime : Z) (completionMessage : string)
    (s : State) (w : World) :
  t_personal_records (db (snd (endWorkout engine_ok user dbHandle endTime
                                 completionMessage s w)))
  = t_personal_records (db w).
Proof.
  unfold endWorkout.
  destruct user as [u|]; [|reflexivity]. destruct dbHandle; [|reflexivity].
  destruct (workoutStartTime s) as [startTime|]; [|reflexivity].
  destruct (Nat.eqb _ 0); [reflexivity|].
  pose proof (@saveWorkout_keeps _ engine_ok personal_records u startTime endTime s
                ltac:(discriminate) ltac:(discriminate) w) as Hk.
  cbn [table] in Hk.
  destruct (hasNoSets_split (activeExercises s)) as [Hnone|Hsome].
  - destruct (saveWorkout engine_ok u startTime endTime s w) as [w1 [workoutId|]];
      cbn in *; [|exact Hk].
    unfold checkPersonalRecords, try_catch.
    now rewrite checkExercises_without_sets.
  - pose proof (saveWorkout_throws_with_sets u startTime endTime s w Hsome) as Ht.
    destruct (saveWorkout engine_ok u startTime endTime s w) as [w1 [workoutId|]];
      cbn in *; [discriminate|exact Hk].
Qed.

Lemma find_app_found {A} (p : A -> bool) (xs ys : list A) (x : A) :
  find p xs = Some x -> find p (xs ++ ys) = Some x.
Proof.
  induction xs as [|y xs IH]; cbn; [discriminate|].
  destruct (p y); auto.
Qed.

Lemma find_app_missing {A} (p : A -> bool) (xs ys : list A) :
  find p xs = None -> find p (xs ++ ys) = find p ys.
Proof.
  induction xs as [|y xs IH]; cbn; [reflexivity|].
  destruct (p y); [discriminate|auto].
Qed.

Lemma selectRecord_after_growth (userId exerciseId : Z) (recordType : string)
    (d d' : Db) (added : list Row) (v : num) :
  rows (t_personal_records d') = rows (t_personal_records d) ++ added ->
  selectRecord userId exerciseId recordType d = Some v ->
  selectRecord userId exerciseId recordType d' = Some v.
Proof.
  unfold selectRecord. intros E H. rewrite E.
  destruct (find _ (rows (t_personal_records d))) as [r|] eqn:F; [|discriminate].
  now rewrite (find_app_found _ _ _ F).
Qed.

(** X12.  The record the evaluator compares against is the first one
    stored for (user, exercise, type).  Once such a record exists, the
    evaluation of any later workout leaves the looked-up value as it
    is: a better estimate is stored as a further row, and the next
    evaluation still compares against the old value. *)
Theorem first_record_stays_the_reference
    (userId exerciseId : Z) (recordType : string) (v : num)
    (u : User) (workoutId : Z) (exs : list ActiveExercise) (w : World) :
  selectRecord userId exerciseId recordType (db w) = Some v ->
  selectRecord userId exerciseId recordType
    (db (checkPersonalRecords engine_ok u workoutId exs w)) = Some v.
Proof.
  intros H.
  destruct (checkExercises_addsRecords engine_ok u workoutId exs w) as (added & E & _).
  eapply selectRecord_after_growth; eauto.
Qed.

Lemma selectRecord_of_new_row (userId exerciseId : Z) (recordType : string)
    (d : Db) (cols : list string) (vals : list Value) (id : Z) (x : num) :
  selectRecord userId exerciseId recordType d = None ->
  assoc "user_id" (combine cols vals) = Some (VInt userId) ->
  assoc "exercise_id" (combine cols vals) = Some (VInt exerciseId) ->
  assoc "record_type" (combine cols vals) = Some (VText recordType) ->
  assoc "value" (combine cols vals) = Some (VNum x) ->
  selectRecord userId exerciseId recordType
    (set_table personal_records
       {| rows := rows (t_personal_records d)
                  ++ [ {| rowid := id; cells := combine cols vals |} ];
          last_rowid := id |} d)
  = Some x.
Proof.
  unfold selectRecord. intros Hn Hu He Ht Hv. cbn.
  destruct (find _ (rows (t_personal_records d))) eqn:F; [discriminate|].
  rewrite (find_app_missing _ _ _ F). cbn.
  unfold int_cell_is, text_cell_is, cell. cbn. rewrite Hu, He, Ht.
  rewrite !Z.eqb_refl, String.eqb_refl. cbn. now rewrite Hv.
Qed.

(** X13.  Writing a record and reading it back: when no record of the
    type exists yet for (user, exercise) and the engine accepts the
    insert, the 1RM step stores the estimate and the volume step
    stores the volume, and the record query then returns exactly that
    value. *)
Theorem first_record_is_read_back
    (u : User) (workoutId : Z) (ex : ActiveExercise) (cs : list WorkoutSet) (w : World) :
  (forall maxWeight m,
      maxWeightOf cs = Some maxWeight -> maxWeightSetOf cs = Some m ->
      selectRecord (user_id u) (ex_id (exercise ex)) "1RM" (db w) = None ->
      engine_ok (insertRecord1RM u ex (estimated1RM maxWeight (reps m)) maxWeight m workoutId)
        (db w) = true ->
      selectRecord (user_id u) (ex_id (exercise ex)) "1RM"
        (db (fst (check1RM engine_ok u workoutId ex cs w)))
      = Some (estimated1RM maxWeight (reps m)))
  /\ (selectRecord (user_id u) (ex_id (exercise ex)) "volume" (db w) = None ->
      engine_ok (insertRecordVolume u ex (volumeCandidate cs) workoutId) (db w) = true ->
      selectRecord (user_id u) (ex_id (exercise ex)) "volume"
        (db (fst (checkVolume engine_ok u workoutId ex cs w)))
      = Some (volumeCandidate cs)).
Proof.
  split.
  - intros maxWeight m Hmax Hset Hnone Hok.
    unfold check1RM. rewrite Hmax, Hset. unfold bind at 1, getFirstAsync.
    rewrite Hnone. cbn [beats].
    rewrite bind_runAsync_accept by (rewrite Hok; reflexivity).
    cbn [show fst db showPopup set_db].
    apply selectRecord_of_new_row; try reflexivity. exact Hnone.
  - intros Hnone Hok.
    unfold checkVolume. unfold bind at 1, getFirstAsync.
    rewrite Hnone. cbn [beats].
    rewrite bind_runAsync_accept by (rewrite Hok; reflexivity).
    cbn [ret fst db set_db].
    apply selectRecord_of_new_row; try reflexivity. exact Hnone.
Qed.

End RecordsAtEnd.

(* ================================================================== *)
(** * The 1RM record once one is stored *)

Section RecordReplacement.
Context {J : JsNumber}.
Variable engine_ok : Insert -> Db -> bool.




End RecordReplacement.


(* ================================================================== *)
(** * What a write leaves behind when the engine raises no objection *)

Section Permissive.
Context {J : JsNumber}.
Variable engine_ok : Insert -> Db -> bool.
Hypothesis engine_accepts : forall i d, engine_ok i d = true.

Lemma saveExercises_permissive (u : User) (workoutId : Z) (exs : list ActiveExercise) :
  forall i w,
    rows (t_workout_exercises (db (fst (saveExercises engine_ok u workoutId i exs w))))
    = rows (t_workout_exercises (db w))
      ++ exerciseRowsFrom workoutId i (last_rowid (t_workout_exercises (db w)))
           (attempted exs)
    /\ snd (saveExercises engine_ok u workoutId i exs w)
       = if forallb hasNoSets exs then Some tt else None.
Proof.
  induction exs as [|ex exs IH]; intros i w.
  - cbn. now rewrite app_nil_r.
  - cbn [saveExercises].
    rewrite bind_runAsync_accept by (rewrite engine_accepts; reflexivity).
    set (w1 := set_db _ w).
    unfold bind. cbn [attempted forallb]. unfold hasNoSets at 1.
    destruct (sets ex) as [|st ss] eqn:Es.
    + cbn [saveSets ret]. destruct (IH (S i) w1) as [Hr Hs].
      rewrite Hr, Hs. subst w1. cbn. rewrite <- app_assoc. split; reflexivity.
    + rewrite saveSets_throws by discriminate. subst w1. cbn. split; reflexivity.
Qed.

Lemma saveWorkout_header_row
    (u : User) (startTime endTime : Z) (s : State) (w : World) :
  List.length
    (rows (t_workouts (db (fst (saveWorkout engine_ok u startTime endTime s w)))))
  = S (List.length (rows (t_workouts (db w))))
  /\ t_workout_sets (db (fst (saveWorkout engine_ok u startTime endTime s w)))
     = t_workout_sets (db w).
Proof.
  split.
  - unfold saveWorkout.
    rewrite bind_runAsync_accept by (rewrite engine_accepts; reflexivity).
    cbn [into insertWorkout table].
    set (w1 := set_db _ w).
    assert (K : keeps workouts
                  (bind (saveExercises engine_ok u (last_rowid (t_workouts (db w)) + 1) 0
                           (activeExercises s))
                        (fun _ => ret (last_rowid (t_workouts (db w)) + 1)))).
    { apply bind_keeps; [apply saveExercises_keeps; discriminate|intros _; apply ret_keeps]. }
    specialize (K w1). cbn [table] in K. rewrite K. subst w1. cbn.
    rewrite length_app. cbn. lia.
  - apply (@saveWorkout_keeps _ engine_ok workout_sets u startTime endTime s
             ltac:(discriminate) ltac:(discriminate) w).
Qed.

(** X14.  With an engine that raises no objection of its own, the
    write of endWorkout always adds the header row; it adds the rows
    of the exercises in order up to and including the first exercise
    that has a set, adds no set row, and returns the workout id only
    for a session in which no exercise has a set. *)
Theorem write_stops_at_the_first_set
    (u : User) (startTime endTime : Z) (s : State) (w : World) :
  rows (t_workouts (db (fst (saveWorkout engine_ok u startTime endTime s w))))
  = rows (t_workouts (db w))
    ++ [ {| rowid := last_rowid (t_workouts (db w)) + 1;
            cells := combine
                       (columns (insertWorkout u startTime endTime (activeExercises s)
                                   (workoutNotes s)))
                       (values (insertWorkout u startTime endTime (activeExercises s)
                                  (workoutNotes s))) |} ]
  /\ rows (t_workout_exercises
             (db (fst (saveWorkout engine_ok u startTime endTime s w))))
     = rows (t_workout_exercises (db w))
       ++ exerciseRowsFrom (last_rowid (t_workouts (db w)) + 1) 0
            (last_rowid (t_workout_exercises (db w))) (attempted (activeExercises s))
  /\ t_workout_sets (db (fst (saveWorkout engine_ok u startTime endTime s w)))
     = t_workout_sets (db w)
  /\ snd (saveWorkout engine_ok u startTime endTime s w)
     = (if forallb hasNoSets (activeExercises s)
        then Some (last_rowid (t_workouts (db w)) + 1)
        else None).
Proof.
  pose proof (@saveWorkout_keeps _ engine_ok workout_sets u startTime endTime s
                ltac:(discriminate) ltac:(discriminate) w) as Hsets.
  cbn [table] in Hsets.
  unfold saveWorkout in *.
  rewrite !bind_runAsync_accept by (rewrite engine_accepts; reflexivity).
  rewrite bind_runAsync_accept in Hsets by (rewrite engine_accepts; reflexivity).
  cbn [into insertWorkout table] in *.
  set (workoutId := last_rowid (t_workouts (db w)) + 1) in *.
  set (w1 := set_db _ w) in *.
  pose proof (@saveExercises_keeps _ engine_ok workouts u workoutId (activeExercises s)
                ltac:(discriminate) 0%nat w1) as Hw.
  destruct (saveExercises_permissive u workoutId (activeExercises s) 0 w1) as [Hr Hs].
  unfold bind in *.
  destruct (forallb hasNoSets (activeExercises s));
    destruct (saveExercises engine_ok u workoutId 0 (activeExercises s) w1) as [w2 [[]|]];
    cbn [fst snd ret table] in *; try discriminate;
    rewrite Hw, Hr; subst w1; cbn; repeat split; exact Hsets.
Qed.

Lemma saveWorkout_popups (u : User) (startTime endTime : Z) (s : State) (w : World) :
  popups (fst (saveWorkout engine_ok u startTime endTime s w)) = popups w.
Proof.
  assert (R : forall i w0, popups (fst (runAsync engine_ok i w0)) = popups w0).
  { intros i w0. unfold runAsync. destruct (_ && _); reflexivity. }
  assert (E : forall exs workoutId i w0,
             popups (fst (saveExercises engine_ok u workoutId i exs w0)) = popups w0).
  { induction exs as [|ex exs IH]; intros workoutId i w0; [reflexivity|].
    cbn [saveExercises]. unfold bind.
    specialize (R (insertWorkoutExercise workoutId i ex) w0).
    destruct (runAsync engine_ok (insertWorkoutExercise workoutId i ex) w0)
      as [w1 [weid|]]; cbn in R; [|exact R].
    pose proof (saveSets_world engine_ok u weid (sets ex) w1) as Hs.
    destruct (saveSets engine_ok u weid (sets ex) w1) as [w2 [[]|]]; cbn in Hs; subst w2.
    - now rewrite IH.
    - exact R. }
  unfold saveWorkout, bind.
  specialize (R (insertWorkout u startTime endTime (activeExercises s) (workoutNotes s)) w).
  destruct (runAsync engine_ok _ w) as [w1 [workoutId|]]; cbn in R; [|exact R].
  specialize (E (activeExercises s) workoutId 0%nat w1).
  destruct (saveExercises engine_ok u workoutId 0 (activeExercises s) w1) as [w2 [[]|]];
    cbn in *; congruence.
Qed.

Lemma endWorkout_fails_with_sets (u : User) (endTime startTime : Z)
    (completionMessage : string) (s : State) (w : World) :
  workoutStartTime s = Some startTime ->
  (exists ex, In ex (activeExercises s) /\ sets ex <> []) ->
  endWorkout engine_ok (Some u) true endTime completionMessage s w
  = (s, showPopup (ShowError "Save Error" "Failed to save workout. Please try again.")
          (fst (saveWorkout engine_ok u startTime endTime s w))).
Proof.
  intros Ht Hex. unfold endWorkout. rewrite Ht.
  pose proof (saveWorkout_throws_with_sets engine_ok u startTime endTime s w Hex) as Hn.
  assert (Hlen : Nat.eqb (List.length (activeExercises s)) 0 = false).
  { destruct Hex as (ex & Hin & _).
    destruct (activeExercises s) as [|e0 es]; [destruct Hin|reflexivity]. }
  rewrite Hlen.
  destruct (saveWorkout engine_ok u startTime endTime s w) as [w1 [id|]]; cbn in *;
    [discriminate|reflexivity].
Qed.

(** X15.  For a session in which some exercise has a set, pressing End
    again after "Save Error" repeats the same partial write: the
    session stays as it was and, with an engine that raises no
    objection, every attempt adds one more header row to workouts and
    one more "Save Error", while workout_sets stays as it was. *)
Theorem every_retry_adds_a_header_row
    (u : User) (startTime : Z) (completionMessage : string) (s : State) :
  workoutStartTime s = Some startTime ->
  (exists ex, In ex (activeExercises s) /\ sets ex <> []) ->
  forall (times : list Z) (w : World),
    fst (endWorkoutAt engine_ok (Some u) times completionMessage s w) = s
    /\ List.length
         (rows (t_workouts
                  (db (snd (endWorkoutAt engine_ok (Some u) times completionMessage s w)))))
       = (List.length (rows (t_workouts (db w))) + List.length times)%nat
    /\ t_workout_sets
         (db (snd (endWorkoutAt engine_ok (Some u) times completionMessage s w)))
       = t_workout_sets (db w)
    /\ popups (snd (endWorkoutAt engine_ok (Some u) times completionMessage s w))
       = popups w
         ++ repeat (ShowError "Save Error" "Failed to save workout. Please try again.")
              (List.length times).
Proof.
  intros Ht Hex times. induction times as [|endTime times IH]; intros w.
  - cbn. rewrite app_nil_r, Nat.add_0_r. auto.
  - cbn [endWorkoutAt]. rewrite (@endWorkout_fails_with_sets u endTime startTime completionMessage s w Ht Hex).
    destruct (saveWorkout_header_row u startTime endTime s w) as (Hw & Hsets).
    pose proof (saveWorkout_popups u startTime endTime s w) as Hp.
    destruct (IH (showPopup (ShowError "Save Error"
                               "Failed to save workout. Please try again.")
                    (fst (saveWorkout engine_ok u startTime endTime s w))))
      as (H1 & H2 & H3 & H4).
    rewrite H1, H2, H3, H4. cbn [db showPopup popups List.length repeat].
    rewrite Hw, Hsets, Hp.
    split; [reflexivity|]. split; [lia|]. split; [reflexivity|].
    now rewrite <- app_assoc.
Qed.

End Permissive.

(* ================================================================== *)
(** * The earlier writer against the same schema *)

Section LegacyWrite.
Context {J : JsNumber}.
Variable engine_ok : Insert -> Db -> bool.
Hypothesis engine_accepts : forall i d, engine_ok i d = true.

Lemma legacy_setRowsFrom_app (u : User) (workoutId : Z) (a b : list Legacy.WorkoutSet) :
  forall lastId,
    Legacy.setRowsFrom u workoutId lastId (a ++ b)
    = Legacy.setRowsFrom u workoutId lastId a
      ++ Legacy.setRowsFrom u workoutId (lastId + Z.of_nat (List.length a)) b.
Proof.
  induction a as [|st a IH]; intros lastId; cbn [Legacy.setRowsFrom app List.length].
  - now rewrite Z.add_0_r.
  - rewrite IH. cbn. do 3 f_equal. lia.
Qed.

Lemma legacy_setRowsFrom_length (u : User) (workoutId : Z) (ss : list Legacy.WorkoutSet) :
  forall lastId, List.length (Legacy.setRowsFrom u workoutId lastId ss) = List.length ss.
Proof.
  induction ss as [|st ss IH]; intros lastId; cbn; [reflexivity|now rewrite IH].
Qed.

Lemma legacy_setRowsFrom_workout (u : User) (workoutId : Z) (ss : list Legacy.WorkoutSet) :
  forall lastId r,
    In r (Legacy.setRowsFrom u workoutId lastId ss) ->
    int_cell_is r "workout_id" workoutId = true.
Proof.
  induction ss as [|st ss IH]; intros lastId r Hin; cbn in Hin; [destruct Hin|].
  destruct Hin as [<-|Hin]; [|eauto].
  unfold int_cell_is, cell. cbn. apply Z.eqb_refl.
Qed.

Lemma legacy_saveSets_permissive (u : User) (workoutId : Z) (ss : list Legacy.WorkoutSet) :
  forall w,
    snd (Legacy.saveSets engine_ok u workoutId ss w) = Some tt
    /\ rows (t_workout_sets (db (fst (Legacy.saveSets engine_ok u workoutId ss w))))
       = rows (t_workout_sets (db w))
         ++ Legacy.setRowsFrom u workoutId (last_rowid (t_workout_sets (db w))) ss
    /\ last_rowid (t_workout_sets (db (fst (Legacy.saveSets engine_ok u workoutId ss w))))
       = last_rowid (t_workout_sets (db w)) + Z.of_nat (List.length ss)
    /\ t_workouts (db (fst (Legacy.saveSets engine_ok u workoutId ss w)))
       = t_workouts (db w).
Proof.
  induction ss as [|st ss IH]; intros w.
  - cbn. rewrite app_nil_r, Z.add_0_r. auto.
  - cbn [Legacy.saveSets].
    rewrite !bind_runAsync_accept by (rewrite engine_accepts; reflexivity).
    set (w1 := set_db _ w).
    destruct (IH w1) as (H1 & H2 & H3 & H4).
    rewrite H1, H2, H3, H4. subst w1. cbn.
    rewrite <- app_assoc. repeat split. lia.
Qed.

Lemma legacy_saveExercises_permissive (u : User) (workoutId : Z)
    (exs : list Legacy.ActiveExercise) :
  forall w,
    snd (Legacy.saveExercises engine_ok u workoutId exs w) = Some tt
    /\ rows (t_workout_sets (db (fst (Legacy.saveExercises engine_ok u workoutId exs w))))
       = rows (t_workout_sets (db w))
         ++ Legacy.setRowsFrom u workoutId (last_rowid (t_workout_sets (db w)))
              (flat_map (@Legacy.sets J) exs)
    /\ last_rowid
         (t_workout_sets (db (fst (Legacy.saveExercises engine_ok u workoutId exs w))))
       = last_rowid (t_workout_sets (db w))
         + Z.of_nat (List.length (flat_map (@Legacy.sets J) exs))
    /\ t_workouts (db (fst (Legacy.saveExercises engine_ok u workoutId exs w)))
       = t_workouts (db w).
Proof.
  induction exs as [|ex exs IH]; intros w.
  - cbn. rewrite app_nil_r, Z.add_0_r. auto.
  - cbn [Legacy.saveExercises flat_map]. unfold bind.
    destruct (legacy_saveSets_permissive u workoutId (Legacy.sets ex) w)
      as (H1 & H2 & H3 & H4).
    destruct (Legacy.saveSets engine_ok u workoutId (Legacy.sets ex) w) as [w1 [[]|]];
      cbn in H1; [|discriminate]. cbn [fst] in *.
    destruct (IH w1) as (G1 & G2 & G3 & G4).
    rewrite G1, G2, G3, G4, H2, H3, H4.
    rewrite legacy_setRowsFrom_app, length_app, <- app_assoc.
    repeat split. lia.
Qed.

(** X16.  The earlier endWorkout of the same file binds workout_id and
    exercise_id, which the created workout_sets table declares: both
    of its statements fit the schema whatever they bind, and with an
    engine that raises no objection its write returns the workout id
    and stores exactly one row per set, in exercise and set order,
    each referring to the new workout. *)
Theorem legacy_write_stores_every_set
    (u : User) (startTime endTime : Z) (exs : list Legacy.ActiveExercise) (w : World) :
  (forall workoutId st, schema_accepts (Legacy.insertWorkoutSet u workoutId st) = true)
  /\ schema_accepts (@Legacy.insertWorkout J u startTime endTime) = true
  /\ snd (Legacy.saveWorkout engine_ok u startTime endTime exs w)
     = Some (last_rowid (t_workouts (db w)) + 1)
  /\ rows (t_workout_sets (db (fst (Legacy.saveWorkout engine_ok u startTime endTime exs w))))
     = rows (t_workout_sets (db w))
       ++ Legacy.setRowsFrom u (last_rowid (t_workouts (db w)) + 1)
            (last_rowid (t_workout_sets (db w))) (flat_map (@Legacy.sets J) exs)
  /\ List.length
       (Legacy.setRowsFrom u (last_rowid (t_workouts (db w)) + 1)
          (last_rowid (t_workout_sets (db w))) (flat_map (@Legacy.sets J) exs))
     = List.length (flat_map (@Legacy.sets J) exs)
  /\ (forall r,
        In r (Legacy.setRowsFrom u (last_rowid (t_workouts (db w)) + 1)
                (last_rowid (t_workout_sets (db w))) (flat_map (@Legacy.sets J) exs)) ->
        int_cell_is r "workout_id" (last_rowid (t_workouts (db w)) + 1) = true).
Proof.
  split; [reflexivity|]. split; [reflexivity|].
  assert (R : snd (Legacy.saveWorkout engine_ok u startTime endTime exs w)
              = Some (last_rowid (t_workouts (db w)) + 1)
              /\ rows (t_workout_sets
                         (db (fst (Legacy.saveWorkout engine_ok u startTime endTime exs w))))
                 = rows (t_workout_sets (db w))
                   ++ Legacy.setRowsFrom u (last_rowid (t_workouts (db w)) + 1)
                        (last_rowid (t_workout_sets (db w)))
                        (flat_map (@Legacy.sets J) exs)).
  { unfold Legacy.saveWorkout.
    rewrite !bind_runAsync_accept by (rewrite engine_accepts; reflexivity).
    cbn [into Legacy.insertWorkout table].
    set (workoutId := last_rowid (t_workouts (db w)) + 1).
    set (w1 := set_db _ w). unfold bind.
    destruct (legacy_saveExercises_permissive u workoutId exs w1) as (H1 & H2 & _ & _).
    destruct (Legacy.saveExercises engine_ok u workoutId exs w1) as [w2 [[]|]];
      cbn in H1; [|discriminate].
    cbn [fst snd ret] in *. rewrite H2. subst w1. cbn. split; reflexivity. }
  destruct R as [R1 R2]. split; [exact R1|]. split; [exact R2|].
  split; [apply legacy_setRowsFrom_length|].
  intros r. apply legacy_setRowsFrom_workout.
Qed.

End LegacyWrite.

(* ================================================================== *)
(** * The rest timer under its controls *)

Module RestTimerControlFacts.
Import RestTimer RestTimerControls.

Lemma applyEvent_budget (ev : Event) (t : Timer) :
  (completions (applyEvent ev t) + running (applyEvent ev t)
   <= completions t + running t + (if isPressStart ev then 1 else 0))%nat.
Proof.
  unfold running. destruct ev; cbn [applyEvent isPressStart].
  - unfold tick, intervalActive. destruct (isRunning t) eqn:Er; cbn; [|rewrite ?Er; lia].
    destruct (0 <? timeRemaining t); cbn; [|rewrite ?Er; lia].
    destruct (timeRemaining t <=? 1); cbn; rewrite ?Er; lia.
  - unfold handleStart. cbn. destruct (isRunning t); cbn; lia.
  - unfold handleReset. cbn. destruct (isRunning t); lia.
  - unfold adjustTime. destruct (isRunning t) eqn:Er; cbn; rewrite ?Er; lia.
  - destruct (nth_error presetTimes index) as [time|]; [|lia].
    unfold selectPresetTime. destruct (isRunning t) eqn:Er; cbn; rewrite ?Er; lia.
  - unfold onVisible. cbn. destruct (isRunning t); lia.
Qed.

Lemma runEvents_budget (evs : list Event) :
  forall t,
    (completions (runEvents evs t) + running (runEvents evs t)
     <= completions t + running t + starts evs)%nat.
Proof.
  unfold runEvents, starts.
  induction evs as [|ev evs IH]; intros t; cbn [fold_left filter]; [cbn; lia|].
  specialize (IH (applyEvent ev t)). pose proof (applyEvent_budget ev t) as H.
  destruct (isPressStart ev); cbn [List.length]; lia.
Qed.

Lemma applyEvent_completions_grow (ev : Event) (t : Timer) :
  (completions t <= completions (applyEvent ev t))%nat.
Proof.
  destruct ev; cbn [applyEvent]; try (cbn; lia).
  - unfold tick. destruct (intervalActive t); [|lia].
    destruct (timeRemaining t <=? 1); cbn; lia.
  - unfold adjustTime. destruct (negb (isRunning t)); cbn; lia.
  - destruct (nth_error presetTimes index); [|lia].
    unfold selectPresetTime. destruct (negb (isRunning t)); cbn; lia.
Qed.

(** X17.  Whatever the order of ticks and presses (start/pause, reset,
    adjust, preset, reopening), the timer signals completion at most
    once per press of the start button, and a signalled completion is
    never taken back. *)
Theorem at_most_one_completion_per_start (initialTime : Z) (evs more : list Event) :
  (completions (runEvents evs (mount initialTime)) <= starts evs)%nat
  /\ (completions (runEvents evs (mount initialTime))
      <= completions (runEvents (evs ++ more) (mount initialTime)))%nat.
Proof.
  split.
  - pose proof (runEvents_budget evs (mount initialTime)) as H.
    unfold running in H at 2. cbn in H. lia.
  - unfold runEvents. rewrite fold_left_app.
    generalize (fold_left (fun t ev => applyEvent ev t) evs (mount initialTime)) as t.
    induction more as [|ev more IH]; intros t; cbn [fold_left]; [lia|].
    pose proof (applyEvent_completions_grow ev t). specialize (IH (applyEvent ev t)). lia.
Qed.

Lemma applyEvent_inRange (ev : Event) (t : Timer) :
  inRange t -> inRange (applyEvent ev t).
Proof.
  unfold inRange. intros H. destruct ev; cbn [applyEvent].
  - unfold tick, intervalActive. destruct (isRunning t); cbn; [|lia].
    destruct (Z.ltb_spec 0 (timeRemaining t)); cbn; [|lia].
    destruct (Z.leb_spec (timeRemaining t) 1); cbn; lia.
  - unfold handleStart. cbn. destruct (Z.eqb_spec (timeRemaining t) 0); lia.
  - cbn. lia.
  - unfold adjustTime. destruct (negb (isRunning t)); cbn; lia.
  - destruct (nth_error presetTimes index) as [time|] eqn:E; [|lia].
    unfold selectPresetTime. destruct (negb (isRunning t)); cbn; [|lia].
    assert (0 <= time); [|lia].
    apply nth_error_In in E. cbn in E. intuition lia.
  - cbn. lia.
Qed.

(** X18.  Started from a non-negative duration, the remaining time
    never leaves the range from 0 to the selected time, whatever the
    order of ticks and presses; so the displayed time is never
    negative and the progress ring never overshoots. *)
Theorem remaining_time_stays_in_range (initialTime : Z) (evs : list Event) :
  0 <= initialTime ->
  0 <= timeRemaining (runEvents evs (mount initialTime))
    <= selectedTime (runEvents evs (mount initialTime)).
Proof.
  intros H. change (inRange (runEvents evs (mount initialTime))).
  unfold runEvents.
  assert (G : forall t, inRange t -> inRange (fold_left (fun t ev => applyEvent ev t) evs t)).
  { induction evs as [|ev evs IH]; intros t Ht; cbn; [exact Ht|].
    apply IH. now apply applyEvent_inRange. }
  apply G. unfold inRange. cbn. lia.
Qed.

(** X19.  Pausing a running timer that has time left, letting any
    number of seconds pass, and resuming gives back exactly the timer
    as it was paused: no second is lost or gained while paused and no
    completion is signalled. *)
Theorem pause_and_resume_loses_nothing (t : Timer) (k : nat) :
  isRunning t = true -> timeRemaining t <> 0 ->
  ticks k (handleStart t) = handleStart t
  /\ timeRemaining (handleStart t) = timeRemaining t
  /\ isRunning (handleStart t) = false
  /\ handleStart (ticks k (handleStart t)) = t.
Proof.
  intros Hr Ht.
  assert (Hp : handleStart t = {| timeRemaining := timeRemaining t;
                                  isRunning := false;
                                  selectedTime := selectedTime t;
                                  completions := completions t |}).
  { unfold handleStart. rewrite Hr. destruct (Z.eqb_spec (timeRemaining t) 0); [lia|].
    reflexivity. }
  assert (Hk : ticks k (handleStart t) = handleStart t).
  { apply RestTimerFacts.ticks_stopped. now rewrite Hp. }
  rewrite Hk. split; [reflexivity|]. rewrite Hp. cbn. split; [reflexivity|].
  split; [reflexivity|].
  unfold handleStart. cbn. destruct (Z.eqb_spec (timeRemaining t) 0); [lia|].
  destruct t; cbn in *. now subst.
Qed.

End RestTimerControlFacts.

(* ================================================================== *)
(** * Time display *)

Section TimeDisplay.

Lemma noColon_uint (d : Decimal.uint) : noColon (NilEmpty.string_of_uint d) = true.
Proof. induction d; cbn; auto. Qed.

Lemma noColon_toString (n : Z) : noColon (toString n) = true.
Proof.
  unfold toString. destruct (Z.to_int n) as [d|d]; cbn.
  - destruct d; try apply noColon_uint. reflexivity.
  - destruct d; try (apply (noColon_uint (_ d))); try apply noColon_uint. reflexivity.
Qed.

Lemma toString_inj (a b : Z) : toString a = toString b -> a = b.
Proof.
  unfold toString. intros H.
  assert (P : forall n, NilZero.int_of_string (NilZero.string_of_int (Z.to_int n))
                        = Some (Z.to_int n)).
  { intros n. apply NilZero.isi.
    - destruct n; cbn; try discriminate.
      intros E. injection E as E. now apply Unsigned.to_uint_nonnil in E.
    - destruct n; cbn; try discriminate.
      intros E. injection E as E. now apply Unsigned.to_uint_nonnil in E. }
  pose proof (P a) as Pa. rewrite H, P in Pa. injection Pa as Pa.
  symmetry. now apply DecimalZ.to_int_inj.
Qed.

Lemma append_colon_split (x x' y y' : string) :
  noColon x = true -> noColon x' = true ->
  String.append x (String.append ":" y) = String.append x' (String.append ":" y') ->
  x = x' /\ y = y'.
Proof.
  revert x'. induction x as [|c x IH]; intros [|c' x'] Hx Hx' H; cbn in *.
  - injection H as H. auto.
  - injection H as Hc _. subst c'. cbn in Hx'. discriminate.
  - injection H as Hc _. subst c. cbn in Hx. discriminate.
  - injection H as Hc H. subst c'.
    apply andb_true_iff in Hx, Hx'. destruct Hx as [_ Hx], Hx' as [_ Hx'].
    destruct (IH x' Hx Hx' H) as [-> ->]. auto.
Qed.

Lemma noColon_with_colon (x y : string) :
  noColon (String.append x (String.append ":" y)) = false.
Proof.
  induction x as [|c x IH]; [reflexivity|].
  change (noColon (String.append (String c x) (String.append ":" y)))
    with (negb (Ascii.eqb c ":") && noColon (String.append x (String.append ":" y))).
  rewrite IH. apply andb_false_r.
Qed.

Lemma length_append (x y : string) :
  String.length (String.append x y) = (String.length x + String.length y)%nat.
Proof. induction x as [|c x IH]; cbn; auto. Qed.

(** The two-digit fields, checked over the whole range 0..99. *)
Lemma pad2_table :
  forallb
    (fun a =>
       Nat.eqb (String.length (pad2 (Z.of_nat a))) 2
       && noColon (pad2 (Z.of_nat a))
       && forallb
            (fun b => implb (String.eqb (pad2 (Z.of_nat a)) (pad2 (Z.of_nat b)))
                            (Nat.eqb a b))
            (seq 0 100))
    (seq 0 100)
  = true.
Proof. vm_compute. reflexivity. Qed.

Lemma pad2_facts (n : Z) :
  0 <= n < 100 ->
  String.length (pad2 n) = 2%nat
  /\ noColon (pad2 n) = true
  /\ forall m, 0 <= m < 100 -> pad2 n = pad2 m -> n = m.
Proof.
  intros Hn. pose proof pad2_table as T. rewrite forallb_forall in T.
  specialize (T (Z.to_nat n)). rewrite Z2Nat.id in T by lia.
  assert (Hin : In (Z.to_nat n) (seq 0 100)) by (apply in_seq; lia).
  apply T in Hin. apply andb_true_iff in Hin. destruct Hin as [Hin Hinj].
  apply andb_true_iff in Hin. destruct Hin as [Hlen Hcol].
  split; [now apply Nat.eqb_eq|]. split; [exact Hcol|].
  intros m Hm E. rewrite forallb_forall in Hinj.
  specialize (Hinj (Z.to_nat m)). rewrite Z2Nat.id in Hinj by lia.
  assert (Hinm : In (Z.to_nat m) (seq 0 100)) by (apply in_seq; lia).
  apply Hinj in Hinm. rewrite E, String.eqb_refl in Hinm. cbn in Hinm.
  apply Nat.eqb_eq in Hinm. lia.
Qed.

Lemma formatTime_shape (seconds : Z) :
  0 <= seconds ->
  formatTime seconds
  = if 0 <? seconds / 3600 then
      String.append (toString (seconds / 3600))
        (String.append ":" (String.append (pad2 (seconds mod 3600 / 60))
           (String.append ":" (pad2 (seconds mod 60)))))
    else
      String.append (toString (seconds / 60)) (String.append ":" (pad2 (seconds mod 60))).
Proof.
  intros H. unfold formatTime. rewrite !Z.rem_mod_nonneg by lia.
  destruct (Z.ltb_spec 0 (seconds / 3600)) as [Hh|Hh]; [reflexivity|].
  assert (seconds / 3600 = 0) by (pose proof (Z.div_pos seconds 3600); lia).
  assert (seconds < 3600) by (apply Z.div_small_iff in H0; lia).
  now rewrite Z.mod_small by lia.
Qed.

(** X20.  The elapsed-time display of the workout screen: below one
    hour it shows minutes and two-digit seconds, from one hour on
    hours, two-digit minutes and two-digit seconds; and it never
    shows two different non-negative times the same way. *)
Theorem formatTime_display :
  (forall seconds,
      0 <= seconds < 3600 ->
      formatTime seconds
      = String.append (toString (seconds / 60)) (String.append ":" (pad2 (seconds mod 60)))
      /\ String.length (pad2 (seconds mod 60)) = 2%nat)
  /\ (forall seconds,
        3600 <= seconds ->
        formatTime seconds
        = String.append (toString (seconds / 3600))
            (String.append ":" (String.append (pad2 (seconds mod 3600 / 60))
               (String.append ":" (pad2 (seconds mod 60)))))
        /\ String.length (pad2 (seconds mod 3600 / 60)) = 2%nat
        /\ String.length (pad2 (seconds mod 60)) = 2%nat)
  /\ (forall a b, 0 <= a -> 0 <= b -> formatTime a = formatTime b -> a = b).
Proof.
  assert (Hs : forall n, 0 <= n -> 0 <= n mod 60 < 100)
    by (intros n Hn; pose proof (Z.mod_pos_bound n 60); lia).
  assert (Hm : forall n, 0 <= n -> 0 <= n mod 3600 / 60 < 100).
  { intros n Hn. pose proof (Z.mod_pos_bound n 3600 ltac:(lia)).
    split; [apply Z.div_pos; lia|].
    apply Z.div_lt_upper_bound; lia. }
  split; [|split].
  - intros seconds H. rewrite formatTime_shape by lia.
    destruct (Z.ltb_spec 0 (seconds / 3600)) as [Hh|Hh].
    + assert (seconds / 3600 = 0) by (apply Z.div_small; lia). lia.
    + split; [reflexivity|]. apply pad2_facts. apply Hs. lia.
  - intros seconds H. rewrite formatTime_shape by lia.
    destruct (Z.ltb_spec 0 (seconds / 3600)) as [Hh|Hh].
    + split; [reflexivity|]. split; apply pad2_facts; [apply Hm|apply Hs]; lia.
    + assert (1 <= seconds / 3600) by (apply Z.div_le_lower_bound; lia). lia.
  - intros a b Ha Hb E. rewrite !formatTime_shape in E by lia.
    destruct (pad2_facts (Hs a Ha)) as (_ & Csa & Isa).
    destruct (pad2_facts (Hs b Hb)) as (_ & Csb & _).
    destruct (pad2_facts (Hm a Ha)) as (_ & Cma & Ima).
    destruct (pad2_facts (Hm b Hb)) as (_ & Cmb & _).
    pose proof (Z.div_mod a 3600 ltac:(lia)) as Da.
    pose proof (Z.div_mod b 3600 ltac:(lia)) as Db.
    pose proof (Z.div_mod (a mod 3600) 60 ltac:(lia)) as Da'.
    pose proof (Z.div_mod (b mod 3600) 60 ltac:(lia)) as Db'.
    assert (Ra : (a mod 3600) mod 60 = a mod 60)
      by (apply Z.mod_mod_divide; exists 60; lia).
    assert (Rb : (b mod 3600) mod 60 = b mod 60)
      by (apply Z.mod_mod_divide; exists 60; lia).
    destruct (Z.ltb_spec 0 (a / 3600)) as [Hha|Hha];
      destruct (Z.ltb_spec 0 (b / 3600)) as [Hhb|Hhb].
    + apply append_colon_split in E; try apply noColon_toString.
      destruct E as [Eh E]. apply toString_inj in Eh.
      apply append_colon_split in E; try assumption.
      destruct E as [Em Es]. apply Ima in Em; [|apply Hm; lia].
      apply Isa in Es; [|apply Hs; lia]. lia.
    + apply append_colon_split in E; try apply noColon_toString.
      destruct E as [_ E]. rewrite <- E, noColon_with_colon in Csb. discriminate.
    + apply append_colon_split in E; try apply noColon_toString.
      destruct E as [_ E]. rewrite E, noColon_with_colon in Csa. discriminate.
    + apply append_colon_split in E; try apply noColon_toString.
      destruct E as [Em Es]. apply toString_inj in Em.
      apply Isa in Es; [|apply Hs; lia].
      pose proof (Z.div_mod a 60 ltac:(lia)). pose proof (Z.div_mod b 60 ltac:(lia)). lia.
Qed.

(** X21.  The rest timer's display: for a remaining time below 100
    minutes it is always five characters, two-digit minutes, a colon
    and two-digit seconds, and different times are shown
    differently. *)
Theorem formatRestTime_display :
  (forall seconds,
      0 <= seconds < 6000 ->
      formatRestTime seconds
      = String.append (pad2 (seconds / 60)) (String.append ":" (pad2 (seconds mod 60)))
      /\ String.length (formatRestTime seconds) = 5%nat)
  /\ (forall a b,
        0 <= a < 6000 -> 0 <= b < 6000 ->
        formatRestTime a = formatRestTime b -> a = b).
Proof.
  assert (Hs : forall n, 0 <= n -> 0 <= n mod 60 < 100)
    by (intros n Hn; pose proof (Z.mod_pos_bound n 60); lia).
  assert (Hm : forall n, 0 <= n < 6000 -> 0 <= n / 60 < 100).
  { intros n Hn. split; [apply Z.div_pos; lia|]. apply Z.div_lt_upper_bound; lia. }
  assert (Shape : forall seconds, 0 <= seconds ->
            formatRestTime seconds
            = String.append (pad2 (seconds / 60))
                (String.append ":" (pad2 (seconds mod 60)))).
  { intros seconds H. unfold formatRestTime. now rewrite Z.rem_mod_nonneg by lia. }
  split.
  - intros seconds H. rewrite Shape by lia. split; [reflexivity|].
    rewrite !length_append.
    destruct (pad2_facts (Hs seconds ltac:(lia))) as (-> & _ & _).
    destruct (pad2_facts (Hm seconds H)) as (-> & _ & _). reflexivity.
  - intros a b Ha Hb E. rewrite !Shape in E by lia.
    destruct (pad2_facts (Hm a Ha)) as (_ & Cma & Ima).
    destruct (pad2_facts (Hm b Hb)) as (_ & Cmb & _).
    destruct (pad2_facts (Hs a ltac:(lia))) as (_ & _ & Isa).
    apply append_colon_split in E; try assumption.
    destruct E as [Em Es]. apply Ima in Em; [|now apply Hm].
    apply Isa in Es; [|apply Hs; lia].
    pose proof (Z.div_mod a 60 ltac:(lia)). pose proof (Z.div_mod b 60 ltac:(lia)). lia.
Qed.

End TimeDisplay.

(* ================================================================== *)
(** * Exercise search *)

Section SearchFacts.
Context {J : JsNumber}.

Lemma prefix_iff (p s : string) :
  String.prefix p s = true <-> exists post, s = String.append p post.
Proof.
  revert s. induction p as [|a p IH]; intros [|b s]; cbn.
  - split; [intros _; exists EmptyString; reflexivity|reflexivity].
  - split; [intros _; exists (String b s); reflexivity|reflexivity].
  - split; [discriminate|]. intros [post H]. discriminate.
  - destruct (ascii_dec a b) as [->|Hne].
    + rewrite IH. split; intros [post H]; exists post; [now rewrite H|].
      now injection H.
    + split; [discriminate|]. intros [post H]. injection H as H _. congruence.
Qed.

Lemma includes_iff (s sub : string) :
  includes s sub = true <->
  exists pre post, s = String.append pre (String.append sub post).
Proof.
  induction s as [|c s IH].
  - cbn [includes]. rewrite orb_false_r, prefix_iff. split.
    + intros [post H]. exists EmptyString, post. exact H.
    + intros (pre & post & H). destruct pre; cbn in H; [eauto|discriminate].
  - cbn [includes]. rewrite orb_true_iff, prefix_iff, IH. split.
    + intros [[post H]|(pre & post & H)].
      * exists EmptyString, post. exact H.
      * exists (String c pre), post. cbn. now rewrite H.
    + intros (pre & post & H). destruct pre as [|c' pre]; cbn in H.
      * left. eauto.
      * right. injection H as _ H. eauto.
Qed.

Lemma includes_empty (s : string) : includes s "" = true.
Proof. destruct s; reflexivity. Qed.

Lemma append_assoc (a b c : string) :
  String.append (String.append a b) c = String.append a (String.append b c).
Proof. induction a as [|x a IH]; cbn; [reflexivity|now rewrite IH]. Qed.

Lemma lowerChar_upperChar (c : ascii) : lowerChar (upperChar c) = lowerChar c.
Proof.
  destruct c as [[] [] [] [] [] [] [] []]; vm_compute; reflexivity.
Qed.

Lemma lowerChar_idempotent (c : ascii) : lowerChar (lowerChar c) = lowerChar c.
Proof.
  destruct c as [[] [] [] [] [] [] [] []]; vm_compute; reflexivity.
Qed.

Lemma asciiLowerCase_upper (s : string) :
  asciiLowerCase (asciiUpperCase s) = asciiLowerCase s.
Proof.
  induction s as [|c s IH]; cbn; [reflexivity|].
  now rewrite lowerChar_upperChar, IH.
Qed.

Lemma asciiLowerCase_idempotent (s : string) :
  asciiLowerCase (asciiLowerCase s) = asciiLowerCase s.
Proof.
  induction s as [|c s IH]; cbn; [reflexivity|].
  now rewrite lowerChar_idempotent, IH.
Qed.

Lemma asciiLowerCase_append (a b : string) :
  asciiLowerCase (String.append a b)
  = String.append (asciiLowerCase a) (asciiLowerCase b).
Proof. induction a as [|x a IH]; cbn; [reflexivity|now rewrite IH]. Qed.

Lemma includes_narrower (s before sub after : string) :
  includes s (String.append before (String.append sub after)) = true ->
  includes s sub = true.
Proof.
  rewrite !includes_iff. intros (pre & post & ->).
  exists (String.append pre before), (String.append after post).
  now rewrite !append_assoc.
Qed.

(** X22.  The exercise picker on names and queries of ASCII characters.
    The case of letters does not matter, in the query (the query in
    capitals, or in lower case, lists what the query as typed lists)
    or in the names (a library with its names in capitals gives the
    same exercises).  Typing further characters before or after a
    query never brings in an exercise that the shorter query did not
    list.  Every exercise listed belongs to the library and to the
    selected category unless that is 'All', and the empty query lists
    the whole library under 'All' and otherwise the exercises of the
    selected category. *)
Theorem exercise_search_ignores_case
    (exercises : list Exercise) (searchQuery selectedCategory : string) :
  Forall (fun e => isAscii (ex_name e) = true) exercises ->
  isAscii searchQuery = true ->
  let inCapitals := fun e =>
    {| ex_id := ex_id e;
       ex_name := asciiUpperCase (ex_name e);
       category := category e;
       primary_muscle := primary_muscle e;
       equipment := equipment e;
       difficulty_level := difficulty_level e;
       instructions := instructions e |} in
  filteredExercises asciiLowerCase exercises (asciiUpperCase searchQuery) selectedCategory
  = filteredExercises asciiLowerCase exercises searchQuery selectedCategory
  /\ filteredExercises asciiLowerCase exercises (asciiLowerCase searchQuery) selectedCategory
     = filteredExercises asciiLowerCase exercises searchQuery selectedCategory
  /\ filteredExercises asciiLowerCase (map inCapitals exercises) searchQuery selectedCategory
     = map inCapitals (filteredExercises asciiLowerCase exercises searchQuery selectedCategory)
  /\ (forall before after e,
        isAscii before = true -> isAscii after = true ->
        In e (filteredExercises asciiLowerCase exercises
                (String.append before (String.append searchQuery after)) selectedCategory) ->
        In e (filteredExercises asciiLowerCase exercises searchQuery selectedCategory))
  /\ (forall e,
        In e (filteredExercises asciiLowerCase exercises searchQuery selectedCategory) ->
        In e exercises /\ (selectedCategory = "All" \/ category e = selectedCategory))
  /\ filteredExercises asciiLowerCase exercises "" selectedCategory
     = if String.eqb selectedCategory "All" then exercises
       else filter (fun e => String.eqb (category e) selectedCategory) exercises.
Proof.
  intros _ _ inCapitals. unfold filteredExercises.
  split; [now rewrite asciiLowerCase_upper|].
  split; [now rewrite asciiLowerCase_idempotent|].
  split; [|split; [|split]].
  - induction exercises as [|e es IH]; [reflexivity|].
    cbn [map filter]. rewrite IH.
    change (ex_name (inCapitals e)) with (asciiUpperCase (ex_name e)).
    change (category (inCapitals e)) with (category e).
    rewrite asciiLowerCase_upper.
    destruct (includes _ _ && _); reflexivity.
  - intros before after e _ _. rewrite !filter_In, !andb_true_iff.
    intros (Hin & Hinc & Hcat). split; [exact Hin|]. split; [|exact Hcat].
    rewrite !asciiLowerCase_append in Hinc. exact (includes_narrower _ _ _ _ Hinc).
  - intros e. rewrite filter_In, andb_true_iff, orb_true_iff, !String.eqb_eq.
    intros (Hin & _ & Hcat). split; [exact Hin|].
    destruct Hcat as [H|H]; [left|right]; congruence.
  - cbn [asciiLowerCase]. destruct (String.eqb selectedCategory "All").
    + transitivity (filter (fun _ : Exercise => true) exercises).
      * apply filter_ext. intros e. now rewrite includes_empty.
      * clear. induction exercises as [|e es IH]; cbn; [reflexivity|now rewrite IH].
    + apply filter_ext. intros e. now rewrite includes_empty.
Qed.

End SearchFacts.

(* ================================================================== *)
(** * The properties above on the fixtures *)

Lemma loadTemplate_installs_the_template_witness :
  nth_error [MoreFixtures.pushTemplate] 0 = Some MoreFixtures.pushTemplate
  /\ exists ex,
       nth_error (activeExercises
                    (loadTemplate [MoreFixtures.pushTemplate] 1000 false initialState)) 0
       = Some ex
       /\ List.length (sets ex) = 3%nat
       /\ dense (sets ex).
Proof.
  split; [reflexivity|].
  destruct (proj2 (@loadTemplate_installs_the_template QNumber
                     [MoreFixtures.pushTemplate] 1000 false initialState)
              0%nat MoreFixtures.pushTemplate eq_refl)
    as (ex & H1 & _ & _ & H4 & H5 & _).
  exists ex. split; [exact H1|]. split; [exact H4|exact H5].
Defined.

Lemma set_numbers_stay_dense_witness :
  exists s',
    runEvents MoreFixtures.afternoon initialState = Some s'
    /\ allDense s'.
Proof.
  destruct (runEvents MoreFixtures.afternoon initialState) as [s'|] eqn:E.
  - exists s'. split; [reflexivity|].
    apply (@set_numbers_stay_dense QNumber MoreFixtures.afternoon initialState s'
             (Forall_nil _) E).
  - exfalso. revert E. vm_compute. discriminate.
Defined.

Lemma active_iff_start_time_witness :
  exists s',
    runEvents MoreFixtures.afternoon initialState = Some s'
    /\ (isWorkoutActive s' = true <-> exists startTime, workoutStartTime s' = Some startTime).
Proof.
  destruct (runEvents MoreFixtures.afternoon initialState) as [s'|] eqn:E.
  - exists s'. split; [reflexivity|].
    apply (@active_iff_start_time QNumber MoreFixtures.afternoon s' E).
  - exfalso. revert E. vm_compute. discriminate.
Defined.

Lemma set_handlers_touch_one_exercise_witness :
  exists s',
    addSet 0 MoreFixtures.twoExercises = Some s'
    /\ onlySetsOf 0 MoreFixtures.twoExercises s'.
Proof.
  eexists. split; [reflexivity|].
  apply (@set_handlers_touch_one_exercise QNumber 0%nat MoreFixtures.twoExercises).
  left. reflexivity.
Defined.

Lemma removeSet_keeps_the_other_sets_witness :
  nth_error (activeExercises MoreFixtures.twoExercises) 1 = Some Fixtures.twoTopSets
  /\ exists s' ex',
       removeSet 1 0 MoreFixtures.twoExercises = Some s'
       /\ nth_error (activeExercises s') 1 = Some ex'
       /\ S (List.length (sets ex')) = 3%nat.
Proof.
  split; [reflexivity|].
  destruct (@removeSet_keeps_the_other_sets QNumber 1%nat 0%nat MoreFixtures.twoExercises
              Fixtures.twoTopSets eq_refl)
    as (s' & ex' & H1 & H2 & _ & H4 & _).
  exists s', ex'. split; [exact H1|]. split; [exact H2|].
  apply H4. cbn. lia.
Defined.

Lemma addSet_then_delete_restores_witness :
  exists s1,
    addSet 0 MoreFixtures.twoExercises = Some s1
    /\ removeSet 0 2 s1 = Some MoreFixtures.twoExercises.
Proof.
  eexists. split; [reflexivity|].
  apply (@addSet_then_delete_restores QNumber 0%nat MoreFixtures.twoExercises _
           Fixtures.warmupAndWork eq_refl).
  - intros [|[|[|i]]] st H; cbn in H; try discriminate; injection H as <-; reflexivity.
  - reflexivity.
Defined.

Lemma removeExercise_drops_one_witness :
  (0 <= 0)%nat
  /\ nth_error (activeExercises (removeExercise 0 MoreFixtures.twoExercises)) 0
     = Some Fixtures.twoTopSets.
Proof.
  split; [lia|].
  rewrite (proj1 (proj2 (proj2 (@removeExercise_drops_one QNumber 0%nat
                                  MoreFixtures.twoExercises))) 0%nat (le_n 0)).
  reflexivity.
Defined.

Lemma updateSet_effect_witness :
  renderedSet 0 1 MoreFixtures.twoExercises = Some (Fixtures.mkSet 2 5 100 true false)
  /\ exists s',
       updateSet 0 1 (F_completed true) MoreFixtures.twoExercises = Done s'
       /\ showRestTimer s' = true
       /\ currentRestTime s' = 90.
Proof.
  split; [reflexivity|].
  destruct (proj2 (proj2 (@updateSet_effect QNumber 0%nat 1%nat (F_completed true)
                            MoreFixtures.twoExercises))
              (Fixtures.mkSet 2 5 100 true false) eq_refl)
    as (s' & H1 & _ & _ & H4 & _).
  exists s'. split; [exact H1|]. apply (H4 90 eq_refl eq_refl). lia.
Defined.

Lemma elapsed_time_is_recomputed_witness :
  1000 <= 63500
  /\ timer (fold_left (fun st now => elapsedTick now st) ([2000; 3000] ++ [63500])
              (startWorkout 1000 initialState))
     = 62.
Proof.
  split; [lia|].
  apply (proj1 (@elapsed_time_is_recomputed QNumber 1000 [2000; 3000] 63500 initialState)).
Defined.

Lemma first_record_stays_the_reference_witness :
  selectRecord 1 7 "1RM" (Fixtures.storeWith1RM 100) = Some (100 : Q)
  /\ selectRecord 1 7 "1RM"
       (db (checkPersonalRecords Fixtures.permissive Fixtures.lifter 2
              [Fixtures.twoTopSets]
              {| db := Fixtures.storeWith1RM 100; popups := [] |}))
     = Some (100 : Q).
Proof.
  split; [reflexivity|].
  apply (@first_record_stays_the_reference QNumber Fixtures.permissive 1 7 "1RM" (100 : Q)
           Fixtures.lifter 2 [Fixtures.twoTopSets]
           {| db := Fixtures.storeWith1RM 100; popups := [] |}).
  reflexivity.
Defined.

Lemma first_record_is_read_back_witness :
  maxWeightOf (completedSets Fixtures.twoTopSets) = Some (100 : Q)
  /\ selectRecord 1 7 "1RM"
       (db (fst (check1RM Fixtures.permissive Fixtures.lifter 1 Fixtures.twoTopSets
                   (completedSets Fixtures.twoTopSets) Fixtures.emptyWorld)))
     = Some (estimated1RM (100 : Q) (5 : Q)).
Proof.
  split; [reflexivity|].
  apply (proj1 (@first_record_is_read_back QNumber Fixtures.permissive Fixtures.lifter 1
                  Fixtures.twoTopSets (completedSets Fixtures.twoTopSets)
                  Fixtures.emptyWorld)
           (100 : Q) (Fixtures.mkSet 2 5 100 true false));
    reflexivity.
Defined.

Lemma write_stops_at_the_first_set_witness :
  (forall i d, Fixtures.permissive i d = true)
  /\ snd (saveWorkout Fixtures.permissive Fixtures.lifter 100000 160500
            MoreFixtures.twoExercises Fixtures.emptyWorld) = None
  /\ List.length
       (rows (t_workout_exercises
                (db (fst (saveWorkout Fixtures.permissive Fixtures.lifter 100000 160500
                            MoreFixtures.twoExercises Fixtures.emptyWorld))))) = 1%nat.
Proof.
  split; [reflexivity|].
  destruct (@write_stops_at_the_first_set QNumber Fixtures.permissive
              (fun _ _ => eq_refl) Fixtures.lifter 100000 160500
              MoreFixtures.twoExercises Fixtures.emptyWorld) as (_ & H2 & _ & H4).
  split; [exact H4|]. rewrite H2. reflexivity.
Defined.

Lemma every_retry_adds_a_header_row_witness :
  workoutStartTime MoreFixtures.twoExercises = Some 100000
  /\ List.length
       (rows (t_workouts
                (db (snd (endWorkoutAt Fixtures.permissive (Some Fixtures.lifter)
                            [160500; 161000; 170000] "Well done"
                            MoreFixtures.twoExercises Fixtures.emptyWorld))))) = 3%nat.
Proof.
  split; [reflexivity|].
  apply (@every_retry_adds_a_header_row QNumber Fixtures.permissive (fun _ _ => eq_refl)
           Fixtures.lifter 100000 "Well done" MoreFixtures.twoExercises eq_refl).
  exists Fixtures.warmupAndWork. split; [left; reflexivity|discriminate].
Defined.

Lemma legacy_write_stores_every_set_witness :
  (forall i d, Fixtures.permissive i d = true)
  /\ snd (Legacy.saveWorkout Fixtures.permissive Fixtures.lifter 100000 160500
            MoreFixtures.legacySession Fixtures.emptyWorld) = Some 1
  /\ List.length
       (rows (t_workout_sets
                (db (fst (Legacy.saveWorkout Fixtures.permissive Fixtures.lifter
                            100000 160500 MoreFixtures.legacySession
                            Fixtures.emptyWorld))))) = 2%nat.
Proof.
  split; [reflexivity|].
  destruct (@legacy_write_stores_every_set QNumber Fixtures.permissive
              (fun _ _ => eq_refl) Fixtures.lifter 100000 160500
              MoreFixtures.legacySession Fixtures.emptyWorld)
    as (_ & _ & H3 & H4 & _).
  split; [exact H3|]. rewrite H4. reflexivity.
Defined.

Lemma remaining_time_stays_in_range_witness :
  0 <= 90
  /\ 0 <= RestTimer.timeRemaining
            (RestTimerControls.runEvents MoreFixtures.timerEvents (RestTimer.mount 90))
       <= RestTimer.selectedTime
            (RestTimerControls.runEvents MoreFixtures.timerEvents (RestTimer.mount 90)).
Proof.
  split; [lia|].
  apply (@RestTimerControlFacts.remaining_time_stays_in_range 90 MoreFixtures.timerEvents).
  lia.
Defined.

Lemma pause_and_resume_loses_nothing_witness :
  RestTimer.isRunning (RestTimer.startRun 3) = true
  /\ RestTimer.handleStart
       (RestTimer.ticks 5 (RestTimer.handleStart (RestTimer.startRun 3)))
     = RestTimer.startRun 3.
Proof.
  split; [reflexivity|].
  apply (RestTimerControlFacts.pause_and_resume_loses_nothing (RestTimer.startRun 3) 5
           eq_refl).
  discriminate.
Defined.

Lemma formatTime_display_witness :
  0 <= 65 < 3600
  /\ formatTime 65 = "1:05"
  /\ 3600 <= 3725
  /\ formatTime 3725 = "1:02:05".
Proof.
  split; [lia|]. split; [|split; [lia|]].
  - apply (proj1 (proj1 formatTime_display 65 ltac:(lia))).
  - apply (proj1 (proj1 (proj2 formatTime_display) 3725 ltac:(lia))).
Defined.

Lemma formatRestTime_display_witness :
  0 <= 90 < 6000
  /\ formatRestTime 90 = "01:30".
Proof.
  split; [lia|].
  apply (proj1 (proj1 formatRestTime_display 90 ltac:(lia))).
Defined.

Lemma exercise_search_ignores_case_witness :
  Forall (fun e => isAscii (ex_name e) = true) MoreFixtures.library
  /\ isAscii "press" = true
  /\ filteredExercises asciiLowerCase MoreFixtures.library "PRESS" "All"
     = filteredExercises asciiLowerCase MoreFixtures.library "press" "All"
  /\ map ex_name (filteredExercises asciiLowerCase MoreFixtures.library "PRESS" "All")
     = ["Bench Press"; "Leg Press"]
  /\ map ex_name (filteredExercises asciiLowerCase MoreFixtures.library "PRESS" "Legs")
     = ["Leg Press"]
  /\ (In Fixtures.benchPress
         (filteredExercises asciiLowerCase MoreFixtures.library "h pRess" "All")
       -> In Fixtures.benchPress
            (filteredExercises asciiLowerCase MoreFixtures.library "pRe" "All")).
Proof.
  assert (N : Forall (fun e => isAscii (ex_name e) = true) MoreFixtures.library)
    by (repeat constructor).
  split; [exact N|]. split; [reflexivity|].
  pose proof (proj1 (@exercise_search_ignores_case MoreFixtures.library "press" "All"
                       N eq_refl)) as Hall.
  pose proof (proj1 (@exercise_search_ignores_case MoreFixtures.library "press" "Legs"
                       N eq_refl)) as Hlegs.
  cbn [asciiUpperCase] in Hall, Hlegs.
  change (upperChar "p") with "P"%char in *. change (upperChar "r") with "R"%char in *.
  change (upperChar "e") with "E"%char in *. change (upperChar "s") with "S"%char in *.
  split; [exact Hall|]. split; [rewrite Hall; reflexivity|].
  split; [rewrite Hlegs; reflexivity|].
  apply (proj1 (proj2 (proj2 (proj2 (@exercise_search_ignores_case MoreFixtures.library
                                       "pRe" "All" N eq_refl))))
           "h " "ss" Fixtures.benchPress eq_refl eq_refl).
Defined.
